(** * Salat tracker: time arithmetic, window classification and completion
      tracking of [script.js], embedded and verified.

    The JavaScript of [script.js] is embedded shallowly:

    - a time of day is the string the code handles ("HH:MM"), a table entry
      is a [jsval] (a string, or [undefined] when the entry is missing);
    - numbers are the integers that a double represents exactly (magnitude
      at most 2^53) together with [NaN]; a computation that would leave
      that fragment has the outcome [OutOfModel];
    - the two records [completedPrayers] and [missedPrayers] are finite
      maps from day keys to finite maps from prayer names;
    - the clock [new Date()] is an explicit argument: the local time in
      milliseconds since the epoch.  Time values are kept in local time,
      the offset to UTC being taken as constant. *)

From Stdlib Require Import ZArith Lia Bool Ascii String DecimalString DecimalPos.
From stdpp Require Import gmap strings list fin_maps.

Local Open Scope string_scope.
Local Open Scope Z_scope.

(** ** JavaScript values and outcomes *)

Inductive jsval : Type :=
  | undefined
  | str (s : string).

Inductive jsnum : Type :=
  | NaN
  | Int (z : Z).

Inductive completion (A : Type) : Type :=
  | Normal (a : A)
  | TypeError
  | OutOfModel.
Arguments Normal {A} a.
Arguments TypeError {A}.
Arguments OutOfModel {A}.

Module JS.

(** Relational operators.  Two strings are compared by code units; when an
    operand is [undefined] both are converted to numbers, [undefined]
    becomes [NaN], and every comparison with [NaN] is false. *)
Definition ge (a b : jsval) : bool :=
  match a, b with
  | str x, str y => String.leb y x
  | _, _ => false
  end.

Definition le (a b : jsval) : bool :=
  match a, b with
  | str x, str y => String.leb x y
  | _, _ => false
  end.

Definition gt (a b : jsval) : bool :=
  match a, b with
  | str x, str y => String.ltb y x
  | _, _ => false
  end.

Definition lt (a b : jsval) : bool :=
  match a, b with
  | str x, str y => String.ltb x y
  | _, _ => false
  end.

(** [s.split(sep)] for a one-character separator. *)
Fixpoint split (sep : ascii) (s : string) : list string :=
  match s with
  | EmptyString => [EmptyString]
  | String c s' =>
      if Ascii.eqb c sep then EmptyString :: split sep s'
      else match split sep s' with
           | f :: fs => String c f :: fs
           | [] => [String c EmptyString]
           end
  end.

(** [s.padStart(n, "0")]. *)
Definition padStart0 (n : nat) (s : string) : string :=
  String.concat "" (replicate (n - String.length s) "0") ++ s.

(** The largest magnitude up to which every integer is a double. *)
Definition max_exact : Z := 2 ^ 53.

Definition exact (z : Z) : bool := (Z.abs z <=? max_exact).

(** *** [Number(s)] on the integer fragment *)

Definition code (c : ascii) : Z := Z.of_N (N_of_ascii c).

Definition is_digit (c : ascii) : bool := (48 <=? code c) && (code c <=? 57).

(** White space and line terminators among the code units below 256. *)
Definition is_space (c : ascii) : bool :=
  let n := code c in
  ((9 <=? n) && (n <=? 13)) || (n =? 32) || (n =? 160).

Fixpoint trim_start (s : string) : string :=
  match s with
  | String c s' => if is_space c then trim_start s' else s
  | EmptyString => EmptyString
  end.

Fixpoint trim_end (s : string) : string :=
  match s with
  | EmptyString => EmptyString
  | String c s' =>
      match trim_end s' with
      | EmptyString => if is_space c then EmptyString else String c EmptyString
      | t => String c t
      end
  end.

Definition trim (s : string) : string := trim_end (trim_start s).

(** Value of a run of decimal digits, [None] when another character
    occurs. *)
Fixpoint digits (acc : Z) (s : string) : option Z :=
  match s with
  | EmptyString => Some acc
  | String c s' =>
      if is_digit c then digits (10 * acc + (code c - 48)) s' else None
  end.

Definition unsigned_digits (s : string) : option Z :=
  match s with
  | EmptyString => None
  | _ => digits 0 s
  end.

(** An optional sign followed by at least one digit. *)
Definition signed_digits (s : string) : option Z :=
  match s with
  | String "+" s' => unsigned_digits s'
  | String "-" s' => Z.opp <$> unsigned_digits s'
  | _ => unsigned_digits s
  end.

Fixpoint all_chars (p : ascii → bool) (s : string) : bool :=
  match s with
  | EmptyString => true
  | String c s' => p c && all_chars p s'
  end.

Definition literal_char (c : ascii) : bool :=
  is_digit c || (c =? "+")%char || (c =? "-")%char || (c =? ".")%char
  || (c =? "e")%char || (c =? "E")%char.

Definition radix_prefix (s : string) : bool :=
  match s with
  | String "0" (String c _) =>
      (c =? "x")%char || (c =? "X")%char || (c =? "o")%char
      || (c =? "O")%char || (c =? "b")%char || (c =? "B")%char
  | _ => false
  end.

(** Every numeric literal of the [StringToNumber] grammar that is not a
    signed run of digits satisfies this test: such a literal is a radix
    literal, an infinity, or is written with digits, signs, a point and an
    exponent mark only.  A string failing the test and [signed_digits]
    is no literal at all. *)
Definition other_literal (s : string) : bool :=
  radix_prefix s || String.eqb s "Infinity" || String.eqb s "+Infinity"
  || String.eqb s "-Infinity" || all_chars literal_char s.

(** [Number(s)]: the empty string (after trimming) is 0, a signed run of
    digits is its value when a double holds it exactly, a string that is
    no numeric literal is [NaN]; [None] for the literals outside the
    integer fragment. *)
Definition Number (s : string) : option jsnum :=
  let t := trim s in
  match t with
  | EmptyString => Some (Int 0)
  | _ =>
      match signed_digits t with
      | Some z => if exact z then Some (Int z) else None
      | None => if other_literal t then None else Some NaN
      end
  end.

(** [a[i]] for an array of strings, and the conversion of a string or
    [undefined] to a number. *)
Definition nth (a : list string) (i : nat) : jsval :=
  match a !! i with
  | Some s => str s
  | None => undefined
  end.

Definition ToNumber (v : jsval) : option jsnum :=
  match v with
  | str s => Number s
  | undefined => Some NaN
  end.

(** [String(n)]. *)
Definition to_string (n : jsnum) : string :=
  match n with
  | NaN => "NaN"
  | Int z => NilZero.string_of_int (Z.to_int z)
  end.

(** Arithmetic on the integer fragment.  [NaN] is absorbing; a result of
    magnitude above 2^53 leaves the fragment. *)
Definition lift2 (f : Z → Z → Z) (a b : jsnum) : option jsnum :=
  match a, b with
  | Int x, Int y => if exact (f x y) then Some (Int (f x y)) else None
  | _, _ => Some NaN
  end.

Definition mul := lift2 Z.mul.
Definition add := lift2 Z.add.
Definition sub := lift2 Z.sub.

(** [Math.floor(a / d)] for a positive integer constant [d]: the quotient
    of an exact integer by [d] is rounded to a double that has the same
    floor. *)
Definition floor_div (a : jsnum) (d : Z) : jsnum :=
  match a with
  | Int x => Int (x / d)
  | NaN => NaN
  end.

(** [a % d] for a positive integer constant [d]: the remainder takes the
    sign of the dividend. *)
Definition rem (a : jsnum) (d : Z) : jsnum :=
  match a with
  | Int x => Int (Z.rem x d)
  | NaN => NaN
  end.

End JS.

(** ** TimeMath: the utility functions on "HH:MM" strings *)

Module TimeMath.

(** [isTimeInRange(current, start, end)]: [current >= start && current <= end]. *)
Definition isTimeInRange (current start end_ : jsval) : bool :=
  JS.ge current start && JS.le current end_.

(** Element [i] of [time.split(':').map(Number)] as the destructuring
    binds it: past the end of the array the binding is [undefined], which
    the arithmetic that follows converts to [NaN]. *)
Definition field (fs : list string) (i : nat) : option jsnum :=
  JS.ToNumber (JS.nth fs i).

(** [h * 60 + m + minutes]. *)
Definition totalMinutes (h m : jsnum) (minutes : Z) : option jsnum :=
  if JS.exact minutes then
    hm ← JS.mul h (Int 60);
    t ← JS.add hm m;
    JS.add t (Int minutes)
  else None.

Definition addMinutes (time : jsval) (minutes : Z) : completion string :=
  match time with
  | undefined => TypeError
  | str t =>
      let fs := JS.split ":" t in
      match h ← field fs 0; m ← field fs 1; totalMinutes h m minutes with
      | None => OutOfModel
      | Some total =>
          let newH := JS.rem (JS.floor_div total 60) 24 in
          let newM := JS.rem total 60 in
          Normal (JS.padStart0 2 (JS.to_string newH) ++ ":"
                  ++ JS.padStart0 2 (JS.to_string newM))
      end
  end.

Definition subtractMinutes (time : jsval) (minutes : Z) : completion string :=
  addMinutes time (- minutes).

End TimeMath.

(** ** Well-formed times, for stating the properties *)

(** The zero-padded text of hour [h] and minute [m], written the way
    [addMinutes] writes its result. *)
Definition hhmm (h m : Z) : string :=
  JS.padStart0 2 (JS.to_string (Int h)) ++ ":" ++ JS.padStart0 2 (JS.to_string (Int m)).

(** The text of a minute of the day. *)
Definition of_minutes (n : Z) : string := hhmm (n / 60) (n mod 60).

(** A well-formed "HH:MM": two digits, a colon, two digits, the hour below
    24 and the minute below 60. *)
Definition is_hhmm (t : string) : bool :=
  match t with
  | String a (String b (String k (String c (String d EmptyString)))) =>
      JS.is_digit a && JS.is_digit b && Ascii.eqb k ":" && JS.is_digit c
      && JS.is_digit d
      && (10 * (JS.code a - 48) + (JS.code b - 48) <? 24)
      && (10 * (JS.code c - 48) + (JS.code d - 48) <? 60)
  | _ => false
  end.

(** Minutes of the day of a well-formed time (0 on any other string). *)
Definition minutes_of (t : string) : Z :=
  match t with
  | String a (String b (String _ (String c (String d EmptyString)))) =>
      (10 * (JS.code a - 48) + (JS.code b - 48)) * 60
      + (10 * (JS.code c - 48) + (JS.code d - 48))
  | _ => 0
  end.

(** ** Objects with ordered keys *)

(** [prayerTimes] is an object whose keys [Object.keys] lists in insertion
    order: an association list, looked up by the first match and extended at
    the end. *)
Module Obj.

Definition t : Type := list (string * jsval).

Fixpoint get (o : t) (k : string) : jsval :=
  match o with
  | [] => undefined
  | (k', v) :: o' => if String.eqb k' k then v else get o' k
  end.

Fixpoint set (o : t) (k : string) (v : jsval) : t :=
  match o with
  | [] => [(k, v)]
  | (k', v') :: o' =>
      if String.eqb k' k then (k', v) :: o' else (k', v') :: set o' k v
  end.

Definition keys (o : t) : list string := map fst o.

(** [a.indexOf(x)]: the first position of [x], or -1. *)
Fixpoint indexOf (a : list string) (x : string) : Z :=
  match a with
  | [] => -1
  | y :: a' =>
      if String.eqb y x then 0
      else let i := indexOf a' x in if i <? 0 then -1 else i + 1
  end.

End Obj.

(** ** Dates *)

(** A [Date] object holds a time value, or is invalid ([NaN]). *)
Inductive timeValue : Type :=
  | InvalidDate
  | At (t : Z).

Module Date.

Definition msPerDay : Z := 86400000.

Definition Day (t : Z) : Z := t / msPerDay.
Definition TimeWithinDay (t : Z) : Z := t mod msPerDay.

(** Day number of the civil date [y]-[m]-[d] (month 1 to 12) in the
    proleptic Gregorian calendar, day 0 being 1 January 1970. *)
Definition days_from_civil (y m d : Z) : Z :=
  let y' := if m <=? 2 then y - 1 else y in
  let era := y' / 400 in
  let yoe := y' - era * 400 in
  let mp := if 2 <? m then m - 3 else m + 9 in
  let doy := (153 * mp + 2) / 5 + d - 1 in
  let doe := yoe * 365 + yoe / 4 - yoe / 100 + doy in
  era * 146097 + doe - 719468.

(** Year, month (1 to 12) and day of the month of a day number. *)
Definition civil_from_days (z : Z) : Z * Z * Z :=
  let z' := z + 719468 in
  let era := z' / 146097 in
  let doe := z' - era * 146097 in
  let yoe := (doe - doe / 1460 + doe / 36524 - doe / 146096) / 365 in
  let doy := doe - (365 * yoe + yoe / 4 - yoe / 100) in
  let mp := (5 * doy + 2) / 153 in
  let d := doy - (153 * mp + 2) / 5 + 1 in
  let m := if mp <? 10 then mp + 3 else mp - 9 in
  let y := yoe + era * 400 in
  (if m <=? 2 then y + 1 else y, m, d).

Definition getFullYear (t : Z) : Z := (civil_from_days (Day t)).1.1.
Definition getMonth (t : Z) : Z := (civil_from_days (Day t)).1.2 - 1.
Definition getDate (t : Z) : Z := (civil_from_days (Day t)).2.
Definition getDay (t : Z) : Z := (Day t + 4) mod 7.
Definition getHours (t : Z) : Z := TimeWithinDay t / 3600000.
Definition getMinutes (t : Z) : Z := (TimeWithinDay t / 60000) mod 60.

(** [MakeDay(year, month, date)]: the month index may lie outside 0..11 and
    carries into the year; [date] counts from the first of the month. *)
Definition MakeDay (year month date : Z) : Z :=
  let ym := year + month / 12 in
  let mn := month mod 12 in
  days_from_civil ym (mn + 1) 1 + date - 1.

(** [TimeClip]: a time value beyond 8.64e15 ms is [NaN]. *)
Definition TimeClip (t : Z) : timeValue :=
  if Z.abs t <=? 8640000000000000 then At t else InvalidDate.

(** [d.setDate(date)] on a valid date: same month and time of day. *)
Definition setDate (t : Z) (date : Z) : timeValue :=
  TimeClip (MakeDay (getFullYear t) (getMonth t) date * msPerDay + TimeWithinDay t).

(** [new Date(year, month, day)]: midnight of that day; a year from 0 to 99
    counts from 1900; any [NaN] argument gives an invalid date. *)
Definition make (year month day : jsnum) : timeValue :=
  match year, month, day with
  | Int y, Int m, Int d =>
      let yr := if (0 <=? y) && (y <=? 99) then 1900 + y else y in
      TimeClip (MakeDay yr m d * msPerDay)
  | _, _, _ => InvalidDate
  end.

(** [a < b] on dates: the time values are compared as numbers. *)
Definition lt (a b : timeValue) : bool :=
  match a, b with
  | At x, At y => x <? y
  | _, _ => false
  end.

End Date.

(** ** The schedule: the table of prayer times and today's list *)

(** The timings object of the API response. *)
Record timings : Type := {
  t_Fajr : jsval; t_Sunrise : jsval; t_Dhuhr : jsval;
  t_Asr : jsval; t_Maghrib : jsval; t_Isha : jsval
}.

Definition isFriday (now : Z) : bool := Date.getDay now =? 5.

(** The table [fetchPrayerTimes] builds from a response with code 200: the
    six timings in this order, and on a Friday the key [Jummah] added
    after them with the value of [Dhuhr]. *)
Definition fetchedTable (now : Z) (tm : timings) : Obj.t :=
  let prayerTimes :=
    [("Fajr", t_Fajr tm); ("Sunrise", t_Sunrise tm); ("Dhuhr", t_Dhuhr tm);
     ("Asr", t_Asr tm); ("Maghrib", t_Maghrib tm); ("Isha", t_Isha tm)] in
  if isFriday now then Obj.set prayerTimes "Jummah" (Obj.get prayerTimes "Dhuhr")
  else prayerTimes.

Definition defaultTimings : timings :=
  {| t_Fajr := str "05:00"; t_Sunrise := str "06:15"; t_Dhuhr := str "12:15";
     t_Asr := str "15:45"; t_Maghrib := str "18:00"; t_Isha := str "19:30" |}.

(** The table of [useDefaultPrayerTimes]. *)
Definition defaultTable (now : Z) : Obj.t := fetchedTable now defaultTimings.

(** The list [prayers] that every function builds from the weekday. *)
Definition prayers (friday : bool) : list string :=
  if friday then ["Fajr"; "Jummah"; "Asr"; "Maghrib"; "Isha"]
  else ["Fajr"; "Dhuhr"; "Asr"; "Maghrib"; "Isha"].

(** [prayer === 'Jummah' ? 'Dhuhr' : prayer] *)
Definition lookupName (prayer : string) : string :=
  if String.eqb prayer "Jummah" then "Dhuhr" else prayer.

(** ** WindowClassifier *)

Module Classifier.

Definition getEndTime (prayerTimes : Obj.t) (prayer : string) : jsval :=
  let keys := Obj.keys prayerTimes in
  let index := Obj.indexOf keys (lookupName prayer) in
  if String.eqb prayer "Fajr" then Obj.get prayerTimes "Sunrise"
  else if index <? Z.of_nat (length keys) - 1 then
    match keys !! Z.to_nat (index + 1) with
    | Some k => Obj.get prayerTimes k
    | None => undefined
    end
  else str "23:59".

(** [isInForbiddenTime(currentTime)]: the three calls of [addMinutes] come
    first, in this order, and a [TypeError] of one of them leaves the
    function. *)
Definition isInForbiddenTime (prayerTimes : Obj.t) (currentTime : jsval)
  : completion bool :=
  match TimeMath.addMinutes (Obj.get prayerTimes "Fajr") 90 with
  | Normal sunrise =>
      let sunriseEnd := Obj.get prayerTimes "Sunrise" in
      match TimeMath.subtractMinutes (Obj.get prayerTimes "Dhuhr") 10 with
      | Normal zenith =>
          let zenithEnd := Obj.get prayerTimes "Dhuhr" in
          match TimeMath.subtractMinutes (Obj.get prayerTimes "Maghrib") 15 with
          | Normal sunset =>
              let sunsetEnd := Obj.get prayerTimes "Maghrib" in
              Normal (TimeMath.isTimeInRange currentTime (str sunrise) sunriseEnd
                      || TimeMath.isTimeInRange currentTime (str zenith) zenithEnd
                      || TimeMath.isTimeInRange currentTime (str sunset) sunsetEnd)
          | TypeError => TypeError
          | OutOfModel => OutOfModel
          end
      | TypeError => TypeError
      | OutOfModel => OutOfModel
      end
  | TypeError => TypeError
  | OutOfModel => OutOfModel
  end.

End Classifier.

(** ** CompletionTracker *)

(** The entry [{date, time}] of a missed prayer. *)
Record missedEntry : Type := { date : string; time : jsval }.

(** The global variables of the script that the tracker reads and writes. *)
Record globals : Type := {
  prayerTimes : Obj.t;
  missedPrayers : gmap string (gmap string missedEntry);
  completedPrayers : gmap string (gmap string bool)
}.

(** The globals as the script declares them. *)
Definition initial : globals :=
  {| prayerTimes := []; missedPrayers := ∅; completedPrayers := ∅ |}.

(** [getTodayKey()]: day, month and year, not padded. *)
Definition getTodayKey (now : Z) : string :=
  JS.to_string (Int (Date.getDate now)) ++ "-"
  ++ JS.to_string (Int (Date.getMonth now + 1)) ++ "-"
  ++ JS.to_string (Int (Date.getFullYear now)).

(** The zero-padded hours and minutes of the clock. *)
Definition currentTime (now : Z) : string :=
  JS.padStart0 2 (JS.to_string (Int (Date.getHours now))) ++ ":"
  ++ JS.padStart0 2 (JS.to_string (Int (Date.getMinutes now))).

(** [completedPrayers[day] && completedPrayers[day][prayer]] as a condition. *)
Definition isCompleted (g : globals) (day prayer : string) : bool :=
  match completedPrayers g !! day with
  | Some b => bool_decide (b !! prayer = Some true)
  | None => false
  end.

(** [missedPrayers[day] && missedPrayers[day][prayer]] as a condition: an
    entry is an object, hence true when present. *)
Definition isMissed (g : globals) (day prayer : string) : bool :=
  match missedPrayers g !! day with
  | Some b => bool_decide (is_Some (b !! prayer))
  | None => false
  end.

(** The entry written for a missed prayer. *)
Definition entryOf (g : globals) (todayKey prayer : string) : missedEntry :=
  {| date := todayKey; time := Obj.get (prayerTimes g) (lookupName prayer) |}.

Module Tracker.

(** [delete o[day][prayer]; if (Object.keys(o[day]).length === 0) delete o[day]] *)
Definition removeEntry {A} (o : gmap string (gmap string A)) (day prayer : string)
  : gmap string (gmap string A) :=
  match o !! day with
  | Some b =>
      let b' := delete prayer b in
      if decide (size b' = 0%nat) then delete day o else <[day := b']> o
  | None => o
  end.

(** [if (!o[day]) o[day] = {}; o[day][prayer] = v] *)
Definition putEntry {A} (o : gmap string (gmap string A)) (day prayer : string) (v : A)
  : gmap string (gmap string A) :=
  <[day := <[prayer := v]> (default ∅ (o !! day))]> o.

(** [if (!o[day]) o[day] = {}] *)
Definition ensureDay {A} (o : gmap string (gmap string A)) (day : string)
  : gmap string (gmap string A) :=
  match o !! day with
  | Some _ => o
  | None => <[day := ∅]> o
  end.

(** [togglePrayer(prayer)], [checked] being the state of the check box the
    handler reads. *)
Definition togglePrayer (now : Z) (prayer : string) (checked : bool) (g : globals)
  : globals :=
  let todayKey := getTodayKey now in
  let completed0 := ensureDay (completedPrayers g) todayKey in
  if checked then
    {| prayerTimes := prayerTimes g;
       completedPrayers := putEntry completed0 todayKey prayer true;
       missedPrayers :=
         if isMissed g todayKey prayer
         then removeEntry (missedPrayers g) todayKey prayer
         else missedPrayers g |}
  else
    let endTime := Classifier.getEndTime (prayerTimes g) prayer in
    {| prayerTimes := prayerTimes g;
       completedPrayers := removeEntry completed0 todayKey prayer;
       missedPrayers :=
         if JS.gt (str (currentTime now)) endTime
         then putEntry (missedPrayers g) todayKey prayer (entryOf g todayKey prayer)
         else missedPrayers g |}.

(** The body of the loop of [checkForMissedPrayers] for one prayer. *)
Definition checkOne (now : Z) (g : globals) (prayer : string) : globals :=
  let todayKey := getTodayKey now in
  let endTime := Classifier.getEndTime (prayerTimes g) prayer in
  if JS.gt (str (currentTime now)) endTime then
    if negb (isCompleted g todayKey prayer) then
      let missed0 := ensureDay (missedPrayers g) todayKey in
      if isMissed g todayKey prayer then
        {| prayerTimes := prayerTimes g; missedPrayers := missed0;
           completedPrayers := completedPrayers g |}
      else
        {| prayerTimes := prayerTimes g;
           missedPrayers := putEntry missed0 todayKey prayer (entryOf g todayKey prayer);
           completedPrayers := completedPrayers g |}
    else g
  else g.

Definition checkForMissedPrayers (now : Z) (g : globals) : globals :=
  foldl (checkOne now) g (prayers (isFriday now)).

(** [updateStats()]: the numbers written to [completedCount] and
    [remainingCount]. *)
Definition updateStats (now : Z) (g : globals) : Z * Z :=
  let todayKey := getTodayKey now in
  let completed :=
    match completedPrayers g !! todayKey with
    | Some b =>
        foldl (fun n prayer => if bool_decide (b !! prayer = Some true) then n + 1 else n)
              0 (prayers (isFriday now))
    | None => 0
    end in
  (completed, 5 - completed).

End Tracker.

(** ** The retention sweep *)

Module Retention.

(** [const [day, month, year] = dateKey.split('-');
     new Date(year, month - 1, day)]; [None] when a field is a numeric
    literal outside the integer fragment. *)
Definition dateOfKey (dateKey : string) : option timeValue :=
  let fs := JS.split "-" dateKey in
  day ← JS.ToNumber (JS.nth fs 0);
  month ← JS.ToNumber (JS.nth fs 1);
  year ← JS.ToNumber (JS.nth fs 2);
  month1 ← JS.sub month (Int 1);
  Some (Date.make year month1 day).

(** [new Date()] followed by [setDate(getDate() - 30)]. *)
Definition thirtyDaysAgo (now : Z) : timeValue :=
  Date.setDate now (Date.getDate now - 30).

(** One turn of [Object.keys(o).forEach(...)]: the bucket is deleted when
    its date is before the cutoff. *)
Definition sweepKey {A} (cutoff : timeValue) (acc : option (gmap string A))
    (dateKey : string) : option (gmap string A) :=
  o ← acc;
  d ← dateOfKey dateKey;
  Some (if Date.lt d cutoff then delete dateKey o else o).

Definition sweep {A} (cutoff : timeValue) (o : gmap string A)
  : option (gmap string A) :=
  foldl (sweepKey cutoff) (Some o) (map_to_list o).*1.

Definition cleanOldData (now : Z) (g : globals) : completion globals :=
  let cutoff := thirtyDaysAgo now in
  match sweep cutoff (missedPrayers g), sweep cutoff (completedPrayers g) with
  | Some missed, Some completed =>
      Normal {| prayerTimes := prayerTimes g; missedPrayers := missed;
                completedPrayers := completed |}
  | _, _ => OutOfModel
  end.

End Retention.

(** ** Runs of the tracker *)

Definition withTable (tbl : Obj.t) (g : globals) : globals :=
  {| prayerTimes := tbl; missedPrayers := missedPrayers g;
     completedPrayers := completedPrayers g |}.

(** What the request for the timings brings back: a response with code 200
    and its timings, a response with another code, or a failure of the
    request or of its decoding. *)
Inductive response : Type :=
  | Timings (tm : timings)
  | OtherCode
  | Failed.

Definition isString (v : jsval) : bool :=
  match v with
  | str _ => true
  | undefined => false
  end.

(** No timing is missing.  [displayPrayerTimes] formats the start and the end
    of every prayer of the list, and [formatTime] raises a [TypeError] on a
    missing time. *)
Definition complete (tm : timings) : bool :=
  isString (t_Fajr tm) && isString (t_Sunrise tm) && isString (t_Dhuhr tm)
  && isString (t_Asr tm) && isString (t_Maghrib tm) && isString (t_Isha tm).

(** [fetchPrayerTimes()] on the globals.  With code 200 the table is
    installed and displayed and the missed prayers are looked for; an
    exception on the way (the request failed, a timing is missing) is caught
    and the default table installed instead.  With another code nothing
    happens. *)
Definition fetchPrayerTimes (now : Z) (r : response) (g : globals) : globals :=
  match r with
  | Timings tm =>
      if complete tm
      then Tracker.checkForMissedPrayers now (withTable (fetchedTable now tm) g)
      else withTable (defaultTable now) g
  | OtherCode => g
  | Failed => withTable (defaultTable now) g
  end.

(** What one event does to the globals: the timings request completes, the
    user ticks or unticks a prayer, the minute timer fires, the sweep runs.
    The script runs the request and the sweep once, at start; the relation
    allows them at any time. *)
Inductive step : globals → globals → Prop :=
  | step_fetch now r g :
      step g (fetchPrayerTimes now r g)
  | step_toggle now prayer checked g :
      step g (Tracker.togglePrayer now prayer checked g)
  | step_tick now g :
      step g (Tracker.checkForMissedPrayers now g)
  | step_clean now g g' :
      Retention.cleanOldData now g = Normal g' → step g g'.

Definition reachable (g : globals) : Prop := rtc step initial g.

(** ** Notions for stating and proving the properties *)

(** A property checked on every integer below a bound. *)
Definition below (n : nat) (f : Z → bool) : bool :=
  forallb f (map Z.of_nat (seq 0 n)).

(** The character of a decimal digit, and the two-digit text of a number
    below 100. *)
Definition dch (v : Z) : ascii := ascii_of_N (Z.to_N (v + 48)).

Definition two (n : Z) : string :=
  String (dch (n / 10)) (String (dch (n mod 10)) EmptyString).

(** The minutes of the day of a table entry (0 when the entry is missing). *)
Definition entryMinutes (tbl : Obj.t) (name : string) : Z :=
  match Obj.get tbl name with
  | str t => minutes_of t
  | undefined => 0
  end.

Definition isWellFormed (v : jsval) : bool :=
  match v with
  | str t => is_hhmm t
  | undefined => false
  end.

(** The four entries the forbidden windows are computed from are
    well-formed times. *)
Definition wellFormedTable (tbl : Obj.t) : bool :=
  isWellFormed (Obj.get tbl "Fajr") && isWellFormed (Obj.get tbl "Sunrise")
  && isWellFormed (Obj.get tbl "Dhuhr") && isWellFormed (Obj.get tbl "Maghrib").

(** Membership of a closed interval of minutes. *)
Definition inClosed (lo hi n : Z) : bool := (lo <=? n) && (n <=? hi).

(** The forbidden window as the specification words it, on minutes of the
    day: [Fajr+90, Sunrise), [Dhuhr-10, Dhuhr), [Maghrib-15, Maghrib]. *)
Definition spec_isForbiddenWindow (fajr sunrise dhuhr maghrib now : Z) : bool :=
  ((fajr + 90 <=? now) && (now <? sunrise))
  || ((dhuhr - 10 <=? now) && (now <? dhuhr))
  || ((maghrib - 15 <=? now) && (now <=? maghrib)).

(** The value of [o[day][prayer]] when both keys are present. *)
Definition entry {A} (o : gmap string (gmap string A)) (day prayer : string)
  : option A :=
  o !! day ≫= λ b, b !! prayer.

(** The state of a (day, prayer) pair. *)
Inductive status : Type := pending | completed | missed.

Definition statusOf (g : globals) (day prayer : string) : status :=
  if isCompleted g day prayer then completed
  else if isMissed g day prayer then missed
  else pending.

(** The condition under which the re-evaluation writes a missed entry: the
    clock is past the end of the prayer and the prayer has no completed
    mark. *)
Definition due (now : Z) (g : globals) (prayer : string) : bool :=
  JS.gt (str (currentTime now)) (Classifier.getEndTime (prayerTimes g) prayer)
  && negb (isCompleted g (getTodayKey now) prayer).

(** The test of the sweep on one key: the date of the key is before the
    cutoff. *)
Definition older (cutoff : timeValue) (dateKey : string) : bool :=
  match Retention.dateOfKey dateKey with
  | Some d => Date.lt d cutoff
  | None => false
  end.

(** Every key of the two records has its fields in the integer fragment. *)
Definition modelledKey (dateKey : string) : bool :=
  match Retention.dateOfKey dateKey with
  | Some _ => true
  | None => false
  end.

Definition keysModelled (g : globals) : bool :=
  forallb modelledKey (map_to_list (missedPrayers g)).*1
  && forallb modelledKey (map_to_list (completedPrayers g)).*1.

(** No pair is in both records, and a completed mark is the value [true]. *)
Definition exclusive (g : globals) : Prop :=
  ∀ day prayer,
    (∀ v, entry (completedPrayers g) day prayer = Some v → v = true)
    ∧ (is_Some (entry (completedPrayers g) day prayer) →
       entry (missedPrayers g) day prayer = None).

(** The end of a prayer's window as the specification words it: Sunrise for
    Fajr, the sentinel for Isha, otherwise the start of the next prayer,
    Jummah standing for Dhuhr. *)
Definition spec_endTimeOf (tm : timings) (prayer : string) : jsval :=
  if String.eqb prayer "Fajr" then t_Sunrise tm
  else if String.eqb prayer "Isha" then str "23:59"
  else if String.eqb (lookupName prayer) "Dhuhr" then t_Asr tm
  else if String.eqb prayer "Asr" then t_Maghrib tm
  else if String.eqb prayer "Maghrib" then t_Isha tm
  else undefined.

(** The value of a list of decimal digits read from the left, as
    [JS.digits] reads a string. *)
Fixpoint uval (acc : Z) (u : Decimal.uint) : Z :=
  match u with
  | Decimal.Nil => acc
  | Decimal.D0 u => uval (10 * acc + 0) u
  | Decimal.D1 u => uval (10 * acc + 1) u
  | Decimal.D2 u => uval (10 * acc + 2) u
  | Decimal.D3 u => uval (10 * acc + 3) u
  | Decimal.D4 u => uval (10 * acc + 4) u
  | Decimal.D5 u => uval (10 * acc + 5) u
  | Decimal.D6 u => uval (10 * acc + 6) u
  | Decimal.D7 u => uval (10 * acc + 7) u
  | Decimal.D8 u => uval (10 * acc + 8) u
  | Decimal.D9 u => uval (10 * acc + 9) u
  end.

(** ** The remaining utility functions *)

(** Sequencing of two computations of the script: an exception of the first
    leaves the function. *)
Definition andThen {A B} (c : completion A) (k : A → completion B) : completion B :=
  match c with
  | Normal a => k a
  | TypeError => TypeError
  | OutOfModel => OutOfModel
  end.

(** A value of the integer fragment, or [OutOfModel]. *)
Definition inModel {A} (o : option A) : completion A :=
  match o with
  | Some a => Normal a
  | None => OutOfModel
  end.

Module Util.

(** The value of a character as a digit of the radix, if it is one. *)
Definition decimalDigit (c : ascii) : option Z :=
  if JS.is_digit c then Some (JS.code c - 48) else None.

Definition hexDigit (c : ascii) : option Z :=
  let n := JS.code c in
  if (48 <=? n) && (n <=? 57) then Some (n - 48)
  else if (97 <=? n) && (n <=? 102) then Some (n - 87)
  else if (65 <=? n) && (n <=? 70) then Some (n - 55)
  else None.

(** The value of the longest prefix of [s] made of digits of the radix;
    [acc] is [None] as long as no digit was read. *)
Fixpoint prefixValue (radix : Z) (digit : ascii → option Z) (acc : option Z)
    (s : string) : option Z :=
  match s with
  | EmptyString => acc
  | String c s' =>
      match digit c with
      | Some v => prefixValue radix digit (Some (radix * default 0 acc + v)) s'
      | None => acc
      end
  end.

(** [parseInt(s)] without a radix: leading white space is skipped, a sign is
    read, the prefix "0x" or "0X" selects radix 16, and the longest prefix of
    digits is the value; [NaN] when there is no digit.  [None] when the value
    is not an exact integer of the model. *)
Definition parseInt (s : string) : option jsnum :=
  let t := JS.trim_start s in
  let negative := match t with String "-" _ => true | _ => false end in
  let t1 := match t with
            | String "-" r => r
            | String "+" r => r
            | _ => t
            end in
  let value :=
    match t1 with
    | String "0" (String "x" r) => prefixValue 16 hexDigit None r
    | String "0" (String "X" r) => prefixValue 16 hexDigit None r
    | _ => prefixValue 10 decimalDigit None t1
    end in
  match value with
  | None => Some NaN
  | Some z => if JS.exact z then Some (Int (if negative then - z else z)) else None
  end.

(** A value as a template literal prints it. *)
Definition template (v : jsval) : string :=
  match v with
  | str s => s
  | undefined => "undefined"
  end.

(** [n >= k], [n > k] and [n < k] for an integer constant [k], and the truth
    value of a number: comparisons with [NaN] are false, 0 and [NaN] are
    false as conditions. *)
Definition numGe (n : jsnum) (k : Z) : bool :=
  match n with Int x => k <=? x | NaN => false end.

Definition numGt (n : jsnum) (k : Z) : bool :=
  match n with Int x => k <? x | NaN => false end.

Definition numLt (n : jsnum) (k : Z) : bool :=
  match n with Int x => x <? k | NaN => false end.

Definition truthy (n : jsnum) : bool :=
  match n with Int x => negb (x =? 0) | NaN => false end.

(** [formatTime(time24)]: the 12-hour text.  Only the split of a missing
    time raises an exception. *)
Definition formatTime (time24 : jsval) : completion string :=
  match time24 with
  | undefined => TypeError
  | str t =>
      let fs := JS.split ":" t in
      let hours := template (JS.nth fs 0) in
      let minutes := JS.nth fs 1 in
      andThen (inModel (parseInt hours)) (fun h =>
        let ampm := if numGe h 12 then "PM" else "AM" in
        let r := JS.rem h 12 in
        let h12 := if truthy r then r else Int 12 in
        Normal (JS.to_string h12 ++ ":" ++ template minutes ++ " " ++ ampm))
  end.

(** [h * 60 + m] on the first two fields of a split time. *)
Definition minutesOfDay (fs : list string) : option jsnum :=
  h ← TimeMath.field fs 0;
  m ← TimeMath.field fs 1;
  hm ← JS.mul h (Int 60);
  JS.add hm m.

(** [getTimeDifference(from, to)]. *)
Definition getTimeDifference (from to : jsval) : completion string :=
  match from, to with
  | str f, str t =>
      andThen
        (inModel
           (fromMinutes ← minutesOfDay (JS.split ":" f);
            toMinutes ← minutesOfDay (JS.split ":" t);
            diff ← JS.sub toMinutes fromMinutes;
            if numLt diff 0 then JS.add diff (Int (24 * 60)) else Some diff))
        (fun diffMinutes =>
           let hours := JS.floor_div diffMinutes 60 in
           let minutes := JS.rem diffMinutes 60 in
           if numGt hours 0
           then Normal (JS.to_string hours ++ "h " ++ JS.to_string minutes ++ "m")
           else Normal (JS.to_string minutes ++ "m"))
  | _, _ => TypeError
  end.

End Util.

(** ** What the script shows *)

(** The page is not modelled; each function returns the values it writes
    into it. *)
Module View.

(** The loop of [updateNextPrayer]: the first prayer of the list whose start
    is after the clock, with that start. *)
Fixpoint findNext (prayerTimes : Obj.t) (currentTime : string) (ps : list string)
  : option (string * jsval) :=
  match ps with
  | [] => None
  | prayer :: ps' =>
      let prayerTime := Obj.get prayerTimes (lookupName prayer) in
      if JS.lt (str currentTime) prayerTime then Some (prayer, prayerTime)
      else findNext prayerTimes currentTime ps'
  end.

(** [updateNextPrayer()]: the text of the element [nextPrayer]. *)
Definition updateNextPrayer (now : Z) (prayerTimes : Obj.t) : completion string :=
  match findNext prayerTimes (currentTime now) (prayers (isFriday now)) with
  | None =>
      andThen (Util.formatTime (Obj.get prayerTimes "Fajr")) (fun shown =>
        Normal ("Next: Fajr (Tomorrow) at " ++ shown))
  | Some (nextPrayer, nextTime) =>
      andThen (Util.getTimeDifference (str (currentTime now)) nextTime) (fun timeDiff =>
      andThen (Util.formatTime nextTime) (fun shown =>
        Normal ("Next: " ++ nextPrayer ++ " in " ++ timeDiff ++ " at " ++ shown)))
  end.

(** The classes of one prayer card. *)
Record cardStatus : Type := { cardName : string; active : bool; forbidden : bool }.

Definition statusOfCard (prayerTimes : Obj.t) (currentTime : string)
    (isForbidden : bool) (prayer : string) : cardStatus :=
  let prayerTime := Obj.get prayerTimes (lookupName prayer) in
  let endTime := Classifier.getEndTime prayerTimes prayer in
  let inRange := TimeMath.isTimeInRange (str currentTime) prayerTime endTime in
  {| cardName := prayer;
     active := inRange && negb isForbidden;
     forbidden := isForbidden && inRange |}.

(** [updatePrayerStatus()], the cards being on the page: whether the banner
    is shown, the classes of the cards, the text of the next prayer. *)
Definition updatePrayerStatus (now : Z) (prayerTimes : Obj.t)
  : completion (bool * list cardStatus * string) :=
  andThen (Classifier.isInForbiddenTime prayerTimes (str (currentTime now)))
    (fun isForbidden =>
       let cards := map (statusOfCard prayerTimes (currentTime now) isForbidden)
                        (prayers (isFriday now)) in
       andThen (updateNextPrayer now prayerTimes) (fun next =>
         Normal (isForbidden, cards, next))).

(** One card of [displayPrayerTimes]: the name, the start and the end as
    [formatTime] shows them, and whether the card is completed. *)
Record card : Type := {
  shownName : string; shownStart : string; shownEnd : string; isChecked : bool
}.

Definition displayCard (g : globals) (todayKey prayer : string) : completion card :=
  let time := Obj.get (prayerTimes g) prayer in
  let endTime := Classifier.getEndTime (prayerTimes g) prayer in
  andThen (Util.formatTime time) (fun start =>
  andThen (Util.formatTime endTime) (fun end_ =>
    Normal {| shownName := prayer; shownStart := start; shownEnd := end_;
              isChecked := isCompleted g todayKey prayer |})).

Fixpoint displayCards (g : globals) (todayKey : string) (ps : list string)
  : completion (list card) :=
  match ps with
  | [] => Normal []
  | prayer :: ps' =>
      andThen (displayCard g todayKey prayer) (fun c =>
      andThen (displayCards g todayKey ps') (fun cs => Normal (c :: cs)))
  end.

(** [displayPrayerTimes()]: the cards of today's list, in order. *)
Definition displayPrayerTimes (now : Z) (g : globals) : completion (list card) :=
  displayCards g (getTodayKey now) (prayers (isFriday now)).

(** [missedCounts[prayer]++; totalMissed++], the count starting at 0. *)
Definition countOne (prayer : string) (acc : gmap string Z * Z) : gmap string Z * Z :=
  (<[prayer := default 0 (acc.1 !! prayer) + 1]> acc.1, acc.2 + 1).

(** [displayMissedPrayers()]: the count of every prayer over all the days of
    the record, and the total.  The section is shown when the total is not
    0. *)
Definition displayMissedPrayers (g : globals) : gmap string Z * Z :=
  map_fold (fun _ bucket acc => map_fold (fun prayer _ acc' => countOne prayer acc') acc bucket)
           (∅, 0) (missedPrayers g).

End View.

(** The days of a record on which a prayer has an entry, and the days on
    which a prayer has a missed entry. *)
Definition daysOf {A} (m : gmap string (gmap string A)) (prayer : string)
  : gset string :=
  dom (filter (fun kv => is_Some (kv.2 !! prayer)) m).

Definition daysMissed (g : globals) (prayer : string) : gset string :=
  daysOf (missedPrayers g) prayer.

(** No day of either record has an empty bucket. *)
Definition noEmptyBucket (g : globals) : Prop :=
  ∀ day, missedPrayers g !! day ≠ Some ∅ ∧ completedPrayers g !! day ≠ Some ∅.

(** The text of a duration in minutes as [getTimeDifference] writes it. *)
Definition durationText (n : Z) : string :=
  if 0 <? n / 60
  then JS.to_string (Int (n / 60)) ++ "h " ++ JS.to_string (Int (n mod 60)) ++ "m"
  else JS.to_string (Int (n mod 60)) ++ "m".

(** The 12-hour text of hour [h] and minute [m]. *)
Definition twelveHourText (h m : Z) : string :=
  JS.to_string (Int (if h mod 12 =? 0 then 12 else h mod 12)) ++ ":"
  ++ two m ++ " " ++ (if 12 <=? h then "PM" else "AM").

(** The minute of the day that a 12-hour text stands for (0 on any other
    string). *)
Definition readTwelveHour (s : string) : Z :=
  match JS.split ":" s with
  | [hours; String a (String b (String _ (String p _)))] =>
      match JS.Number hours with
      | Some (Int h12) =>
          (h12 mod 12 + (if Ascii.eqb p "P" then 12 else 0)) * 60
          + (10 * (JS.code a - 48) + (JS.code b - 48))
      | _ => 0
      end
  | _ => 0
  end.

(** The starts of the five prayers are well-formed times. *)
Definition wellFormedStarts (tbl : Obj.t) : bool :=
  forallb (fun k => isWellFormed (Obj.get tbl k))
          ["Fajr"; "Dhuhr"; "Asr"; "Maghrib"; "Isha"].

(** The 12-hour text of a table entry. *)
Definition shownTime (tbl : Obj.t) (name : string) : string :=
  twelveHourText (entryMinutes tbl name / 60) (entryMinutes tbl name mod 60).

(** The cards that carry one of the two classes. *)
Definition highlighted (cards : list View.cardStatus) : list string :=
  View.cardName <$> List.filter (fun c => View.active c || View.forbidden c) cards.

(** The six timings are well-formed times in the order of the day, the
    prayers starting strictly one after the other. *)
Definition inDayOrder (tm : timings) : bool :=
  match t_Fajr tm, t_Sunrise tm, t_Dhuhr tm, t_Asr tm, t_Maghrib tm, t_Isha tm with
  | str f, str s, str d, str a, str m, str i =>
      is_hhmm f && is_hhmm s && is_hhmm d && is_hhmm a && is_hhmm m && is_hhmm i
      && (minutes_of f <=? minutes_of s) && (minutes_of s <? minutes_of d)
      && (minutes_of d <? minutes_of a) && (minutes_of a <? minutes_of m)
      && (minutes_of m <? minutes_of i)
  | _, _, _, _, _, _ => false
  end.

(** Every timing is a well-formed time or is missing. *)
Definition wellFormedOrMissing (tm : timings) : bool :=
  forallb (fun v => match v with str t => is_hhmm t | undefined => true end)
          [t_Fajr tm; t_Sunrise tm; t_Dhuhr tm; t_Asr tm; t_Maghrib tm; t_Isha tm].

(** Fajr, Dhuhr and Maghrib are well-formed times or are missing. *)
Definition threeWellFormedOrMissing (tbl : Obj.t) : bool :=
  forallb (fun k => match Obj.get tbl k with str t => is_hhmm t | undefined => true end)
          ["Fajr"; "Dhuhr"; "Maghrib"].

(** Every missed entry carries the key of its day, and every day that holds
    an entry is the key of a clock reading. *)
Definition keyedByDay (g : globals) : Prop :=
  ∀ day prayer,
    (∀ e, entry (missedPrayers g) day prayer = Some e → date e = day)
    ∧ (is_Some (entry (missedPrayers g) day prayer)
       ∨ is_Some (entry (completedPrayers g) day prayer) →
       ∃ now, day = getTodayKey now).

(** ** The daily reset *)

Module Reset.

Definition dayNames : list string :=
  ["Sun"; "Mon"; "Tue"; "Wed"; "Thu"; "Fri"; "Sat"].

Definition monthNames : list string :=
  ["Jan"; "Feb"; "Mar"; "Apr"; "May"; "Jun"; "Jul"; "Aug"; "Sep"; "Oct"; "Nov"; "Dec"].

Definition dayName (d : Z) : string := default "" (dayNames !! Z.to_nat d).
Definition monthName (m : Z) : string := default "" (monthNames !! Z.to_nat m).

(** The year of a date string: four digits at least, after a minus sign for
    a year before 0. *)
Definition yearText (y : Z) : string :=
  (if y <? 0 then "-" else "") ++ JS.padStart0 4 (JS.to_string (Int (Z.abs y))).

(** [d.toDateString()] on a valid date. *)
Definition toDateString (t : Z) : string :=
  dayName (Date.getDay t) ++ " " ++ monthName (Date.getMonth t) ++ " "
  ++ JS.padStart0 2 (JS.to_string (Int (Date.getDate t))) ++ " "
  ++ yearText (Date.getFullYear t).

(** [a !== b] *)
Definition strictNe (a b : jsval) : bool :=
  match a, b with
  | str x, str y => negb (String.eqb x y)
  | undefined, undefined => false
  | _, _ => true
  end.

(** [checkDailyReset()] on [window.memoryStorage.lastReset] and the
    globals. *)
Definition checkDailyReset (now : Z) (st : jsval * globals)
  : completion (jsval * globals) :=
  let lastReset := st.1 in
  let today := toDateString now in
  if strictNe lastReset (str today) then
    andThen (Retention.cleanOldData now st.2) (fun g' => Normal (str today, g'))
  else Normal st.

End Reset.

(** ** Checking a property on every integer below a bound *)

Lemma below_spec n f z :
  below n f = true → 0 ≤ z < Z.of_nat n → f z = true.
Proof.
  unfold below. rewrite forallb_forall. intros Hall Hz.
  apply Hall. apply in_map_iff. exists (Z.to_nat z). split; [lia|].
  apply in_seq. lia.
Qed.

(** ** Digits and two-digit fields *)

Lemma digit_inv c :
  JS.is_digit c = true → c = dch (JS.code c - 48) ∧ 0 ≤ JS.code c - 48 ≤ 9.
Proof.
  unfold JS.is_digit, dch, JS.code. intros H.
  apply andb_true_iff in H as [H1 H2]. split; [|lia].
  replace (Z.of_N (N_of_ascii c) - 48 + 48) with (Z.of_N (N_of_ascii c)) by lia.
  by rewrite N2Z.id, ascii_N_embedding.
Qed.

Lemma pad_two n :
  0 ≤ n < 100 → JS.padStart0 2 (JS.to_string (Int n)) = two n.
Proof.
  intros Hn.
  assert (H : below 100 (fun n => String.eqb (JS.padStart0 2 (JS.to_string (Int n))) (two n)) = true)
    by (vm_compute; reflexivity).
  apply String.eqb_eq. exact (below_spec _ _ _ H Hn).
Qed.

Lemma hhmm_two h m :
  0 ≤ h < 100 → 0 ≤ m < 100 → hhmm h m = two h ++ ":" ++ two m.
Proof. intros Hh Hm. unfold hhmm. by rewrite !pad_two. Qed.

Lemma Number_two n : 0 ≤ n < 100 → JS.Number (two n) = Some (Int n).
Proof.
  intros Hn.
  assert (H : below 100 (fun n => match JS.Number (two n) with
                                  | Some (Int z) => z =? n
                                  | _ => false
                                  end) = true) by (vm_compute; reflexivity).
  pose proof (below_spec _ _ _ H Hn) as Hz. simpl in Hz.
  destruct (JS.Number (two n)) as [[|z]|]; try discriminate.
  apply Z.eqb_eq in Hz. by subst.
Qed.

Lemma dch_not_colon v : 0 ≤ v ≤ 9 → Ascii.eqb (dch v) ":" = false.
Proof.
  intros Hv.
  assert (H : below 10 (fun v => negb (Ascii.eqb (dch v) ":")) = true)
    by (vm_compute; reflexivity).
  apply negb_true_iff. apply (below_spec _ _ _ H). lia.
Qed.

Lemma split_two h m :
  0 ≤ h < 100 → 0 ≤ m < 100 →
  JS.split ":" (two h ++ ":" ++ two m) = [two h; two m].
Proof.
  intros Hh Hm. unfold two. cbv [append].
  cbn [JS.split]. rewrite !dch_not_colon, Ascii.eqb_refl.
  - reflexivity.
  - pose proof (Z.mod_pos_bound m 10). lia.
  - split; [apply Z.div_pos; lia | apply Z.lt_succ_r, Z.div_lt_upper_bound; lia].
  - pose proof (Z.mod_pos_bound h 10). lia.
  - split; [apply Z.div_pos; lia | apply Z.lt_succ_r, Z.div_lt_upper_bound; lia].
Qed.

(** ** Well-formed times *)

Lemma div10 a b : 0 ≤ b ≤ 9 → (10 * a + b) / 10 = a ∧ (10 * a + b) mod 10 = b.
Proof. intros Hb. Z.div_mod_to_equations. lia. Qed.

Lemma ascii_compare_code a b : Ascii.compare a b = (JS.code a ?= JS.code b).
Proof. unfold Ascii.compare, JS.code. by rewrite N2Z.inj_compare. Qed.

Lemma is_hhmm_inv t :
  is_hhmm t = true →
  ∃ h m, 0 ≤ h < 24 ∧ 0 ≤ m < 60 ∧ t = hhmm h m ∧ minutes_of t = h * 60 + m.
Proof.
  destruct t as [|a [|b [|k [|c [|d [|]]]]]]; try discriminate.
  cbn [is_hhmm minutes_of]. rewrite !andb_true_iff.
  intros [[[[[[Ha Hb] Hk] Hc] Hd] Hh] Hm].
  apply digit_inv in Ha as [Ea Ha], Hb as [Eb Hb], Hc as [Ec Hc], Hd as [Ed Hd].
  apply Ascii.eqb_eq in Hk. apply Z.ltb_lt in Hh, Hm.
  set (va := JS.code a - 48) in *. set (vb := JS.code b - 48) in *.
  set (vc := JS.code c - 48) in *. set (vd := JS.code d - 48) in *.
  exists (10 * va + vb), (10 * vc + vd).
  split; [lia|]. split; [lia|]. split; [|reflexivity].
  rewrite hhmm_two by lia. unfold two.
  destruct (div10 va vb Hb) as [-> ->]. destruct (div10 vc vd Hd) as [-> ->].
  by rewrite Ea, Eb, Ec, Ed, Hk.
Qed.

Lemma hhmm_wf h m :
  0 ≤ h < 24 → 0 ≤ m < 60 →
  is_hhmm (hhmm h m) = true ∧ minutes_of (hhmm h m) = h * 60 + m.
Proof.
  intros Hh Hm.
  assert (H : below 24 (fun h => below 60 (fun m =>
                is_hhmm (hhmm h m) && (minutes_of (hhmm h m) =? h * 60 + m))) = true)
    by (vm_compute; reflexivity).
  pose proof (below_spec _ _ _ (below_spec _ _ _ H Hh) Hm) as Hz.
  apply andb_true_iff in Hz as [? ?%Z.eqb_eq]. done.
Qed.

Lemma of_minutes_wf n :
  0 ≤ n < 1440 →
  is_hhmm (of_minutes n) = true ∧ minutes_of (of_minutes n) = n.
Proof.
  intros Hn. unfold of_minutes.
  destruct (hhmm_wf (n / 60) (n mod 60)) as [-> ->];
    [Z.div_mod_to_equations; lia | Z.div_mod_to_equations; lia |].
  split; [done | Z.div_mod_to_equations; lia].
Qed.

Lemma minutes_of_range t : is_hhmm t = true → 0 ≤ minutes_of t < 1440.
Proof. intros (h & m & ? & ? & _ & ->)%is_hhmm_inv. lia. Qed.

(** On well-formed times the comparison of strings by code units is the
    comparison of the minutes of the day. *)
Lemma compare_hhmm t1 t2 :
  is_hhmm t1 = true → is_hhmm t2 = true →
  String.compare t1 t2 = (minutes_of t1 ?= minutes_of t2).
Proof.
  destruct t1 as [|a1 [|b1 [|k1 [|c1 [|d1 [|]]]]]]; try discriminate.
  destruct t2 as [|a2 [|b2 [|k2 [|c2 [|d2 [|]]]]]]; try discriminate.
  cbn [is_hhmm minutes_of String.compare]. rewrite !andb_true_iff.
  intros [[[[[[Ha1 Hb1] Hk1] Hc1] Hd1] _] Hm1] [[[[[[Ha2 Hb2] Hk2] Hc2] Hd2] _] Hm2].
  apply digit_inv in Ha1 as [_ Ha1], Hb1 as [_ Hb1], Hc1 as [_ Hc1], Hd1 as [_ Hd1].
  apply digit_inv in Ha2 as [_ Ha2], Hb2 as [_ Hb2], Hc2 as [_ Hc2], Hd2 as [_ Hd2].
  apply Ascii.eqb_eq in Hk1, Hk2. subst k1 k2. apply Z.ltb_lt in Hm1, Hm2.
  rewrite !ascii_compare_code, Z.compare_refl.
  destruct (Z.compare_spec (JS.code a1) (JS.code a2));
  destruct (Z.compare_spec (JS.code b1) (JS.code b2));
  destruct (Z.compare_spec (JS.code c1) (JS.code c2));
  destruct (Z.compare_spec (JS.code d1) (JS.code d2));
  symmetry;
  first [ apply Z.compare_eq_iff | apply Z.compare_lt_iff | apply Z.compare_gt_iff ];
  lia.
Qed.

Lemma leb_hhmm t1 t2 :
  is_hhmm t1 = true → is_hhmm t2 = true →
  String.leb t1 t2 = (minutes_of t1 <=? minutes_of t2).
Proof.
  intros H1 H2. unfold String.leb, Z.leb. by rewrite compare_hhmm.
Qed.

Lemma ltb_hhmm t1 t2 :
  is_hhmm t1 = true → is_hhmm t2 = true →
  String.ltb t1 t2 = (minutes_of t1 <? minutes_of t2).
Proof.
  intros H1 H2. unfold String.ltb, Z.ltb. by rewrite compare_hhmm.
Qed.

(** ** [addMinutes] on well-formed times *)

Lemma fields_hhmm h m :
  0 ≤ h < 24 → 0 ≤ m < 60 →
  TimeMath.field (JS.split ":" (hhmm h m)) 0 = Some (Int h)
  ∧ TimeMath.field (JS.split ":" (hhmm h m)) 1 = Some (Int m).
Proof.
  intros Hh Hm. rewrite hhmm_two, split_two by lia.
  unfold TimeMath.field, JS.nth. cbn [lookup list_lookup JS.ToNumber].
  by rewrite !Number_two by lia.
Qed.

Lemma exact_small z : Z.abs z ≤ 2 ^ 53 → JS.exact z = true.
Proof. intros H. unfold JS.exact, JS.max_exact. by apply Z.leb_le. Qed.

(** The value of [addMinutes] whatever the sign of the total: the hour is
    the truncated remainder of the floored quotient, the minute the
    truncated remainder of the total. *)
Lemma addMinutes_hhmm t d :
  is_hhmm t = true → Z.abs d ≤ 2 ^ 52 →
  TimeMath.addMinutes (str t) d =
    Normal (hhmm (Z.rem ((minutes_of t + d) / 60) 24) (Z.rem (minutes_of t + d) 60)).
Proof.
  intros (h & m & Hh & Hm & -> & ->)%is_hhmm_inv Hd.
  unfold TimeMath.addMinutes.
  destruct (fields_hhmm h m Hh Hm) as [-> ->].
  cbn [mbind option_bind]. unfold TimeMath.totalMinutes.
  rewrite exact_small by lia.
  unfold JS.mul, JS.add, JS.lift2. cbn [mbind option_bind].
  rewrite (exact_small (h * 60)) by lia. cbn [mbind option_bind].
  rewrite (exact_small (h * 60 + m)) by lia. cbn [mbind option_bind].
  rewrite (exact_small (h * 60 + m + d)) by lia.
  reflexivity.
Qed.

(** When the total is not negative the result is the minute of the day
    modulo 1440, zero-padded. *)
Lemma addMinutes_wraps t d :
  is_hhmm t = true → 0 ≤ minutes_of t + d → d ≤ 2 ^ 52 →
  TimeMath.addMinutes (str t) d = Normal (of_minutes ((minutes_of t + d) mod 1440)).
Proof.
  intros Ht Hpos Hd. pose proof (minutes_of_range t Ht).
  rewrite addMinutes_hhmm by (try done; lia).
  unfold of_minutes. do 2 f_equal.
  - rewrite Z.rem_mod_nonneg by (try apply Z.div_pos; lia).
    Z.div_mod_to_equations. lia.
  - rewrite Z.rem_mod_nonneg by lia. Z.div_mod_to_equations. lia.
Qed.

Lemma subtractMinutes_wraps t d :
  is_hhmm t = true → 0 ≤ d ≤ minutes_of t →
  TimeMath.subtractMinutes (str t) d = Normal (of_minutes (minutes_of t - d)).
Proof.
  intros Ht Hd. pose proof (minutes_of_range t Ht).
  unfold TimeMath.subtractMinutes. rewrite addMinutes_wraps by (try done; lia).
  do 2 f_equal. apply Z.mod_small. lia.
Qed.

Lemma of_minutes_of t : is_hhmm t = true → of_minutes (minutes_of t) = t.
Proof.
  intros (h & m & Hh & Hm & -> & ->)%is_hhmm_inv. unfold of_minutes.
  f_equal; Z.div_mod_to_equations; lia.
Qed.

(** The round trip holds as long as neither total is negative. *)
Lemma subtract_add_roundtrip t d :
  is_hhmm t = true → 0 ≤ d ≤ (minutes_of t + d) mod 1440 →
  ∃ t', TimeMath.addMinutes (str t) d = Normal t'
        ∧ TimeMath.subtractMinutes (str t') d = Normal t.
Proof.
  intros Ht Hd. pose proof (minutes_of_range t Ht) as Hr.
  assert (d < 1440) by (pose proof (Z.mod_pos_bound (minutes_of t + d) 1440); lia).
  eexists. split; [apply addMinutes_wraps; try done; lia|].
  destruct (of_minutes_wf ((minutes_of t + d) mod 1440)) as [Hwf Hm];
    [apply Z.mod_pos_bound; lia|].
  rewrite subtractMinutes_wraps by (try done; lia).
  rewrite Hm. rewrite <- (of_minutes_of t Ht) at 2. do 2 f_equal.
  Z.div_mod_to_equations. lia.
Qed.

(** ** Claims on TimeMath *)

(** C1 (the code departs from it): [addMinutes] wraps a total past midnight,
    so 23:50 plus 20 minutes is 00:10, but a total below zero is not
    wrapped: 00:10 minus 20 minutes is the text "-1:-10", not 23:50, and the
    round trip from 23:50 is lost. *)
Theorem subtractMinutes_below_midnight :
  TimeMath.addMinutes (str "23:50") 20 = Normal "00:10"
  ∧ TimeMath.subtractMinutes (str "00:10") 20 = Normal "-1:-10"
  ∧ TimeMath.subtractMinutes (str "00:10") 20 ≠ Normal "23:50".
Proof. split; [|split]; [vm_compute; reflexivity ..|vm_compute; discriminate]. Qed.







(** ** Claims on the window classifier *)

Lemma isTimeInRange_hhmm now lo hi :
  is_hhmm now = true → 0 ≤ lo < 1440 → is_hhmm hi = true →
  TimeMath.isTimeInRange (str now) (str (of_minutes lo)) (str hi)
  = inClosed lo (minutes_of hi) (minutes_of now).
Proof.
  intros Hn Hlo Hhi. destruct (of_minutes_wf lo Hlo) as [Hwf Hm].
  unfold TimeMath.isTimeInRange, JS.ge, JS.le, inClosed.
  by rewrite !leb_hhmm, Hm.
Qed.

(** C3, as the specification states it, fails: at the minute of Dhuhr of
    the default table (12:15) the code answers true, while the window of the
    specification leaves the right end point of [Dhuhr-10, Dhuhr) out. *)
Lemma forbidden_at_Dhuhr :
  let tbl := defaultTable 0 in
  wellFormedTable tbl = true
  ∧ Classifier.isInForbiddenTime tbl (str "12:15") = Normal true
  ∧ spec_isForbiddenWindow (entryMinutes tbl "Fajr") (entryMinutes tbl "Sunrise")
      (entryMinutes tbl "Dhuhr") (entryMinutes tbl "Maghrib") (minutes_of "12:15")
    = false.
Proof. repeat split; vm_compute; reflexivity. Qed.

(** C3, amended: on a table of well-formed times whose Dhuhr is not before
    00:10 and whose Maghrib is not before 00:15, and for a well-formed
    [now], [isInForbiddenTime] is true exactly when [now] lies in one of the
    three closed intervals [Fajr+90m, Sunrise], [Dhuhr-10m, Dhuhr],
    [Maghrib-15m, Maghrib] (Fajr+90m taken modulo 24 hours), the offsets 90,
    10 and 15 being fixed. *)
Theorem isInForbiddenTime_closed_intervals (tbl : Obj.t) (now : string) :
  wellFormedTable tbl = true → is_hhmm now = true →
  10 ≤ entryMinutes tbl "Dhuhr" → 15 ≤ entryMinutes tbl "Maghrib" →
  Classifier.isInForbiddenTime tbl (str now)
  = Normal (inClosed ((entryMinutes tbl "Fajr" + 90) mod 1440)
                     (entryMinutes tbl "Sunrise") (minutes_of now)
            || inClosed (entryMinutes tbl "Dhuhr" - 10)
                        (entryMinutes tbl "Dhuhr") (minutes_of now)
            || inClosed (entryMinutes tbl "Maghrib" - 15)
                        (entryMinutes tbl "Maghrib") (minutes_of now)).
Proof.
  unfold wellFormedTable, entryMinutes, Classifier.isInForbiddenTime.
  destruct (Obj.get tbl "Fajr") as [|f]; [discriminate|].
  destruct (Obj.get tbl "Sunrise") as [|s]; [by rewrite ?andb_false_r|].
  destruct (Obj.get tbl "Dhuhr") as [|d]; [by rewrite ?andb_false_r|].
  destruct (Obj.get tbl "Maghrib") as [|m]; [by rewrite ?andb_false_r|].
  cbn [isWellFormed]. rewrite !andb_true_iff.
  intros [[[Hf Hs] Hd] Hm] Hn Hd10 Hm15.
  pose proof (minutes_of_range f Hf). pose proof (minutes_of_range d Hd).
  pose proof (minutes_of_range m Hm).
  rewrite addMinutes_wraps by (try done; lia).
  rewrite !subtractMinutes_wraps by (try done; lia).
  rewrite !isTimeInRange_hhmm; try done; try lia.
  apply Z.mod_pos_bound. lia.
Qed.

Lemma isInForbiddenTime_closed_intervals_witness :
  wellFormedTable (defaultTable 0) = true ∧ is_hhmm "17:50" = true
  ∧ 10 ≤ entryMinutes (defaultTable 0) "Dhuhr"
  ∧ 15 ≤ entryMinutes (defaultTable 0) "Maghrib"
  ∧ Classifier.isInForbiddenTime (defaultTable 0) (str "17:50") = Normal true.
Proof.
  assert (H10 : 10 ≤ entryMinutes (defaultTable 0) "Dhuhr")
    by (vm_compute; discriminate).
  assert (H15 : 15 ≤ entryMinutes (defaultTable 0) "Maghrib")
    by (vm_compute; discriminate).
  split; [reflexivity|]. split; [reflexivity|].
  split; [exact H10|]. split; [exact H15|].
  exact (isInForbiddenTime_closed_intervals (defaultTable 0) "17:50"
           eq_refl eq_refl H10 H15).
Defined.

(** *** The end of a prayer's window *)

Lemma getEndTime_Fajr tbl :
  Classifier.getEndTime tbl "Fajr" = Obj.get tbl "Sunrise".
Proof. reflexivity. Qed.

(** On a table without the Friday key every prayer but Fajr ends where the
    next one starts, and Isha ends at the sentinel. *)
Lemma getEndTime_weekday now tm :
  isFriday now = false →
  let tbl := fetchedTable now tm in
  Classifier.getEndTime tbl "Fajr" = t_Sunrise tm
  ∧ Classifier.getEndTime tbl "Dhuhr" = t_Asr tm
  ∧ Classifier.getEndTime tbl "Jummah" = t_Asr tm
  ∧ Classifier.getEndTime tbl "Asr" = t_Maghrib tm
  ∧ Classifier.getEndTime tbl "Maghrib" = t_Isha tm
  ∧ Classifier.getEndTime tbl "Isha" = str "23:59".
Proof. intros Hf. unfold fetchedTable. rewrite Hf. repeat split. Qed.

(** On the Friday table the key [Jummah] follows [Isha], so that Isha is no
    longer the last key: its end is the value of [Jummah], the time of
    Dhuhr. *)
Lemma getEndTime_friday now tm :
  isFriday now = true →
  let tbl := fetchedTable now tm in
  Classifier.getEndTime tbl "Fajr" = t_Sunrise tm
  ∧ Classifier.getEndTime tbl "Dhuhr" = t_Asr tm
  ∧ Classifier.getEndTime tbl "Jummah" = t_Asr tm
  ∧ Classifier.getEndTime tbl "Asr" = t_Maghrib tm
  ∧ Classifier.getEndTime tbl "Maghrib" = t_Isha tm
  ∧ Classifier.getEndTime tbl "Isha" = t_Dhuhr tm.
Proof. intros Hf. unfold fetchedTable. rewrite Hf. repeat split. Qed.

(** C2 (the code departs from it): on Friday 2 January 1970 the table holds
    the key [Jummah] after [Isha], and the end of Isha is the time of Dhuhr
    (12:15 in the default table), not the sentinel 23:59 that the comment in
    [getEndTime] and the weekday table give. *)
Theorem getEndTime_Isha_on_Friday (tm : timings) :
  isFriday 86400000 = true
  ∧ Classifier.getEndTime (fetchedTable 86400000 tm) "Isha" = t_Dhuhr tm
  ∧ Classifier.getEndTime (defaultTable 86400000) "Isha" = str "12:15"
  ∧ Classifier.getEndTime (defaultTable 86400000) "Isha" ≠ str "23:59"
  ∧ Classifier.getEndTime (fetchedTable 0 tm) "Isha" = str "23:59".
Proof. repeat split. discriminate. Qed.

(** *** The clock *)

Lemma clock_fields now :
  0 ≤ Date.getHours now < 24 ∧ 0 ≤ Date.getMinutes now < 60.
Proof.
  unfold Date.getHours, Date.getMinutes, Date.TimeWithinDay, Date.msPerDay.
  Z.div_mod_to_equations. lia.
Qed.

(** The time the functions read from the clock is a well-formed time. *)
Lemma currentTime_wf now :
  is_hhmm (currentTime now) = true
  ∧ minutes_of (currentTime now) = Date.getHours now * 60 + Date.getMinutes now.
Proof. destruct (clock_fields now). by apply hhmm_wf. Qed.

(** The clock never reads a time after the sentinel. *)
Lemma currentTime_not_after_sentinel now :
  JS.gt (str (currentTime now)) (str "23:59") = false.
Proof.
  destruct (currentTime_wf now) as [Hwf Hm]. destruct (clock_fields now).
  cbn [JS.gt]. rewrite ltb_hhmm by done. rewrite Hm.
  apply Z.ltb_ge. change (minutes_of "23:59") with 1439. lia.
Qed.

(** *** The code against the end of the window of the specification *)

(** Except for Isha on a Friday table, [getEndTime] is the end of the
    window of the specification on every prayer of a list. *)
Lemma getEndTime_spec now tm friday prayer :
  prayer ∈ prayers friday →
  isFriday now = false ∨ prayer ≠ "Isha" →
  Classifier.getEndTime (fetchedTable now tm) prayer = spec_endTimeOf tm prayer.
Proof.
  intros Hin Hok. unfold fetchedTable.
  destruct (isFriday now), friday; cbn [prayers] in Hin;
    repeat (apply elem_of_cons in Hin as [->|Hin]); try (by apply elem_of_nil in Hin);
    try reflexivity; by destruct Hok.
Qed.

(** Whenever the clock is past the end of the window of the specification
    it is past the end that [getEndTime] computes. *)
Lemma past_spec_end_past_getEndTime now clock tm friday prayer :
  prayer ∈ prayers friday →
  JS.gt (str (currentTime clock)) (spec_endTimeOf tm prayer) = true →
  JS.gt (str (currentTime clock)) (Classifier.getEndTime (fetchedTable now tm) prayer)
  = true.
Proof.
  intros Hin Hgt. destruct (decide (prayer = "Isha")) as [->|Hne].
  - change (spec_endTimeOf tm "Isha") with (str "23:59") in Hgt.
    by rewrite currentTime_not_after_sentinel in Hgt.
  - rewrite (getEndTime_spec now tm friday) by auto. done.
Qed.

(** ** Two-level lookups *)

Section entries.
Context {A : Type}.
Implicit Types (o : gmap string (gmap string A)) (d p : string).

Lemma entry_putEntry o d p v d' p' :
  entry (Tracker.putEntry o d p v) d' p'
  = if decide (d = d' ∧ p = p') then Some v else entry o d' p'.
Proof.
  unfold entry, Tracker.putEntry.
  destruct (decide (d = d')) as [<-|Hd].
  - rewrite lookup_insert_eq. cbn [mbind option_bind].
    destruct (decide (p = p')) as [<-|Hp].
    + rewrite lookup_insert_eq. by rewrite decide_True.
    + rewrite lookup_insert_ne by done. rewrite decide_False by (by intros [? ?]).
      by destruct (o !! d).
  - rewrite lookup_insert_ne by done. by rewrite decide_False by (by intros [? ?]).
Qed.

Lemma entry_ensureDay o d d' p' :
  entry (Tracker.ensureDay o d) d' p' = entry o d' p'.
Proof.
  unfold entry, Tracker.ensureDay. destruct (o !! d) eqn:E; [done|].
  destruct (decide (d = d')) as [<-|Hd].
  - by rewrite lookup_insert_eq, E.
  - by rewrite lookup_insert_ne.
Qed.

Lemma ensureDay_present o d b : o !! d = Some b → Tracker.ensureDay o d = o.
Proof. unfold Tracker.ensureDay. by intros ->. Qed.

Lemma entry_removeEntry o d p d' p' :
  entry (Tracker.removeEntry o d p) d' p'
  = if decide (d = d' ∧ p = p') then None else entry o d' p'.
Proof.
  unfold entry, Tracker.removeEntry.
  destruct (o !! d) as [b|] eqn:E.
  - destruct (decide (size (delete p b) = 0%nat)) as [Hs|Hs].
    + apply map_size_empty_iff in Hs.
      destruct (decide (d = d')) as [<-|Hd].
      * rewrite lookup_delete_eq, E. cbn [mbind option_bind].
        destruct (decide (p = p')) as [<-|Hp].
        -- by rewrite decide_True.
        -- rewrite decide_False by (by intros [? ?]).
           rewrite <- (lookup_delete_ne b p p') by done. by rewrite Hs.
      * rewrite lookup_delete_ne by done. by rewrite decide_False by (by intros [? ?]).
    + destruct (decide (d = d')) as [<-|Hd].
      * rewrite lookup_insert_eq, E. cbn [mbind option_bind].
        destruct (decide (p = p')) as [<-|Hp].
        -- rewrite lookup_delete_eq. by rewrite decide_True.
        -- rewrite lookup_delete_ne by done. by rewrite decide_False by (by intros [? ?]).
      * rewrite lookup_insert_ne by done. by rewrite decide_False by (by intros [? ?]).
  - destruct (decide (d = d' ∧ p = p')) as [[<- <-]|]; [by rewrite E | done].
Qed.

End entries.

Lemma isMissed_entry g d p :
  isMissed g d p = bool_decide (is_Some (entry (missedPrayers g) d p)).
Proof.
  unfold isMissed, entry. destruct (missedPrayers g !! d); cbn [mbind option_bind]; [done|].
  symmetry. apply bool_decide_eq_false. by intros [? ?].
Qed.

Lemma isCompleted_entry g d p :
  isCompleted g d p = bool_decide (entry (completedPrayers g) d p = Some true).
Proof.
  unfold isCompleted, entry. by destruct (completedPrayers g !! d).
Qed.

(** ** Claims on the completion tracker *)

(** *** Unmarking *)

(** C4: when the user unmarks a prayer marked completed and the clock is
    past the end of that prayer, the pair is in the missed state afterwards:
    the missed entry holds today's key and the scheduled time of the prayer,
    and the completed mark is gone. *)
Theorem togglePrayer_unmark_after_end (now : Z) (g : globals) (prayer : string) :
  isCompleted g (getTodayKey now) prayer = true →
  JS.gt (str (currentTime now)) (Classifier.getEndTime (prayerTimes g) prayer) = true →
  let today := getTodayKey now in
  let g' := Tracker.togglePrayer now prayer false g in
  statusOf g' today prayer = missed
  ∧ entry (missedPrayers g') today prayer
    = Some {| date := today; time := Obj.get (prayerTimes g) (lookupName prayer) |}
  ∧ entry (completedPrayers g') today prayer = None.
Proof.
  intros _ Hgt today g'.
  assert (Hm : entry (missedPrayers g') today prayer
               = Some (entryOf g today prayer)).
  { subst g'. unfold Tracker.togglePrayer. cbn [missedPrayers]. fold today.
    rewrite Hgt, entry_putEntry. by rewrite decide_True. }
  assert (Hc : entry (completedPrayers g') today prayer = None).
  { subst g'. unfold Tracker.togglePrayer. cbn [completedPrayers]. fold today.
    rewrite entry_removeEntry. by rewrite decide_True. }
  split; [|done].
  unfold statusOf. rewrite isCompleted_entry, isMissed_entry, Hc, Hm.
  rewrite bool_decide_eq_false_2 by done. by rewrite bool_decide_eq_true_2.
Qed.

(** Monday 1 January 2024: Asr is marked at 20:00 and unmarked at 20:05. *)
Lemma togglePrayer_unmark_after_end_witness :
  let at2000 := 1704139200000 in
  let at2005 := 1704139500000 in
  let g := Tracker.togglePrayer at2000 "Asr" true
             (withTable (defaultTable at2000) initial) in
  currentTime at2005 = "20:05"
  ∧ statusOf g "1-1-2024" "Asr" = completed
  ∧ statusOf (Tracker.togglePrayer at2005 "Asr" false g) "1-1-2024" "Asr" = missed.
Proof.
  intros at2000 at2005 g.
  split; [vm_compute; reflexivity|]. split; [vm_compute; reflexivity|].
  apply (togglePrayer_unmark_after_end at2005 g "Asr");
    vm_compute; reflexivity.
Defined.

(** *** The periodic re-evaluation *)

Lemma checkOne_prayerTimes now g p :
  prayerTimes (Tracker.checkOne now g p) = prayerTimes g.
Proof.
  unfold Tracker.checkOne.
  repeat match goal with |- context [if ?b then _ else _] => destruct b end;
    reflexivity.
Qed.

Lemma checkOne_completed now g p :
  completedPrayers (Tracker.checkOne now g p) = completedPrayers g.
Proof.
  unfold Tracker.checkOne.
  repeat match goal with |- context [if ?b then _ else _] => destruct b end;
    reflexivity.
Qed.

Lemma checkOne_not_due now g p :
  due now g p = false → Tracker.checkOne now g p = g.
Proof.
  unfold due, Tracker.checkOne. intros H.
  destruct (JS.gt _ _); [|done]. cbn [andb] in H. by rewrite H.
Qed.

Lemma checkOne_already_missed now g p :
  isMissed g (getTodayKey now) p = true → Tracker.checkOne now g p = g.
Proof.
  unfold Tracker.checkOne. intros H. rewrite H.
  destruct (JS.gt _ _); [|done]. destruct (negb _); [|done].
  unfold isMissed in H.
  destruct (missedPrayers g !! getTodayKey now) as [b|] eqn:E; [|done].
  rewrite (ensureDay_present _ _ _ E). by destruct g.
Qed.

Lemma checkOne_entry now g p d q :
  entry (missedPrayers (Tracker.checkOne now g p)) d q
  = match entry (missedPrayers g) d q with
    | Some e => Some e
    | None =>
        if decide (getTodayKey now = d ∧ p = q) then
          if due now g p then Some (entryOf g (getTodayKey now) p) else None
        else None
    end.
Proof.
  destruct (due now g p) eqn:Hdue.
  - destruct (isMissed g (getTodayKey now) p) eqn:Hm.
    + rewrite checkOne_already_missed by done.
      rewrite isMissed_entry in Hm. apply bool_decide_eq_true in Hm.
      destruct (entry (missedPrayers g) d q) eqn:E; [done|].
      case_decide as Hk; [|done]. destruct Hk as [<- <-].
      rewrite E in Hm. by destruct Hm.
    + unfold due in Hdue. apply andb_true_iff in Hdue as [Hgt Hc].
      unfold Tracker.checkOne. rewrite Hgt, Hc, Hm. cbn [missedPrayers].
      rewrite entry_putEntry, entry_ensureDay.
      case_decide as Hk.
      * destruct Hk as [<- <-]. rewrite isMissed_entry in Hm.
        apply bool_decide_eq_false in Hm.
        destruct (entry (missedPrayers g) _ _) eqn:E; [|done].
        destruct Hm. by eexists.
      * by destruct (entry (missedPrayers g) d q).
  - rewrite checkOne_not_due by done.
    destruct (entry (missedPrayers g) d q); [done|]. by case_decide.
Qed.

Lemma due_checkOne now g p q : due now (Tracker.checkOne now g p) q = due now g q.
Proof.
  unfold due, isCompleted. by rewrite checkOne_prayerTimes, checkOne_completed.
Qed.

Lemma entryOf_checkOne now g p d q :
  entryOf (Tracker.checkOne now g p) d q = entryOf g d q.
Proof. unfold entryOf. by rewrite checkOne_prayerTimes. Qed.

(** The records after the loop over a list of prayers. *)
Lemma check_loop now l : ∀ g,
  let g' := foldl (Tracker.checkOne now) g l in
  prayerTimes g' = prayerTimes g
  ∧ completedPrayers g' = completedPrayers g
  ∧ ∀ d q, entry (missedPrayers g') d q
           = match entry (missedPrayers g) d q with
             | Some e => Some e
             | None =>
                 if decide (getTodayKey now = d ∧ q ∈ l) then
                   if due now g q then Some (entryOf g (getTodayKey now) q) else None
                 else None
             end.
Proof.
  induction l as [|p l IH]; intros g; cbn [foldl].
  - repeat split. intros d q. destruct (entry _ d q); [done|].
    case_decide as H; [|done]. destruct H as [_ H]. by apply elem_of_nil in H.
  - destruct (IH (Tracker.checkOne now g p)) as (Ht & Hc & He).
    split; [by rewrite Ht, checkOne_prayerTimes|].
    split; [by rewrite Hc, checkOne_completed|].
    intros d q. rewrite He, checkOne_entry, due_checkOne, entryOf_checkOne.
    destruct (entry (missedPrayers g) d q) eqn:E; [done|].
    destruct (decide (getTodayKey now = d)) as [<-|Hd].
    + destruct (decide (p = q)) as [<-|Hpq].
      * rewrite decide_True by done.
        rewrite (decide_True (P := _ ∧ p ∈ p :: l)) by (split; [done|by left]).
        destruct (due now g p); [done|].
        by case_decide.
      * rewrite decide_False by (by intros [? ?]).
        destruct (decide (q ∈ l)) as [Hin|Hin].
        -- rewrite decide_True by done.
           by rewrite decide_True by (split; [done|by right]).
        -- rewrite decide_False by (by intros [? ?]).
           rewrite decide_False; [done|].
           intros [_ [?|?]%elem_of_cons]; congruence.
    + rewrite !decide_False by (by intros [? ?]). done.
Qed.

Lemma check_loop_fixed now l : ∀ g,
  (∀ q, q ∈ l → due now g q = true → isMissed g (getTodayKey now) q = true) →
  foldl (Tracker.checkOne now) g l = g.
Proof.
  induction l as [|p l IH]; intros g H; cbn [foldl]; [done|].
  assert (Tracker.checkOne now g p = g) as ->.
  { destruct (due now g p) eqn:Hdue.
    - apply checkOne_already_missed, H; [by left | done].
    - by apply checkOne_not_due. }
  apply IH. intros q Hq. apply H. by right.
Qed.

(** One run of the re-evaluation, for a prayer of today's list, the end of
    the prayer being the one [getEndTime] gives.  When the pair has no missed
    entry before the run, it has one after the run exactly when the clock is
    past that end and the prayer has no completed mark; that entry holds
    today's key and the scheduled time.  When the pair is already missed the
    re-evaluation of the pair changes nothing.  The run leaves the completion
    record alone, and running it again at the same clock changes nothing. *)
Lemma checkForMissedPrayers_records (now : Z) (g : globals) (prayer : string) :
  prayer ∈ prayers (isFriday now) →
  let today := getTodayKey now in
  let g' := Tracker.checkForMissedPrayers now g in
  (isMissed g today prayer = false →
     entry (missedPrayers g') today prayer
     = if JS.gt (str (currentTime now)) (Classifier.getEndTime (prayerTimes g) prayer)
          && negb (isCompleted g today prayer)
       then Some {| date := today; time := Obj.get (prayerTimes g) (lookupName prayer) |}
       else None)
  ∧ (isMissed g today prayer = true →
       Tracker.checkOne now g prayer = g
       ∧ entry (missedPrayers g') today prayer = entry (missedPrayers g) today prayer)
  ∧ completedPrayers g' = completedPrayers g
  ∧ Tracker.checkForMissedPrayers now g' = g'.
Proof.
  intros Hin today g'.
  destruct (check_loop now (prayers (isFriday now)) g) as (Ht & Hc & He).
  fold (Tracker.checkForMissedPrayers now g) in Ht, Hc, He. fold g' in Ht, Hc, He.
  split; [|split; [|split]].
  - intros Hm. rewrite isMissed_entry in Hm. apply bool_decide_eq_false in Hm.
    rewrite He. fold today.
    destruct (entry (missedPrayers g) today prayer) eqn:E; [destruct Hm; by eexists|].
    by rewrite decide_True.
  - intros Hm. split; [by apply checkOne_already_missed|].
    rewrite isMissed_entry in Hm. apply bool_decide_eq_true in Hm as [e E].
    rewrite He. fold today. by rewrite E.
  - done.
  - apply check_loop_fixed. intros q Hq Hdue.
    rewrite isMissed_entry. apply bool_decide_eq_true.
    assert (due now g q = true) as Hdue'.
    { unfold due, isCompleted in *. by rewrite <- Ht, <- Hc. }
    rewrite He. destruct (entry (missedPrayers g) _ q); [by eexists|].
    rewrite decide_True by done. rewrite Hdue'. by eexists.
Qed.

(** Monday 1 January 2024 at 20:05 on the default table: Asr has ended and
    is recorded, Isha has not. *)
Lemma checkForMissedPrayers_records_witness :
  let now := 1704139500000 in
  let g := withTable (defaultTable now) initial in
  let g' := Tracker.checkForMissedPrayers now g in
  entry (missedPrayers g') "1-1-2024" "Asr"
  = Some {| date := "1-1-2024"; time := str "15:45" |}
  ∧ Tracker.checkForMissedPrayers now g' = g'.
Proof.
  intros now g g'.
  assert (Hin : "Asr" ∈ prayers (isFriday now))
    by (apply list_elem_of_In; vm_compute; auto).
  destruct (checkForMissedPrayers_records now g "Asr" Hin) as (H1 & _ & _ & H4).
  split; [exact (H1 eq_refl) | exact H4].
Defined.

(** A consequence of the end that [getEndTime] gives Isha on a Friday
    table: on Friday 2 January 1970 at 13:00 the re-evaluation already
    records Isha, which starts at 19:30, as missed. *)
Lemma isha_recorded_on_friday_afternoon :
  let now := 133200000 in
  let g := withTable (defaultTable now) initial in
  isFriday now = true ∧ currentTime now = "13:00"
  ∧ entry (missedPrayers (Tracker.checkForMissedPrayers now g)) "2-1-1970" "Isha"
    = Some {| date := "2-1-1970"; time := str "19:30" |}.
Proof. repeat split; vm_compute; reflexivity. Qed.

Lemma isha_in_list friday : "Isha" ∈ prayers friday.
Proof. destruct friday; apply list_elem_of_In; vm_compute; auto 10. Qed.

(** What a run writes for Isha on a table built on a Friday: the end that
    [getEndTime] gives is the time of Dhuhr, so a pending Isha is recorded
    exactly when the clock is past Dhuhr, while the clock is never past the
    end 23:59 of the specification. *)
Lemma isha_on_friday_table built now tm g d :
  isFriday built = true → prayerTimes g = fetchedTable built tm →
  t_Dhuhr tm = str d → is_hhmm d = true →
  statusOf g (getTodayKey now) "Isha" = pending →
  JS.gt (str (currentTime now)) (spec_endTimeOf tm "Isha") = false
  ∧ (is_Some (entry (missedPrayers (Tracker.checkForMissedPrayers now g))
                (getTodayKey now) "Isha")
     ↔ minutes_of d < minutes_of (currentTime now)).
Proof.
  intros Hf Ht Hd Hwf Hs. split; [apply currentTime_not_after_sentinel|].
  unfold statusOf in Hs.
  destruct (isCompleted g (getTodayKey now) "Isha") eqn:Hc; [done|].
  destruct (isMissed g (getTodayKey now) "Isha") eqn:Hm; [done|]. clear Hs.
  rewrite isMissed_entry in Hm. apply bool_decide_eq_false in Hm.
  destruct (check_loop now (prayers (isFriday now)) g) as (_ & _ & He).
  fold (Tracker.checkForMissedPrayers now g) in He. rewrite He.
  destruct (entry (missedPrayers g) (getTodayKey now) "Isha") eqn:E;
    [destruct Hm; by eexists|].
  rewrite decide_True by (split; [done|apply isha_in_list]).
  unfold due. rewrite Hc, Ht.
  destruct (getEndTime_friday built tm Hf) as (_ & _ & _ & _ & _ & ->).
  rewrite Hd. cbn [JS.gt negb]. rewrite andb_true_r.
  rewrite ltb_hhmm by (done || apply currentTime_wf).
  destruct (Z.ltb_spec (minutes_of d) (minutes_of (currentTime now))).
  - split; [done | by eexists].
  - split; [by intros [? ?] | lia].
Qed.

(** C5 (the code departs from it).  On Friday 2 January 1970 at 13:00, on
    the default table, Isha is pending and the clock is not past its end
    23:59, yet one run of the re-evaluation records Isha as missed: the end
    [getEndTime] gives Isha on a Friday table is the time of Dhuhr.  So it is
    on every table built on a Friday: a pending Isha is recorded exactly when
    the clock is past Dhuhr.  For every other prayer, and for Isha on a table
    built on another day, a pair without a missed entry has one after the run
    exactly when the clock is past the end of the prayer and the prayer has
    no completed mark.  The re-evaluation of a pair already missed changes
    nothing, the run leaves the completion record alone, and running it again
    at the same clock changes nothing. *)
Theorem checkForMissedPrayers_Isha_on_Friday :
  (let now := 133200000 in
   let g := withTable (defaultTable now) initial in
   let today := getTodayKey now in
   isFriday now = true ∧ currentTime now = "13:00" ∧ today = "2-1-1970"
   ∧ "Isha" ∈ prayers (isFriday now)
   ∧ statusOf g today "Isha" = pending
   ∧ JS.gt (str (currentTime now)) (spec_endTimeOf defaultTimings "Isha") = false
   ∧ entry (missedPrayers (Tracker.checkForMissedPrayers now g)) today "Isha"
     = Some {| date := today; time := str "19:30" |})
  ∧ (∀ built now tm g d,
       isFriday built = true → prayerTimes g = fetchedTable built tm →
       t_Dhuhr tm = str d → is_hhmm d = true →
       statusOf g (getTodayKey now) "Isha" = pending →
       JS.gt (str (currentTime now)) (spec_endTimeOf tm "Isha") = false
       ∧ (is_Some (entry (missedPrayers (Tracker.checkForMissedPrayers now g))
                     (getTodayKey now) "Isha")
          ↔ minutes_of d < minutes_of (currentTime now)))
  ∧ (∀ built now tm g prayer,
       prayerTimes g = fetchedTable built tm →
       prayer ∈ prayers (isFriday now) →
       isFriday built = false ∨ prayer ≠ "Isha" →
       isMissed g (getTodayKey now) prayer = false →
       entry (missedPrayers (Tracker.checkForMissedPrayers now g))
         (getTodayKey now) prayer
       = if JS.gt (str (currentTime now)) (spec_endTimeOf tm prayer)
            && negb (isCompleted g (getTodayKey now) prayer)
         then Some {| date := getTodayKey now;
                      time := Obj.get (prayerTimes g) (lookupName prayer) |}
         else None)
  ∧ (∀ now g prayer,
       let g' := Tracker.checkForMissedPrayers now g in
       (isMissed g (getTodayKey now) prayer = true →
          Tracker.checkOne now g prayer = g
          ∧ entry (missedPrayers g') (getTodayKey now) prayer
            = entry (missedPrayers g) (getTodayKey now) prayer)
       ∧ completedPrayers g' = completedPrayers g
       ∧ Tracker.checkForMissedPrayers now g' = g').
Proof.
  split; [|split; [|split]].
  - cbn zeta. split; [reflexivity|]. split; [vm_compute; reflexivity|].
    split; [vm_compute; reflexivity|]. split; [apply isha_in_list|].
    split; [vm_compute; reflexivity|]. split; [vm_compute; reflexivity|].
    vm_compute. reflexivity.
  - apply isha_on_friday_table.
  - intros built now tm g prayer Ht Hin Hor Hm.
    rewrite isMissed_entry in Hm. apply bool_decide_eq_false in Hm.
    destruct (check_loop now (prayers (isFriday now)) g) as (_ & _ & He).
    fold (Tracker.checkForMissedPrayers now g) in He. rewrite He.
    destruct (entry (missedPrayers g) (getTodayKey now) prayer) eqn:E;
      [destruct Hm; by eexists|].
    rewrite decide_True by done. unfold due, entryOf.
    by rewrite Ht, (getEndTime_spec built tm (isFriday now) prayer Hin Hor).
  - intros now g prayer g'.
    destruct (check_loop now (prayers (isFriday now)) g) as (Ht & Hc & He).
    fold (Tracker.checkForMissedPrayers now g) in Ht, Hc, He. fold g' in Ht, Hc, He.
    split; [|split; [done|]].
    + intros Hm. split; [by apply checkOne_already_missed|].
      rewrite isMissed_entry in Hm. apply bool_decide_eq_true in Hm as [e E].
      by rewrite He, E.
    + apply check_loop_fixed. intros q Hq Hdue.
      rewrite isMissed_entry. apply bool_decide_eq_true.
      assert (due now g q = true) as Hdue'.
      { unfold due, isCompleted in *. by rewrite <- Ht, <- Hc. }
      rewrite He. destruct (entry (missedPrayers g) _ q); [by eexists|].
      rewrite decide_True by done. rewrite Hdue'. by eexists.
Qed.

(** ** The civil calendar *)

Lemma yoe_bounds doe :
  0 ≤ doe < 146097 →
  0 ≤ (doe - doe / 1460 + doe / 36524 - doe / 146096) / 365 ≤ 399.
Proof. intros H. Z.div_mod_to_equations. lia. Qed.

Lemma mp_bounds doe :
  0 ≤ doe < 146097 →
  let yoe := (doe - doe / 1460 + doe / 36524 - doe / 146096) / 365 in
  let doy := doe - (365 * yoe + yoe / 4 - yoe / 100) in
  0 ≤ (5 * doy + 2) / 153 ≤ 11.
Proof. intros H yoe doy. subst yoe doy. Z.div_mod_to_equations. lia. Qed.

(** The day number of the civil date of a day number is that day number,
    and the month of a civil date is between 1 and 12. *)
Lemma days_from_civil_from_days z :
  let '(y, m, d) := Date.civil_from_days z in
  Date.days_from_civil y m d = z ∧ 1 ≤ m ≤ 12.
Proof.
  unfold Date.civil_from_days.
  set (z' := z + 719468). set (era := z' / 146097).
  set (doe := z' - era * 146097).
  assert (Hdoe : 0 ≤ doe < 146097)
    by (subst doe era; Z.div_mod_to_equations; lia).
  pose proof (yoe_bounds doe Hdoe) as Hyoe.
  pose proof (mp_bounds doe Hdoe) as Hmp. cbn zeta in Hmp.
  set (yoe := (doe - doe / 1460 + doe / 36524 - doe / 146096) / 365) in *.
  set (doy := doe - (365 * yoe + yoe / 4 - yoe / 100)) in *.
  set (mp := (5 * doy + 2) / 153) in *.
  set (m := if mp <? 10 then mp + 3 else mp - 9).
  assert (Hm : 1 ≤ m ≤ 12) by (subst m; destruct (Z.ltb_spec mp 10); lia).
  split; [|done].
  unfold Date.days_from_civil.
  assert ((if m <=? 2 then (if m <=? 2 then yoe + era * 400 + 1 else yoe + era * 400) - 1
           else if m <=? 2 then yoe + era * 400 + 1 else yoe + era * 400)
          = yoe + era * 400) as -> by (destruct (m <=? 2); lia).
  assert ((yoe + era * 400) / 400 = era) as ->
    by (Z.div_mod_to_equations; lia).
  assert ((if 2 <? m then m - 3 else m + 9) = mp) as ->.
  { subst m. destruct (Z.ltb_spec mp 10).
    - destruct (Z.ltb_spec 2 (mp + 3)); lia.
    - destruct (Z.ltb_spec 2 (mp - 9)); lia. }
  replace (yoe + era * 400 - era * 400) with yoe by lia.
  subst doy doe z'. lia.
Qed.

Lemma days_from_civil_day y m d d' :
  Date.days_from_civil y m d' = Date.days_from_civil y m d - d + d'.
Proof. unfold Date.days_from_civil. lia. Qed.

(** [MakeDay] on the year and month of a time value counts the days from
    the first of that month. *)
Lemma MakeDay_same_month t date :
  Date.MakeDay (Date.getFullYear t) (Date.getMonth t) date
  = Date.Day t - Date.getDate t + date.
Proof.
  unfold Date.MakeDay, Date.getFullYear, Date.getMonth, Date.getDate.
  pose proof (days_from_civil_from_days (Date.Day t)) as H.
  destruct (Date.civil_from_days (Date.Day t)) as [[y m] d].
  destruct H as [H Hm]. cbn [fst snd].
  assert ((m - 1) / 12 = 0) as -> by (Z.div_mod_to_equations; lia).
  assert ((m - 1) mod 12 + 1 = m) as -> by (Z.div_mod_to_equations; lia).
  rewrite Z.add_0_r, (days_from_civil_day y m d 1), H. lia.
Qed.

(** [setDate(getDate() - 30)] moves a date thirty days back. *)
Lemma thirtyDaysAgo_shift now :
  Retention.thirtyDaysAgo now = Date.TimeClip (now - 30 * Date.msPerDay).
Proof.
  unfold Retention.thirtyDaysAgo, Date.setDate. rewrite MakeDay_same_month.
  f_equal. unfold Date.Day, Date.TimeWithinDay, Date.msPerDay.
  Z.div_mod_to_equations. lia.
Qed.

(** ** Printing and reading back a number *)

Lemma digits_string_of_uint u : ∀ acc,
  JS.digits acc (NilEmpty.string_of_uint u) = Some (uval acc u).
Proof. induction u; intros acc; cbn [NilEmpty.string_of_uint uval]; [done|..]; apply IHu. Qed.

Lemma uval_of_uint_acc u : ∀ p, uval (Z.pos p) u = Z.pos (Pos.of_uint_acc u p).
Proof.
  induction u; intros p; cbn [uval Pos.of_uint_acc]; [done|..];
    rewrite <- IHu; f_equal; lia.
Qed.

Lemma uval_of_uint u : uval 0 u = Z.of_N (Pos.of_uint u).
Proof.
  induction u; cbn [uval Pos.of_uint Z.of_N]; [done| exact IHu |..];
    by rewrite <- uval_of_uint_acc.
Qed.

Lemma to_string_pos p :
  JS.to_string (Int (Z.pos p)) = NilEmpty.string_of_uint (Pos.to_uint p).
Proof.
  cbn [JS.to_string Z.to_int NilZero.string_of_int]. unfold NilZero.string_of_uint.
  pose proof (Unsigned.to_uint_nonnil p). by destruct (Pos.to_uint p).
Qed.

Lemma all_digits_uint u : JS.all_chars JS.is_digit (NilEmpty.string_of_uint u) = true.
Proof. induction u; cbn [NilEmpty.string_of_uint JS.all_chars]; [done|..]; exact IHu. Qed.

Lemma string_of_uint_nonempty u : u ≠ Decimal.Nil → NilEmpty.string_of_uint u ≠ "".
Proof. by destruct u. Qed.

(** The text of a number that is not negative: a run of digits, not
    empty. *)
Lemma to_string_digits n :
  0 ≤ n →
  JS.all_chars JS.is_digit (JS.to_string (Int n)) = true
  ∧ JS.to_string (Int n) ≠ ""
  ∧ JS.digits 0 (JS.to_string (Int n)) = Some n.
Proof.
  intros Hn. destruct n as [|p|p]; [done| |lia].
  rewrite to_string_pos. split; [apply all_digits_uint|].
  split; [apply string_of_uint_nonempty, Unsigned.to_uint_nonnil|].
  rewrite digits_string_of_uint, uval_of_uint, Unsigned.of_to. done.
Qed.

Lemma digit_not_space c : JS.is_digit c = true → JS.is_space c = false.
Proof.
  unfold JS.is_digit, JS.is_space. intros [H1 H2]%andb_true_iff.
  apply Z.leb_le in H1, H2.
  repeat (apply orb_false_iff; split); [apply andb_false_iff; right|..];
    first [apply Z.leb_gt | apply Z.eqb_neq]; lia.
Qed.

Lemma trim_end_digits s : JS.all_chars JS.is_digit s = true → JS.trim_end s = s.
Proof.
  induction s as [|c s IH]; cbn [JS.all_chars JS.trim_end]; [done|].
  intros [Hc Hs]%andb_true_iff. rewrite (IH Hs).
  destruct s; [by rewrite digit_not_space|done].
Qed.

Lemma trim_digits s : JS.all_chars JS.is_digit s = true → JS.trim s = s.
Proof.
  intros H. unfold JS.trim.
  assert (JS.trim_start s = s) as ->; [|by apply trim_end_digits].
  destruct s as [|c s]; [done|]. cbn [JS.all_chars] in H.
  apply andb_true_iff in H as [Hc _]. cbn [JS.trim_start].
  by rewrite digit_not_space.
Qed.

Lemma signed_digits_digits s :
  JS.all_chars JS.is_digit s = true → s ≠ "" →
  JS.signed_digits s = JS.digits 0 s.
Proof.
  destruct s as [|c s]; [done|]. cbn [JS.all_chars]. intros [Hc _]%andb_true_iff _.
  apply digit_inv in Hc.
  destruct c as [[] [] [] [] [] [] [] []]; try reflexivity;
    destruct Hc as [_ Hc]; vm_compute in Hc; destruct Hc as [H1 H2];
    exfalso; first [by apply H1 | by apply H2].
Qed.

(** [Number(String(n))] is [n] for an integer that is exact and not
    negative. *)
Lemma Number_to_string n :
  0 ≤ n ≤ 2 ^ 53 → JS.Number (JS.to_string (Int n)) = Some (Int n).
Proof.
  intros Hn. destruct (to_string_digits n) as (Hall & Hne & Hd); [lia|].
  unfold JS.Number. rewrite trim_digits by done.
  rewrite signed_digits_digits, Hd by done. rewrite exact_small by lia.
  by destruct (JS.to_string (Int n)).
Qed.

(** ** The key of a day, read back *)

Lemma split_field sep s rest :
  JS.all_chars JS.is_digit s = true → JS.is_digit sep = false →
  JS.split sep (s ++ String sep rest) = s :: JS.split sep rest.
Proof.
  intros Hs Hsep. induction s as [|c s IH].
  - change ("" ++ String sep rest) with (String sep rest).
    cbn [JS.split]. by rewrite Ascii.eqb_refl.
  - change (String c s ++ String sep rest) with (String c (s ++ String sep rest)).
    cbn [JS.all_chars] in Hs. apply andb_true_iff in Hs as [Hc Hs].
    cbn [JS.split]. rewrite (IH Hs).
    destruct (Ascii.eqb_spec c sep) as [->|_]; [congruence|done].
Qed.

Lemma split_single sep s :
  JS.all_chars JS.is_digit s = true → JS.is_digit sep = false →
  JS.split sep s = [s].
Proof.
  intros Hs Hsep. induction s as [|c s IH]; [done|].
  cbn [JS.all_chars] in Hs. apply andb_true_iff in Hs as [Hc Hs].
  cbn [JS.split]. rewrite (IH Hs).
  destruct (Ascii.eqb_spec c sep) as [->|_]; [congruence|done].
Qed.

Lemma civil_fields z :
  0 ≤ z ≤ 100000000 →
  let '(y, m, d) := Date.civil_from_days z in
  100 ≤ y ≤ 400000 ∧ 1 ≤ m ≤ 12 ∧ 1 ≤ d ≤ 31.
Proof.
  intros Hz. pose proof (days_from_civil_from_days z) as H.
  unfold Date.civil_from_days in *.
  set (z' := z + 719468) in *. set (era := z' / 146097) in *.
  set (doe := z' - era * 146097) in *.
  assert (Hdoe : 0 ≤ doe < 146097)
    by (subst doe era; Z.div_mod_to_equations; lia).
  assert (Hera : 4 ≤ era ≤ 700)
    by (subst era z'; Z.div_mod_to_equations; lia).
  pose proof (yoe_bounds doe Hdoe) as Hyoe.
  pose proof (mp_bounds doe Hdoe) as Hmp. cbn zeta in Hmp.
  set (yoe := (doe - doe / 1460 + doe / 36524 - doe / 146096) / 365) in *.
  set (doy := doe - (365 * yoe + yoe / 4 - yoe / 100)) in *.
  set (mp := (5 * doy + 2) / 153) in *.
  destruct H as [_ Hm].
  split; [destruct (_ <=? 2); lia|]. split; [done|].
  subst mp. Z.div_mod_to_equations. lia.
Qed.

(** The key that [getTodayKey] writes for a clock from 1970 on parses back
    to the midnight of its day. *)
Lemma dateOfKey_getTodayKey now :
  0 ≤ now ≤ 8640000000000000 →
  Retention.dateOfKey (getTodayKey now) = Some (At (Date.Day now * Date.msPerDay)).
Proof.
  intros Hnow.
  assert (Hday : 0 ≤ Date.Day now ≤ 100000000)
    by (unfold Date.Day, Date.msPerDay; Z.div_mod_to_equations; lia).
  pose proof (civil_fields (Date.Day now) Hday) as Hc.
  pose proof (MakeDay_same_month now (Date.getDate now)) as Hmk.
  unfold getTodayKey, Date.getDate, Date.getMonth, Date.getFullYear in *.
  destruct (Date.civil_from_days (Date.Day now)) as [[y m] d].
  cbn [fst snd] in *. destruct Hc as (Hy & Hm & Hd).
  replace (m - 1 + 1) with m by lia.
  destruct (to_string_digits d) as (Hd1 & _ & _); [lia|].
  destruct (to_string_digits m) as (Hm1 & _ & _); [lia|].
  destruct (to_string_digits y) as (Hy1 & _ & _); [lia|].
  unfold Retention.dateOfKey.
  repeat progress change ("-" ++ ?x) with (String "-" x).
  rewrite !split_field, split_single by done.
  unfold JS.nth. cbn [lookup list_lookup JS.ToNumber].
  rewrite !Number_to_string by lia. cbn [mbind option_bind].
  unfold JS.sub, JS.lift2. rewrite exact_small by lia. cbn [mbind option_bind].
  unfold Date.make.
  assert ((0 <=? y) && (y <=? 99) = false) as ->
    by (apply andb_false_iff; right; apply Z.leb_gt; lia).
  rewrite Hmk. replace (Date.Day now - d + d) with (Date.Day now) by lia.
  unfold Date.TimeClip. rewrite (proj2 (Z.leb_le _ _)); [done|].
  unfold Date.Day, Date.msPerDay in *. Z.div_mod_to_equations. lia.
Qed.

(** ** The retention sweep *)

Section sweep.
Context {A : Type} (cutoff : timeValue).
Implicit Types (o acc : gmap string A) (ks : list string).

Lemma sweep_from_None ks :
  foldl (Retention.sweepKey (A := A) cutoff) None ks = None.
Proof. by induction ks. Qed.

Lemma sweep_loop_lookup ks : ∀ acc o',
  foldl (Retention.sweepKey cutoff) (Some acc) ks = Some o' →
  ∀ k, o' !! k = if bool_decide (k ∈ ks) && older cutoff k then None else acc !! k.
Proof.
  induction ks as [|k0 ks IH]; intros acc o'; cbn [foldl].
  - intros [= <-] k. by rewrite bool_decide_eq_false_2 by apply not_elem_of_nil.
  - unfold Retention.sweepKey at 2. cbn [mbind option_bind].
    destruct (Retention.dateOfKey k0) as [d|] eqn:Ed; cbn [mbind option_bind];
      [|by rewrite sweep_from_None].
    intros H k. rewrite (IH _ _ H k).
    assert (Hold : older cutoff k0 = Date.lt d cutoff) by (unfold older; by rewrite Ed).
    destruct (decide (k = k0)) as [->|Hne].
    + rewrite (bool_decide_eq_true_2 (k0 ∈ k0 :: ks)) by left.
      rewrite Hold. destruct (Date.lt d cutoff).
      * rewrite lookup_delete_eq. by destruct (_ && _).
      * by rewrite !andb_false_r.
    + assert (bool_decide (k ∈ k0 :: ks) = bool_decide (k ∈ ks)) as ->.
      { apply bool_decide_ext. rewrite elem_of_cons.
        split; [by intros [?|?] | by right]. }
      destruct (_ && _); [done|].
      destruct (Date.lt d cutoff); [by rewrite lookup_delete_ne|done].
Qed.

Lemma sweep_loop_total ks : ∀ acc,
  forallb modelledKey ks = true →
  is_Some (foldl (Retention.sweepKey cutoff) (Some acc) ks).
Proof.
  induction ks as [|k0 ks IH]; intros acc; cbn [foldl forallb]; [by eexists|].
  intros [Hk Hks]%andb_true_iff. unfold Retention.sweepKey at 2.
  unfold modelledKey in Hk. cbn [mbind option_bind].
  destruct (Retention.dateOfKey k0); [|done]. cbn [mbind option_bind].
  by apply IH.
Qed.

(** The sweep keeps exactly the buckets that are not older than the
    cutoff. *)
Lemma sweep_lookup o o' k :
  Retention.sweep cutoff o = Some o' →
  o' !! k = if older cutoff k then None else o !! k.
Proof.
  intros H. rewrite (sweep_loop_lookup _ _ _ H k).
  destruct (decide (k ∈ (map_to_list o).*1)) as [Hin|Hin].
  - by rewrite bool_decide_eq_true_2.
  - rewrite bool_decide_eq_false_2 by done. cbn [andb].
    destruct (o !! k) as [v|] eqn:E; [|by destruct (older _ _)].
    destruct Hin. apply list_elem_of_fmap. exists (k, v).
    split; [done|]. by apply elem_of_map_to_list.
Qed.

End sweep.

Lemma cleanOldData_total now g :
  keysModelled g = true → ∃ g', Retention.cleanOldData now g = Normal g'.
Proof.
  unfold keysModelled, Retention.cleanOldData, Retention.sweep.
  intros [Hm Hc]%andb_true_iff.
  destruct (sweep_loop_total (Retention.thirtyDaysAgo now) _ (missedPrayers g) Hm) as [m ->].
  destruct (sweep_loop_total (Retention.thirtyDaysAgo now) _ (completedPrayers g) Hc) as [c ->].
  by eexists.
Qed.

Lemma cleanOldData_lookup now g g' :
  Retention.cleanOldData now g = Normal g' →
  prayerTimes g' = prayerTimes g
  ∧ ∀ k, missedPrayers g' !! k
         = (if older (Retention.thirtyDaysAgo now) k then None else missedPrayers g !! k)
       ∧ completedPrayers g' !! k
         = (if older (Retention.thirtyDaysAgo now) k then None else completedPrayers g !! k).
Proof.
  unfold Retention.cleanOldData.
  destruct (Retention.sweep _ (missedPrayers g)) as [m|] eqn:Em; [|done].
  destruct (Retention.sweep _ (completedPrayers g)) as [c|] eqn:Ec; [|done].
  intros [= <-]. cbn [prayerTimes missedPrayers completedPrayers].
  split; [done|]. intros k. split; by apply sweep_lookup.
Qed.

(** A key dated at least 31 days before the clock is older than the cutoff,
    one dated at most 29 days before is not. *)
Lemma older_31 now dateKey t :
  Date.TimeClip now = At now →
  Retention.dateOfKey dateKey = Some (At t) →
  Date.TimeClip t = At t →
  Date.Day t = Date.Day now - 31 →
  older (Retention.thirtyDaysAgo now) dateKey = true.
Proof.
  unfold older. intros Hnow -> Ht Hday. rewrite thirtyDaysAgo_shift.
  unfold Date.TimeClip, Date.Day, Date.msPerDay in *.
  destruct (Z.leb_spec (Z.abs now) 8640000000000000); [|done].
  destruct (Z.leb_spec (Z.abs t) 8640000000000000); [|done].
  assert (t < now - 30 * 86400000) by (Z.div_mod_to_equations; lia).
  rewrite (proj2 (Z.leb_le _ _)) by lia. cbn [Date.lt]. by apply Z.ltb_lt.
Qed.

Lemma older_29 now dateKey t :
  Retention.dateOfKey dateKey = Some (At t) →
  Date.Day t = Date.Day now - 29 →
  older (Retention.thirtyDaysAgo now) dateKey = false.
Proof.
  unfold older. intros -> Hday. rewrite thirtyDaysAgo_shift.
  unfold Date.TimeClip, Date.Day, Date.msPerDay in *.
  destruct (_ <=? _); [|done]. cbn [Date.lt]. apply Z.ltb_ge.
  Z.div_mod_to_equations. lia.
Qed.

(** A time value made by [new Date(y, m, d)] is within the clip range. *)
Lemma dateOfKey_clipped dateKey t :
  Retention.dateOfKey dateKey = Some (At t) → Date.TimeClip t = At t.
Proof.
  unfold Retention.dateOfKey. intros H.
  repeat match type of H with
         | (?x ≫= _) = Some _ => destruct x; cbn [mbind option_bind] in H; [|done]
         end.
  injection H as H. unfold Date.make in H.
  repeat match type of H with
         | match ?x with _ => _ end = _ => destruct x; try done
         end;
  unfold Date.TimeClip in *;
  match type of H with
  | (if ?b then _ else _) = _ => destruct b eqn:E; [|done]
  end; injection H as <-; by rewrite E.
Qed.

(** C6: the sweep, whose cutoff is thirty days before the clock, removes
    from both records a bucket whose key parses to a date 31 days before
    the clock and keeps in both records a bucket whose key parses to a date
    29 days before the clock. *)
Theorem cleanOldData_thirty_days (now : Z) (g : globals) (dateKey : string) (t : Z) :
  Date.TimeClip now = At now →
  keysModelled g = true →
  Retention.dateOfKey dateKey = Some (At t) →
  ∃ g', Retention.cleanOldData now g = Normal g'
        ∧ (Date.Day t = Date.Day now - 31 →
             missedPrayers g' !! dateKey = None
             ∧ completedPrayers g' !! dateKey = None)
        ∧ (Date.Day t = Date.Day now - 29 →
             missedPrayers g' !! dateKey = missedPrayers g !! dateKey
             ∧ completedPrayers g' !! dateKey = completedPrayers g !! dateKey).
Proof.
  intros Hnow Hkeys Hkey.
  destruct (cleanOldData_total now g Hkeys) as [g' Hg'].
  exists g'. split; [done|].
  destruct (cleanOldData_lookup now g g' Hg') as [_ Hl].
  destruct (Hl dateKey) as [-> ->].
  split; intros Hday.
  - by rewrite (older_31 now dateKey t Hnow Hkey (dateOfKey_clipped _ _ Hkey) Hday).
  - by rewrite (older_29 now dateKey t Hkey Hday).
Qed.

(** Thursday 1 February 2024, 10:00.  The records hold the buckets of
    1 January (31 days before) and of 3 January (29 days before). *)
Lemma cleanOldData_thirty_days_witness :
  let now := 1706781600000 in
  let bucket day := {[ "Fajr" := {| date := day; time := str "05:00" |} ]} in
  let g := {| prayerTimes := defaultTable now;
              missedPrayers := {[ "1-1-2024" := bucket "1-1-2024";
                                  "3-1-2024" := bucket "3-1-2024" ]};
              completedPrayers := {[ "1-1-2024" := {[ "Asr" := true ]};
                                     "3-1-2024" := {[ "Asr" := true ]} ]} |} in
  (∃ g', Retention.cleanOldData now g = Normal g'
         ∧ missedPrayers g' !! "1-1-2024" = None
         ∧ completedPrayers g' !! "1-1-2024" = None)
  ∧ (∃ g', Retention.cleanOldData now g = Normal g'
           ∧ missedPrayers g' !! "3-1-2024" = Some (bucket "3-1-2024")
           ∧ completedPrayers g' !! "3-1-2024" = Some {[ "Asr" := true ]}).
Proof.
  intros now bucket g. split.
  - destruct (cleanOldData_thirty_days now g "1-1-2024" 1704067200000)
      as (g' & Hg' & H31 & _); [reflexivity | vm_compute; reflexivity | vm_compute; reflexivity |].
    exists g'. split; [exact Hg'|]. apply H31. reflexivity.
  - destruct (cleanOldData_thirty_days now g "3-1-2024" 1704240000000)
      as (g' & Hg' & _ & H29); [reflexivity | vm_compute; reflexivity | vm_compute; reflexivity |].
    exists g'. split; [exact Hg'|].
    destruct (H29 eq_refl) as [-> ->]. split; reflexivity.
Defined.

(** C7: a bucket whose key does not parse to a valid date is left in place
    in both records, and the sweep goes on: it returns, and every bucket of
    both records, that one included, is kept or removed by the test of its
    own date against the cutoff. *)
Theorem cleanOldData_skips_invalid_key (now : Z) (g : globals) (dateKey : string) :
  keysModelled g = true →
  Retention.dateOfKey dateKey = Some InvalidDate →
  ∃ g', Retention.cleanOldData now g = Normal g'
        ∧ missedPrayers g' !! dateKey = missedPrayers g !! dateKey
        ∧ completedPrayers g' !! dateKey = completedPrayers g !! dateKey
        ∧ ∀ k, missedPrayers g' !! k
               = (if older (Retention.thirtyDaysAgo now) k then None
                  else missedPrayers g !! k)
             ∧ completedPrayers g' !! k
               = (if older (Retention.thirtyDaysAgo now) k then None
                  else completedPrayers g !! k).
Proof.
  intros Hkeys Hkey.
  destruct (cleanOldData_total now g Hkeys) as [g' Hg'].
  exists g'. split; [done|].
  destruct (cleanOldData_lookup now g g' Hg') as [_ Hl].
  assert (Hold : older (Retention.thirtyDaysAgo now) dateKey = false)
    by (unfold older; by rewrite Hkey).
  destruct (Hl dateKey) as [Hm Hc]. rewrite Hold in Hm, Hc. done.
Qed.

(** Thursday 1 February 2024: the key "someday" has no date and stays, the
    bucket of 1 January goes. *)
Lemma cleanOldData_skips_invalid_key_witness :
  let now := 1706781600000 in
  let bucket day := {[ "Fajr" := {| date := day; time := str "05:00" |} ]} in
  let g := {| prayerTimes := defaultTable now;
              missedPrayers := {[ "someday" := bucket "someday";
                                  "1-1-2024" := bucket "1-1-2024" ]};
              completedPrayers := {[ "someday" := {[ "Asr" := true ]} ]} |} in
  ∃ g', Retention.cleanOldData now g = Normal g'
        ∧ missedPrayers g' !! "someday" = Some (bucket "someday")
        ∧ completedPrayers g' !! "someday" = Some {[ "Asr" := true ]}
        ∧ missedPrayers g' !! "1-1-2024" = None.
Proof.
  intros now bucket g.
  destruct (cleanOldData_skips_invalid_key now g "someday")
    as (g' & Hg' & Hm & Hc & Hall); [vm_compute; reflexivity | vm_compute; reflexivity |].
  exists g'. split; [exact Hg'|]. rewrite Hm, Hc.
  split; [reflexivity|]. split; [reflexivity|].
  destruct (Hall "1-1-2024") as [-> _]. reflexivity.
Defined.

(** The same on the keys the tracker writes itself: at a clock [now], the
    bucket written under [getTodayKey] 31 days earlier goes and the one
    written 29 days earlier stays (clocks from 1970 on). *)
Lemma cleanOldData_own_keys now past g g' :
  0 ≤ past → past ≤ now ≤ 8640000000000000 →
  Retention.cleanOldData now g = Normal g' →
  (Date.Day past = Date.Day now - 31 →
     missedPrayers g' !! getTodayKey past = None
     ∧ completedPrayers g' !! getTodayKey past = None)
  ∧ (Date.Day past = Date.Day now - 29 →
       missedPrayers g' !! getTodayKey past = missedPrayers g !! getTodayKey past
       ∧ completedPrayers g' !! getTodayKey past
         = completedPrayers g !! getTodayKey past).
Proof.
  intros Hpast Hnow Hg'.
  assert (Hkey := dateOfKey_getTodayKey past ltac:(lia)).
  assert (Hclip : Date.TimeClip now = At now).
  { unfold Date.TimeClip. rewrite (proj2 (Z.leb_le _ _)); [done|lia]. }
  assert (Hd : Date.Day (Date.Day past * Date.msPerDay) = Date.Day past).
  { unfold Date.Day, Date.msPerDay. Z.div_mod_to_equations. lia. }
  destruct (cleanOldData_lookup now g g' Hg') as [_ Hl].
  destruct (Hl (getTodayKey past)) as [-> ->].
  split; intros Hday.
  - rewrite (older_31 now _ _ Hclip Hkey (dateOfKey_clipped _ _ Hkey)); [done|].
    by rewrite Hd.
  - rewrite (older_29 now _ _ Hkey); [done|]. by rewrite Hd.
Qed.

(** ** The two records never hold the same pair *)

Lemma togglePrayer_entries now p checked g d q :
  let today := getTodayKey now in
  let g' := Tracker.togglePrayer now p checked g in
  entry (completedPrayers g') d q
  = (if decide (today = d ∧ p = q) then (if checked then Some true else None)
     else entry (completedPrayers g) d q)
  ∧ entry (missedPrayers g') d q
    = (if decide (today = d ∧ p = q) then
         if checked then None
         else if JS.gt (str (currentTime now)) (Classifier.getEndTime (prayerTimes g) p)
              then Some (entryOf g today p)
              else entry (missedPrayers g) d q
       else entry (missedPrayers g) d q).
Proof.
  intros today g'. subst g'. unfold Tracker.togglePrayer. fold today.
  destruct checked; cbn [completedPrayers missedPrayers].
  - rewrite entry_putEntry, entry_ensureDay. split; [done|].
    destruct (isMissed g today p) eqn:Hm.
    + by rewrite entry_removeEntry.
    + case_decide as Hk; [|done]. destruct Hk as [<- <-].
      rewrite isMissed_entry in Hm. apply bool_decide_eq_false in Hm.
      destruct (entry (missedPrayers g) today p); [|done]. destruct Hm. by eexists.
  - rewrite entry_removeEntry, entry_ensureDay. split; [done|].
    destruct (JS.gt _ _); [|by case_decide].
    by rewrite entry_putEntry.
Qed.

Lemma exclusive_initial : exclusive initial.
Proof. intros d p. split; [intros v|intros [v Hv]]; done. Qed.

Lemma exclusive_withTable tbl g : exclusive g → exclusive (withTable tbl g).
Proof. intros H d p. apply H. Qed.

Lemma exclusive_toggle now p checked g :
  exclusive g → exclusive (Tracker.togglePrayer now p checked g).
Proof.
  intros H d q. destruct (H d q) as [Ht Hx].
  destruct (togglePrayer_entries now p checked g d q) as [-> ->].
  case_decide as Hk; [|done].
  destruct checked.
  - split; [by intros v [= <-] | done].
  - split; [done | by intros [? ?]].
Qed.

Lemma exclusive_check now g :
  exclusive g → exclusive (Tracker.checkForMissedPrayers now g).
Proof.
  intros H d q. destruct (H d q) as [Ht Hx].
  destruct (check_loop now (prayers (isFriday now)) g) as (_ & Hc & He).
  fold (Tracker.checkForMissedPrayers now g) in Hc, He.
  rewrite Hc, He. split; [done|].
  intros Hs. rewrite (Hx Hs).
  case_decide as Hk; [|done]. destruct Hk as [<- _].
  assert (due now g q = false) as ->; [|done].
  unfold due. rewrite isCompleted_entry.
  destruct Hs as [v Hv]. rewrite Hv, (Ht v Hv).
  rewrite bool_decide_eq_true_2 by done. apply andb_false_r.
Qed.

Lemma cleanOldData_entries now g g' d q :
  Retention.cleanOldData now g = Normal g' →
  entry (missedPrayers g') d q
  = (if older (Retention.thirtyDaysAgo now) d then None else entry (missedPrayers g) d q)
  ∧ entry (completedPrayers g') d q
    = (if older (Retention.thirtyDaysAgo now) d then None
       else entry (completedPrayers g) d q).
Proof.
  intros [_ Hl]%cleanOldData_lookup. unfold entry. destruct (Hl d) as [-> ->].
  by destruct (older _ d).
Qed.

Lemma exclusive_clean now g g' :
  Retention.cleanOldData now g = Normal g' → exclusive g → exclusive g'.
Proof.
  intros Hc H d q. destruct (H d q) as [Ht Hx].
  destruct (cleanOldData_entries now g g' d q Hc) as [-> ->].
  destruct (older _ d); [|done].
  split; [done | by intros [? ?]].
Qed.

Lemma exclusive_fetch now r g :
  exclusive g → exclusive (fetchPrayerTimes now r g).
Proof.
  intros H. destruct r as [tm| |]; cbn [fetchPrayerTimes]; [|done|].
  - destruct (complete tm).
    + by apply exclusive_check, exclusive_withTable.
    + by apply exclusive_withTable.
  - by apply exclusive_withTable.
Qed.

Lemma exclusive_step g g' : step g g' → exclusive g → exclusive g'.
Proof.
  intros Hs Hx. destruct Hs.
  - by apply exclusive_fetch.
  - by apply exclusive_toggle.
  - by apply exclusive_check.
  - by eapply exclusive_clean.
Qed.

Lemma reachable_exclusive g : reachable g → exclusive g.
Proof.
  unfold reachable. intros H.
  apply (rtc_ind_r (R := step) (fun g => exclusive g) initial);
    [apply exclusive_initial | | exact H].
  intros y z _ Hs IH. by eapply exclusive_step.
Qed.

(** C10: in every state the tracker can reach no (day, prayer) pair is in
    both records.  Marking a prayer complete leaves the pair completed and
    without a missed entry; the entry is deleted from today's missed bucket
    and the bucket itself when nothing else is left in it.  The
    re-evaluation leaves a completed pair without a missed entry. *)
Theorem completed_and_missed_exclusive (g : globals) :
  reachable g →
  (∀ day prayer,
     ¬ (is_Some (entry (completedPrayers g) day prayer)
        ∧ is_Some (entry (missedPrayers g) day prayer)))
  ∧ (∀ now prayer,
       let today := getTodayKey now in
       let g' := Tracker.togglePrayer now prayer true g in
       isCompleted g' today prayer = true
       ∧ entry (missedPrayers g') today prayer = None
       ∧ ∀ b, missedPrayers g !! today = Some b → is_Some (b !! prayer) →
              missedPrayers g' !! today
              = if decide (delete prayer b = ∅) then None else Some (delete prayer b))
  ∧ (∀ now prayer,
       let today := getTodayKey now in
       isCompleted g today prayer = true →
       entry (missedPrayers (Tracker.checkForMissedPrayers now g)) today prayer = None).
Proof.
  intros Hr. pose proof (reachable_exclusive g Hr) as Hx.
  split; [|split].
  - intros d p [Hc [e He]]. destruct (Hx d p) as [_ H]. by rewrite (H Hc) in He.
  - intros now p today g'.
    destruct (togglePrayer_entries now p true g today p) as [Hc Hm].
    fold g' in Hc, Hm.
    rewrite decide_True in Hc by done. rewrite decide_True in Hm by done.
    split; [by rewrite isCompleted_entry, Hc, bool_decide_eq_true_2|].
    split; [done|].
    intros b Hb Hp. subst g'. unfold Tracker.togglePrayer. fold today.
    cbn [missedPrayers]. unfold isMissed. rewrite Hb.
    rewrite bool_decide_eq_true_2 by done.
    unfold Tracker.removeEntry. rewrite Hb.
    destruct (decide (size (delete p b) = 0%nat)) as [Hs|Hs].
    + rewrite decide_True by (by apply map_size_empty_iff).
      apply lookup_delete_eq.
    + rewrite decide_False by (by rewrite <- map_size_empty_iff).
      apply lookup_insert_eq.
  - intros now p today Hc.
    destruct (exclusive_check now g Hx today p) as [_ H]. apply H.
    destruct (check_loop now (prayers (isFriday now)) g) as (_ & Hc' & _).
    fold (Tracker.checkForMissedPrayers now g) in Hc'. rewrite Hc'.
    rewrite isCompleted_entry in Hc. apply bool_decide_eq_true in Hc. by eexists.
Qed.

(** Monday 1 January 2024, 20:00: the request fails and the default table
    is installed, the timer records Asr as missed, then the user marks Asr. *)
Lemma completed_and_missed_exclusive_witness :
  let now := 1704139200000 in
  let g1 := Tracker.checkForMissedPrayers now (fetchPrayerTimes now Failed initial) in
  let g := Tracker.togglePrayer now "Asr" true g1 in
  isMissed g1 "1-1-2024" "Asr" = true
  ∧ isCompleted g "1-1-2024" "Asr" = true
  ∧ ¬ (is_Some (entry (completedPrayers g) "1-1-2024" "Asr")
       ∧ is_Some (entry (missedPrayers g) "1-1-2024" "Asr")).
Proof.
  intros now g1 g.
  split; [vm_compute; reflexivity|]. split; [vm_compute; reflexivity|].
  assert (Hr : reachable g).
  { unfold reachable, g, g1.
    eapply rtc_r; [eapply rtc_r; [eapply rtc_once, (step_fetch now Failed)|]|].
    - apply step_tick.
    - apply step_toggle. }
  destruct (completed_and_missed_exclusive g Hr) as (H & _ & _).
  apply H.
Defined.

(** ** The daily statistics *)

Lemma count_loop (f : string → bool) (l : list string) : ∀ n : Z,
  foldl (fun n prayer => if f prayer then n + 1 else n) n l
  = n + Z.of_nat (length (List.filter f l)).
Proof.
  induction l as [|p l IH]; intros n; cbn [foldl List.filter]; [cbn; lia|].
  rewrite IH. destruct (f p); cbn [length]; lia.
Qed.

Lemma filter_length_le (f : string → bool) (l : list string) :
  (length (List.filter f l) ≤ length l)%nat.
Proof. induction l as [|p l IH]; cbn; [lia|]. destruct (f p); cbn; lia. Qed.

(** C9: Friday's list is the weekday list with Jummah in the place of
    Dhuhr, and it has five prayers.  [updateStats] counts the prayers of
    today's list that are marked completed and shows 5 minus that count as
    remaining, on a Friday as on any other day; both numbers are between 0
    and 5. *)
Theorem updateStats_out_of_five (now : Z) (g : globals) :
  prayers true = <[1%nat := "Jummah"]> (prayers false)
  ∧ prayers false !! 1%nat = Some "Dhuhr"
  ∧ length (prayers (isFriday now)) = 5%nat
  ∧ let today := getTodayKey now in
    let completedCount := (Tracker.updateStats now g).1 in
    let remainingCount := (Tracker.updateStats now g).2 in
    completedCount
    = Z.of_nat (length (List.filter (isCompleted g today) (prayers (isFriday now))))
    ∧ remainingCount = 5 - completedCount
    ∧ 0 ≤ completedCount ≤ 5 ∧ 0 ≤ remainingCount ≤ 5.
Proof.
  split; [reflexivity|]. split; [reflexivity|].
  assert (Hlen : length (prayers (isFriday now)) = 5%nat) by (by destruct (isFriday now)).
  split; [done|]. intros today completedCount remainingCount.
  assert (Hcount : completedCount
    = Z.of_nat (length (List.filter (isCompleted g today) (prayers (isFriday now))))).
  { subst completedCount. unfold Tracker.updateStats, isCompleted. fold today.
    cbn [fst]. destruct (completedPrayers g !! today) as [b|].
    - by rewrite count_loop.
    - by destruct (isFriday now). }
  pose proof (filter_length_le (isCompleted g today) (prayers (isFriday now))).
  split; [done|]. subst remainingCount. unfold Tracker.updateStats in *. cbn [fst snd] in *.
  split; [reflexivity|]. lia.
Qed.

(** ** More on the time utilities *)

(** X1. On well-formed times [isTimeInRange] compares minutes of the day,
    both ends included; a range whose end is before its start holds no time
    at all (it does not run over midnight). *)
Theorem isTimeInRange_compares_minutes (c s e : string) :
  is_hhmm c = true → is_hhmm s = true → is_hhmm e = true →
  TimeMath.isTimeInRange (str c) (str s) (str e)
  = (minutes_of s <=? minutes_of c) && (minutes_of c <=? minutes_of e)
  ∧ (minutes_of e < minutes_of s →
     TimeMath.isTimeInRange (str c) (str s) (str e) = false).
Proof.
  intros Hc Hs He.
  assert (H : TimeMath.isTimeInRange (str c) (str s) (str e)
              = (minutes_of s <=? minutes_of c) && (minutes_of c <=? minutes_of e)).
  { unfold TimeMath.isTimeInRange, JS.ge, JS.le. by rewrite !leb_hhmm. }
  split; [exact H|]. intros Hlt. rewrite H.
  destruct (Z.leb_spec (minutes_of s) (minutes_of c)); [|done].
  apply Z.leb_gt. lia.
Qed.

Lemma isTimeInRange_compares_minutes_witness :
  TimeMath.isTimeInRange (str "23:30") (str "22:00") (str "01:00") = false.
Proof.
  destruct (isTimeInRange_compares_minutes "23:30" "22:00" "01:00"
              eq_refl eq_refl eq_refl) as [_ H].
  apply H. vm_compute. reflexivity.
Defined.

(** X2. Adding minutes to a well-formed time, the total not being negative,
    gives a well-formed time: the minute of the day plus the minutes, modulo
    24 hours. *)
Theorem addMinutes_forward (t : string) (d : Z) :
  is_hhmm t = true → 0 ≤ minutes_of t + d → d ≤ 2 ^ 52 →
  ∃ t', TimeMath.addMinutes (str t) d = Normal t'
        ∧ is_hhmm t' = true
        ∧ minutes_of t' = (minutes_of t + d) mod 1440.
Proof.
  intros Ht Hpos Hd.
  exists (of_minutes ((minutes_of t + d) mod 1440)).
  split; [by apply addMinutes_wraps|].
  apply of_minutes_wf, Z.mod_pos_bound. lia.
Qed.

Lemma addMinutes_forward_witness :
  ∃ t', TimeMath.addMinutes (str "22:30") 3000 = Normal t'
        ∧ is_hhmm t' = true ∧ minutes_of t' = 30.
Proof.
  destruct (addMinutes_forward "22:30" 3000 eq_refl) as (t' & H1 & H2 & H3);
    [vm_compute; discriminate | vm_compute; discriminate |].
  exists t'. split; [exact H1|]. split; [exact H2|]. exact H3.
Defined.

(** X3. Taking the minutes away again gives the time back whenever the sum
    stays within the day, for minutes of either sign. *)
Theorem subtractMinutes_undoes_addMinutes (t : string) (d : Z) :
  is_hhmm t = true → 0 ≤ minutes_of t + d < 1440 →
  ∃ t', TimeMath.addMinutes (str t) d = Normal t'
        ∧ TimeMath.subtractMinutes (str t') d = Normal t.
Proof.
  intros Ht Hd. pose proof (minutes_of_range t Ht) as Hr.
  exists (of_minutes ((minutes_of t + d) mod 1440)).
  split; [apply addMinutes_wraps; try done; lia|].
  rewrite Z.mod_small by lia.
  destruct (of_minutes_wf (minutes_of t + d) Hd) as [Hwf Hm].
  unfold TimeMath.subtractMinutes.
  rewrite addMinutes_wraps by (try done; lia). rewrite Hm.
  replace (minutes_of t + d + - d) with (minutes_of t) by lia.
  rewrite Z.mod_small by lia. by rewrite of_minutes_of.
Qed.

Lemma subtractMinutes_undoes_addMinutes_witness :
  ∃ t', TimeMath.addMinutes (str "12:15") (-10) = Normal t'
        ∧ TimeMath.subtractMinutes (str t') (-10) = Normal "12:15".
Proof.
  apply (subtractMinutes_undoes_addMinutes "12:15" (-10) eq_refl).
  vm_compute. split; [discriminate | reflexivity].
Defined.

(** *** [getTimeDifference] *)

Lemma minutesOfDay_hhmm t :
  is_hhmm t = true →
  Util.minutesOfDay (JS.split ":" t) = Some (Int (minutes_of t)).
Proof.
  intros (h & m & Hh & Hm & -> & ->)%is_hhmm_inv. unfold Util.minutesOfDay.
  destruct (fields_hhmm h m Hh Hm) as [-> ->]. cbn [mbind option_bind].
  unfold JS.mul, JS.add, JS.lift2. rewrite exact_small by lia.
  cbn [mbind option_bind]. by rewrite exact_small by lia.
Qed.

Lemma getTimeDifference_hhmm f t :
  is_hhmm f = true → is_hhmm t = true →
  Util.getTimeDifference (str f) (str t)
  = Normal (durationText ((minutes_of t - minutes_of f) mod 1440)).
Proof.
  intros Hf Ht. pose proof (minutes_of_range f Hf). pose proof (minutes_of_range t Ht).
  unfold Util.getTimeDifference. rewrite !minutesOfDay_hhmm by done.
  cbn [mbind option_bind]. unfold JS.sub, JS.add, JS.lift2.
  rewrite exact_small by lia. cbn [mbind option_bind Util.numLt].
  set (d := minutes_of t - minutes_of f).
  assert (Hcase : ∀ n, 0 ≤ n < 1440 →
    andThen (inModel (Some (Int n)))
      (λ diffMinutes,
         let hours := JS.floor_div diffMinutes 60 in
         let minutes := JS.rem diffMinutes 60 in
         if Util.numGt hours 0
         then Normal (JS.to_string hours ++ "h " ++ JS.to_string minutes ++ "m")
         else Normal (JS.to_string minutes ++ "m"))
    = Normal (durationText n)).
  { intros n Hn. cbn [andThen inModel JS.floor_div JS.rem Util.numGt].
    unfold durationText. rewrite Z.rem_mod_nonneg by lia.
    by destruct (0 <? n / 60). }
  destruct (Z.ltb_spec d 0).
  - rewrite exact_small by (change (24 * 60) with 1440; lia).
    change (24 * 60) with 1440. rewrite Hcase by lia. do 2 f_equal.
    Z.div_mod_to_equations; lia.
  - rewrite Hcase by lia. do 2 f_equal. Z.div_mod_to_equations; lia.
Qed.

(** X4. Between two well-formed times [getTimeDifference] is the distance
    forward from the first to the second, in minutes modulo 24 hours: never
    negative, below 24 hours, and 0 for equal times.  It is written with the
    hours when there is at least one. *)
Theorem getTimeDifference_forward (f t : string) :
  is_hhmm f = true → is_hhmm t = true →
  let n := (minutes_of t - minutes_of f) mod 1440 in
  0 ≤ n < 1440
  ∧ Util.getTimeDifference (str f) (str t) = Normal (durationText n)
  ∧ Util.getTimeDifference (str f) (str f) = Normal "0m".
Proof.
  intros Hf Ht n. split; [apply Z.mod_pos_bound; lia|].
  split; [by apply getTimeDifference_hhmm|].
  rewrite getTimeDifference_hhmm by done. by rewrite Z.sub_diag.
Qed.

Lemma getTimeDifference_forward_witness :
  Util.getTimeDifference (str "23:00") (str "01:00") = Normal "2h 0m".
Proof.
  destruct (getTimeDifference_forward "23:00" "01:00" eq_refl eq_refl) as (_ & H & _).
  exact H.
Defined.

(** X5. The difference from a time to that time plus some minutes is these
    minutes modulo 24 hours, the total not being negative. *)
Theorem getTimeDifference_after_addMinutes (t : string) (d : Z) :
  is_hhmm t = true → 0 ≤ minutes_of t + d → d ≤ 2 ^ 52 →
  ∃ t', TimeMath.addMinutes (str t) d = Normal t'
        ∧ Util.getTimeDifference (str t) (str t') = Normal (durationText (d mod 1440)).
Proof.
  intros Ht Hpos Hd.
  exists (of_minutes ((minutes_of t + d) mod 1440)).
  split; [by apply addMinutes_wraps|].
  destruct (of_minutes_wf ((minutes_of t + d) mod 1440)) as [Hwf Hm];
    [apply Z.mod_pos_bound; lia|].
  rewrite getTimeDifference_hhmm by done. rewrite Hm. do 2 f_equal.
  rewrite Zminus_mod_idemp_l. f_equal. lia.
Qed.

Lemma getTimeDifference_after_addMinutes_witness :
  ∃ t', TimeMath.addMinutes (str "05:00") 90 = Normal t'
        ∧ Util.getTimeDifference (str "05:00") (str t') = Normal "1h 30m".
Proof.
  apply (getTimeDifference_after_addMinutes "05:00" 90 eq_refl);
    vm_compute; discriminate.
Defined.

(** *** [formatTime] *)

Lemma formatTime_hhmm h m :
  0 ≤ h < 24 → 0 ≤ m < 60 →
  Util.formatTime (str (hhmm h m)) = Normal (twelveHourText h m).
Proof.
  intros Hh Hm.
  assert (H : below 24 (fun h => below 60 (fun m =>
                match Util.formatTime (str (hhmm h m)) with
                | Normal s => String.eqb s (twelveHourText h m)
                | _ => false
                end)) = true) by (vm_compute; reflexivity).
  pose proof (below_spec _ _ _ (below_spec _ _ _ H Hh) Hm) as Hz. cbn beta in Hz.
  destruct (Util.formatTime (str (hhmm h m))); try discriminate.
  by apply String.eqb_eq in Hz as ->.
Qed.

(** X6. [formatTime] turns a well-formed time into its 12-hour text: the
    hour modulo 12 without padding, 12 standing for 0, the two digits of the
    minute, and AM before noon, PM from noon on. *)
Theorem formatTime_twelve_hour (t : string) :
  is_hhmm t = true →
  let h := minutes_of t / 60 in
  let m := minutes_of t mod 60 in
  Util.formatTime (str t)
  = Normal (JS.to_string (Int (if h mod 12 =? 0 then 12 else h mod 12)) ++ ":"
            ++ two m ++ " " ++ (if 12 <=? h then "PM" else "AM")).
Proof.
  intros (h & m & Hh & Hm & -> & ->)%is_hhmm_inv. cbn zeta.
  assert ((h * 60 + m) / 60 = h) as -> by (Z.div_mod_to_equations; lia).
  assert ((h * 60 + m) mod 60 = m) as -> by (Z.div_mod_to_equations; lia).
  by apply formatTime_hhmm.
Qed.

Lemma formatTime_twelve_hour_witness :
  Util.formatTime (str "00:05") = Normal "12:05 AM"
  ∧ Util.formatTime (str "13:07") = Normal "1:07 PM".
Proof.
  split.
  - exact (formatTime_twelve_hour "00:05" eq_refl).
  - exact (formatTime_twelve_hour "13:07" eq_refl).
Defined.

Lemma readTwelveHour_text n :
  0 ≤ n < 1440 → readTwelveHour (twelveHourText (n / 60) (n mod 60)) = n.
Proof.
  intros Hn.
  assert (H : below 1440 (fun n =>
                readTwelveHour (twelveHourText (n / 60) (n mod 60)) =? n) = true)
    by (vm_compute; reflexivity).
  apply Z.eqb_eq. exact (below_spec _ _ _ H Hn).
Qed.

(** X7. Two different well-formed times never have the same 12-hour
    text. *)
Theorem formatTime_injective (t1 t2 : string) :
  is_hhmm t1 = true → is_hhmm t2 = true →
  Util.formatTime (str t1) = Util.formatTime (str t2) → t1 = t2.
Proof.
  intros H1 H2 Heq.
  pose proof (minutes_of_range t1 H1) as R1. pose proof (minutes_of_range t2 H2) as R2.
  rewrite <- (of_minutes_of t1 H1), <- (of_minutes_of t2 H2) in Heq.
  unfold of_minutes in Heq.
  rewrite !formatTime_hhmm in Heq by (Z.div_mod_to_equations; lia).
  injection Heq as Heq. apply (f_equal readTwelveHour) in Heq.
  rewrite !readTwelveHour_text in Heq by done.
  rewrite <- (of_minutes_of t1 H1), <- (of_minutes_of t2 H2). by rewrite Heq.
Qed.

Lemma formatTime_injective_witness :
  Util.formatTime (str "00:30") ≠ Util.formatTime (str "12:30").
Proof.
  intros H. pose proof (formatTime_injective "00:30" "12:30" eq_refl eq_refl H).
  discriminate.
Defined.

(** *** Missing and malformed times in the display helpers *)





(** ** More on the end of a window *)

Lemma indexOf_absent a x : x ∉ a → Obj.indexOf a x = -1.
Proof.
  induction a as [|y a IH]; [done|]. intros [Hy Ha]%not_elem_of_cons.
  cbn [Obj.indexOf]. rewrite (IH Ha).
  destruct (String.eqb_spec y x); [congruence|done].
Qed.

Lemma indexOf_first pre x rest :
  x ∉ pre → Obj.indexOf (pre ++ x :: rest)%list x = Z.of_nat (length pre).
Proof.
  induction pre as [|y pre IH]; intros Hx.
  - cbn [app Obj.indexOf length]. by rewrite String.eqb_refl.
  - apply not_elem_of_cons in Hx as [Hy Hpre].
    cbn [app Obj.indexOf length]. rewrite (IH Hpre).
    destruct (String.eqb_spec y x); [congruence|].
    destruct (Z.ltb_spec (Z.of_nat (length pre)) 0); lia.
Qed.

Lemma get_first pre k v post :
  k ∉ Obj.keys pre → Obj.get (pre ++ (k, v) :: post)%list k = v.
Proof.
  induction pre as [|[k0 v0] pre IH]; intros Hk.
  - cbn [app Obj.get]. by rewrite String.eqb_refl.
  - cbn [Obj.keys map fst] in Hk. apply not_elem_of_cons in Hk as [Hk0 Hpre].
    cbn [app Obj.get]. destruct (String.eqb_spec k0 k); [congruence|by apply IH].
Qed.

(** X9. Apart from Fajr, the end of a prayer is the value of the key that
    follows the prayer's key in the table (the key of Dhuhr for Jummah), in
    the order of insertion: the sentinel 23:59 is returned only when the key
    is the last one.  When the table does not hold the key, the end is the
    value of its first key, and the sentinel when the table is empty. *)
Theorem getEndTime_is_next_key (tbl : Obj.t) (prayer : string) :
  prayer ≠ "Fajr" → NoDup (Obj.keys tbl) →
  let k := lookupName prayer in
  (∀ pre v k' v' post,
     tbl = (pre ++ (k, v) :: (k', v') :: post)%list →
     Classifier.getEndTime tbl prayer = v')
  ∧ (∀ pre v, tbl = (pre ++ [(k, v)])%list →
     Classifier.getEndTime tbl prayer = str "23:59")
  ∧ (k ∉ Obj.keys tbl →
     Classifier.getEndTime tbl prayer
     = match tbl with
       | [] => str "23:59"
       | (_, v0) :: _ => v0
       end).
Proof.
  intros Hf Hnd k.
  assert (Hnf : String.eqb prayer "Fajr" = false) by by apply String.eqb_neq.
  unfold Classifier.getEndTime. fold k. rewrite Hnf.
  split; [|split].
  - intros pre v k' v' post ->. unfold Obj.keys in *.
    rewrite map_app in *. cbn [map fst] in *.
    apply NoDup_app in Hnd as (Hpre & Hdis & Hrest).
    assert (Hk : k ∉ map fst pre) by (intros Hin; apply (Hdis _ Hin); by left).
    assert (Hk' : k' ∉ map fst pre)
      by (intros Hin; apply (Hdis _ Hin); right; by left).
    apply NoDup_cons in Hrest as [Hkk' _].
    rewrite indexOf_first by done.
    rewrite length_app, length_map. cbn [length].
    rewrite (proj2 (Z.ltb_lt _ _)) by lia.
    replace (Z.to_nat (Z.of_nat (length pre) + 1)) with (length (map fst pre) + 1)%nat
      by (rewrite length_map; lia).
    rewrite lookup_app_r by lia.
    replace (length (map fst pre) + 1 - length (map fst pre))%nat with 1%nat by lia.
    cbn [lookup list_lookup].
    change (pre ++ (k, v) :: (k', v') :: post)%list
      with (pre ++ [(k, v)] ++ (k', v') :: post)%list.
    rewrite app_assoc. apply get_first.
    unfold Obj.keys. rewrite map_app. cbn [map fst].
    intros [Hin|Hin]%elem_of_app; [done|].
    apply list_elem_of_singleton in Hin. subst k'. apply Hkk'. by left.
  - intros pre v ->. unfold Obj.keys in *. rewrite map_app in *. cbn [map fst] in *.
    apply NoDup_app in Hnd as (_ & Hdis & _).
    assert (Hk : k ∉ map fst pre) by (intros Hin; apply (Hdis _ Hin); by left).
    rewrite indexOf_first by done. rewrite length_app, length_map. cbn [length].
    by rewrite (proj2 (Z.ltb_ge _ _)) by lia.
  - intros Hk. rewrite indexOf_absent by done.
    destruct tbl as [|[k0 v0] tbl]; [done|].
    cbn [Obj.keys map fst length lookup list_lookup].
    rewrite (proj2 (Z.ltb_lt _ _)) by lia.
    change (Z.to_nat (-1 + 1)) with 0%nat. cbn [lookup list_lookup Obj.get].
    by rewrite String.eqb_refl.
Qed.

(** A Friday table: Isha is followed by Jummah. *)
Lemma getEndTime_is_next_key_witness :
  Classifier.getEndTime (defaultTable 86400000) "Isha" = str "12:15".
Proof.
  assert (Hf : "Isha" ≠ "Fajr") by discriminate.
  assert (Hnd : NoDup (Obj.keys (defaultTable 86400000))).
  { refine (bool_decide_unpack (NoDup _) _). vm_compute. exact I. }
  destruct (getEndTime_is_next_key (defaultTable 86400000) "Isha" Hf Hnd) as (H & _ & _).
  apply (H [("Fajr", str "05:00"); ("Sunrise", str "06:15"); ("Dhuhr", str "12:15");
            ("Asr", str "15:45"); ("Maghrib", str "18:00")]
           (str "19:30") "Jummah" (str "12:15") []).
  reflexivity.
Defined.

(** ** What is shown *)

Lemma formatTime_wf t :
  is_hhmm t = true →
  Util.formatTime (str t)
  = Normal (twelveHourText (minutes_of t / 60) (minutes_of t mod 60)).
Proof.
  intros (h & m & Hh & Hm & -> & ->)%is_hhmm_inv.
  assert ((h * 60 + m) / 60 = h) as -> by (Z.div_mod_to_equations; lia).
  assert ((h * 60 + m) mod 60 = m) as -> by (Z.div_mod_to_equations; lia).
  by apply formatTime_hhmm.
Qed.

Lemma start_wf tbl friday q :
  wellFormedStarts tbl = true → q ∈ prayers friday →
  ∃ t, Obj.get tbl (lookupName q) = str t ∧ is_hhmm t = true
       ∧ entryMinutes tbl (lookupName q) = minutes_of t.
Proof.
  unfold wellFormedStarts. cbn [forallb]. rewrite !andb_true_iff.
  intros (HF & HD & HA & HM & HI & _) Hq.
  assert (Hk : lookupName q = "Fajr" ∨ lookupName q = "Dhuhr" ∨ lookupName q = "Asr"
               ∨ lookupName q = "Maghrib" ∨ lookupName q = "Isha").
  { destruct friday; cbn [prayers] in Hq;
      repeat (apply elem_of_cons in Hq as [-> | Hq]); try (by apply elem_of_nil in Hq);
      cbn; auto 6. }
  unfold entryMinutes.
  destruct Hk as [-> | [-> | [-> | [-> | ->]]]];
    match goal with
    | H : isWellFormed (Obj.get tbl ?k) = true |- context [Obj.get tbl ?k] =>
        destruct (Obj.get tbl k) as [|t]; [discriminate H|]; by exists t
    end.
Qed.

Lemma findNext_first tbl c pre p post :
  (∀ q, q ∈ pre → JS.lt (str c) (Obj.get tbl (lookupName q)) = false) →
  JS.lt (str c) (Obj.get tbl (lookupName p)) = true →
  View.findNext tbl c (pre ++ p :: post)%list = Some (p, Obj.get tbl (lookupName p)).
Proof.
  intros Hpre Hp. induction pre as [|q pre IH]; cbn [app View.findNext].
  - by rewrite Hp.
  - rewrite Hpre by left. apply IH. intros r Hr. apply Hpre. by right.
Qed.

Lemma findNext_none tbl c ps :
  (∀ q, q ∈ ps → JS.lt (str c) (Obj.get tbl (lookupName q)) = false) →
  View.findNext tbl c ps = None.
Proof.
  intros H. induction ps as [|q ps IH]; [done|]. cbn [View.findNext].
  rewrite H by left. apply IH. intros r Hr. apply H. by right.
Qed.

(** X10. [updateNextPrayer] on a table whose five starts are well-formed.
    When a prayer of today's list starts after the clock, the first such
    prayer of the list is announced, with the plain distance from the clock
    to its start (more than 0 minutes, less than 24 hours: nothing wraps) and
    its start in 12-hour text.  When none does, tomorrow's Fajr is
    announced. *)
Theorem updateNextPrayer_announces (now : Z) (tbl : Obj.t) :
  wellFormedStarts tbl = true →
  let c := minutes_of (currentTime now) in
  (∀ pre p post,
     prayers (isFriday now) = (pre ++ p :: post)%list →
     (∀ q, q ∈ pre → entryMinutes tbl (lookupName q) ≤ c) →
     c < entryMinutes tbl (lookupName p) →
     0 < entryMinutes tbl (lookupName p) - c < 1440
     ∧ View.updateNextPrayer now tbl
       = Normal ("Next: " ++ p ++ " in "
                 ++ durationText (entryMinutes tbl (lookupName p) - c)
                 ++ " at " ++ shownTime tbl (lookupName p)))
  ∧ ((∀ q, q ∈ prayers (isFriday now) → entryMinutes tbl (lookupName q) ≤ c) →
     View.updateNextPrayer now tbl
     = Normal ("Next: Fajr (Tomorrow) at " ++ shownTime tbl "Fajr")).
Proof.
  intros Hwf c. destruct (currentTime_wf now) as [Hc _].
  assert (Hlt : ∀ q, q ∈ prayers (isFriday now) →
            JS.lt (str (currentTime now)) (Obj.get tbl (lookupName q))
            = (c <? entryMinutes tbl (lookupName q))).
  { intros q Hq. destruct (start_wf tbl _ q Hwf Hq) as (t & -> & Ht & ->).
    cbn [JS.lt]. by rewrite ltb_hhmm. }
  split.
  - intros pre p post Hps Hpre Hp.
    assert (Hin : p ∈ prayers (isFriday now))
      by (rewrite Hps; apply elem_of_app; right; left).
    destruct (start_wf tbl _ p Hwf Hin) as (t & Hget & Ht & Hm).
    pose proof (minutes_of_range t Ht). pose proof (minutes_of_range _ Hc).
    fold c in H0. split; [lia|].
    unfold View.updateNextPrayer. rewrite Hps, findNext_first.
    + rewrite Hget. cbn [andThen].
      rewrite getTimeDifference_hhmm, formatTime_wf by done. cbn [andThen].
      unfold shownTime. rewrite Hm. fold c.
      rewrite (Z.mod_small (minutes_of t - c)) by lia. done.
    + intros q Hq. rewrite Hlt by (rewrite Hps; apply elem_of_app; by left).
      apply Z.ltb_ge. by apply Hpre.
    + rewrite Hlt by done. by apply Z.ltb_lt.
  - intros Hall. unfold View.updateNextPrayer. rewrite findNext_none.
    + assert (HF : "Fajr" ∈ prayers (isFriday now)) by (destruct (isFriday now); left).
      destruct (start_wf tbl _ "Fajr" Hwf HF) as (t & Hget & Ht & Hm).
      change (lookupName "Fajr") with "Fajr" in Hget, Hm.
      rewrite Hget, formatTime_wf by done. cbn [andThen].
      unfold shownTime. by rewrite Hm.
    + intros q Hq. rewrite Hlt by done. apply Z.ltb_ge. by apply Hall.
Qed.

(** Monday 1 January 2024 at 19:05: Isha, at 19:30, is next. *)
Lemma updateNextPrayer_announces_witness :
  View.updateNextPrayer 1704135900000 (defaultTable 1704135900000)
  = Normal "Next: Isha in 25m at 7:30 PM".
Proof.
  destruct (updateNextPrayer_announces 1704135900000 (defaultTable 1704135900000)
              eq_refl) as [H _].
  apply (H ["Fajr"; "Dhuhr"; "Asr"; "Maghrib"] "Isha" []).
  - reflexivity.
  - intros q Hq. repeat (apply elem_of_cons in Hq as [-> | Hq]);
      [vm_compute; discriminate ..|by apply elem_of_nil in Hq].
  - vm_compute. reflexivity.
Defined.

(** *** The classes of the cards *)

Lemma isTimeInRange_wf c s e :
  is_hhmm c = true → is_hhmm s = true → is_hhmm e = true →
  TimeMath.isTimeInRange (str c) (str s) (str e)
  = inClosed (minutes_of s) (minutes_of e) (minutes_of c).
Proof.
  intros Hc Hs He. unfold TimeMath.isTimeInRange, JS.ge, JS.le, inClosed.
  by rewrite !leb_hhmm.
Qed.

(** X11. On a Friday table with Dhuhr before Isha the card of Isha never
    carries a class, whatever the clock: its window runs from the start of
    Isha to the time of Dhuhr and holds no time. *)
Theorem isha_card_plain_on_friday (now : Z) (tm : timings) (c d i : string)
    (isForbidden : bool) :
  isFriday now = true →
  t_Dhuhr tm = str d → t_Isha tm = str i →
  is_hhmm d = true → is_hhmm i = true → is_hhmm c = true →
  minutes_of d < minutes_of i →
  View.statusOfCard (fetchedTable now tm) c isForbidden "Isha"
  = {| View.cardName := "Isha"; View.active := false; View.forbidden := false |}.
Proof.
  intros Hf Hd Hi Hwd Hwi Hwc Hlt. unfold View.statusOfCard.
  destruct (getEndTime_friday now tm Hf) as (_ & _ & _ & _ & _ & ->).
  assert (Obj.get (fetchedTable now tm) (lookupName "Isha") = t_Isha tm) as ->
    by (unfold fetchedTable; by rewrite Hf).
  rewrite Hd, Hi, isTimeInRange_wf by done. unfold inClosed.
  assert ((minutes_of i <=? minutes_of c) && (minutes_of c <=? minutes_of d) = false)
    as ->; [|by rewrite andb_false_r].
  destruct (Z.leb_spec (minutes_of i) (minutes_of c)); [|done].
  apply Z.leb_gt. lia.
Qed.

Lemma isha_card_plain_on_friday_witness :
  View.statusOfCard (defaultTable 86400000) "20:00" false "Isha"
  = {| View.cardName := "Isha"; View.active := false; View.forbidden := false |}.
Proof.
  apply (isha_card_plain_on_friday 86400000 defaultTimings "20:00" "12:15" "19:30");
    try reflexivity.
Defined.

Lemma highlighted_cons tbl c isForbidden prayer cards :
  highlighted (View.statusOfCard tbl c isForbidden prayer :: cards)
  = if TimeMath.isTimeInRange (str c) (Obj.get tbl (lookupName prayer))
         (Classifier.getEndTime tbl prayer)
    then prayer :: highlighted cards else highlighted cards.
Proof.
  unfold highlighted. cbn [List.filter View.statusOfCard View.active View.forbidden].
  destruct (TimeMath.isTimeInRange _ _ _), isForbidden; reflexivity.
Qed.

(** X12. On a weekday table whose timings are in the order of the day, at
    most two cards carry a class at any clock, and two only at the minute
    where one prayer ends and the next starts: at the start of Asr the cards
    of Dhuhr and Asr both carry it. *)
Theorem cards_highlighted_at_most_two (now : Z) (tm : timings) (c : string)
    (isForbidden : bool) :
  isFriday now = false → inDayOrder tm = true → is_hhmm c = true →
  let tbl := fetchedTable now tm in
  let shown := highlighted (map (View.statusOfCard tbl c isForbidden) (prayers false)) in
  (length shown ≤ 2)%nat
  ∧ (minutes_of c ≠ entryMinutes tbl "Asr" →
     minutes_of c ≠ entryMinutes tbl "Maghrib" →
     minutes_of c ≠ entryMinutes tbl "Isha" → (length shown ≤ 1)%nat)
  ∧ (minutes_of c = entryMinutes tbl "Asr" → shown = ["Dhuhr"; "Asr"]).
Proof.
  intros Hf Hord Hc tbl shown. subst shown.
  destruct (getEndTime_weekday now tm Hf) as (EF & ED & _ & EA & EM & EI).
  fold tbl in EF, ED, EA, EM, EI.
  assert (SF : Obj.get tbl (lookupName "Fajr") = t_Fajr tm)
    by (subst tbl; unfold fetchedTable; by rewrite Hf).
  assert (SD : Obj.get tbl (lookupName "Dhuhr") = t_Dhuhr tm)
    by (subst tbl; unfold fetchedTable; by rewrite Hf).
  assert (SA : Obj.get tbl (lookupName "Asr") = t_Asr tm)
    by (subst tbl; unfold fetchedTable; by rewrite Hf).
  assert (SM : Obj.get tbl (lookupName "Maghrib") = t_Maghrib tm)
    by (subst tbl; unfold fetchedTable; by rewrite Hf).
  assert (SI : Obj.get tbl (lookupName "Isha") = t_Isha tm)
    by (subst tbl; unfold fetchedTable; by rewrite Hf).
  cbn [prayers map].
  rewrite !highlighted_cons, EF, ED, EA, EM, EI, SF, SD, SA, SM, SI.
  change (highlighted []) with (@nil string).
  unfold entryMinutes.
  change (Obj.get tbl "Asr") with (Obj.get tbl (lookupName "Asr")).
  change (Obj.get tbl "Maghrib") with (Obj.get tbl (lookupName "Maghrib")).
  change (Obj.get tbl "Isha") with (Obj.get tbl (lookupName "Isha")).
  rewrite SA, SM, SI. clearbody tbl. clear EF ED EA EM EI SF SD SA SM SI.
  unfold inDayOrder in Hord.
  destruct tm as [[|f] [|s] [|d] [|a] [|m] [|i]]; try discriminate Hord.
  cbn [t_Fajr t_Sunrise t_Dhuhr t_Asr t_Maghrib t_Isha] in *.
  rewrite !andb_true_iff in Hord.
  destruct Hord as ((((((((((Wf & Ws) & Wd) & Wa) & Wm) & Wi) & O1) & O2) & O3) & O4) & O5).
  apply Z.leb_le in O1. apply Z.ltb_lt in O2, O3, O4, O5.
  rewrite !isTimeInRange_wf by done. unfold inClosed.
  change (minutes_of "23:59") with 1439.
  pose proof (minutes_of_range c Hc). pose proof (minutes_of_range i Wi).
  repeat match goal with
         | |- context [?x <=? ?y] =>
             destruct (Z.leb_spec x y); try (exfalso; lia)
         end;
    cbn [andb length]; repeat split; intros; try reflexivity; try lia.
Qed.

(** The default table at 15:45, the start of Asr. *)
Lemma cards_highlighted_at_most_two_witness :
  highlighted (map (View.statusOfCard (defaultTable 0) "15:45" false) (prayers false))
  = ["Dhuhr"; "Asr"].
Proof.
  destruct (cards_highlighted_at_most_two 0 defaultTimings "15:45" false
              eq_refl eq_refl eq_refl) as (_ & _ & H).
  apply H. reflexivity.
Defined.

(** *** The cards of [displayPrayerTimes] *)

Lemma table_starts now tm :
  let tbl := fetchedTable now tm in
  Obj.get tbl "Fajr" = t_Fajr tm ∧ Obj.get tbl "Dhuhr" = t_Dhuhr tm
  ∧ Obj.get tbl "Asr" = t_Asr tm ∧ Obj.get tbl "Maghrib" = t_Maghrib tm
  ∧ Obj.get tbl "Isha" = t_Isha tm
  ∧ (isFriday now = true → Obj.get tbl "Jummah" = t_Dhuhr tm).
Proof.
  unfold fetchedTable. destruct (isFriday now); repeat split; intros; done.
Qed.

(** X13. [displayPrayerTimes] on the table of a response whose timings are
    well-formed or missing: it raises a [TypeError] exactly when one of the
    six timings is missing, and otherwise returns the five cards of the
    day. *)
Theorem displayPrayerTimes_needs_all_timings (now : Z) (tm : timings) (g : globals) :
  wellFormedOrMissing tm = true →
  let shown := View.displayPrayerTimes now (withTable (fetchedTable now tm) g) in
  (shown = TypeError ↔ complete tm = false)
  ∧ (complete tm = true → ∃ cards, shown = Normal cards ∧ length cards = 5%nat).
Proof.
  intros Hwf shown. subst shown. unfold View.displayPrayerTimes.
  destruct (table_starts now tm) as (SF & SD & SA & SM & SI & SJ).
  unfold wellFormedOrMissing in Hwf. cbn [forallb] in Hwf.
  rewrite !andb_true_iff in Hwf.
  destruct Hwf as (WF & WS & WD & WA & WM & WI & _).
  unfold complete.
  destruct (isFriday now) eqn:Hf.
  - destruct (getEndTime_friday now tm Hf) as (EF & _ & EJ & EA & EM & EI).
    specialize (SJ eq_refl).
    cbn [prayers View.displayCards]. unfold View.displayCard.
    cbn [prayerTimes withTable].
    rewrite SF, SJ, SA, SM, SI, EF, EJ, EA, EM, EI.
    destruct (t_Fajr tm) as [|f], (t_Sunrise tm) as [|s], (t_Dhuhr tm) as [|d],
             (t_Asr tm) as [|a], (t_Maghrib tm) as [|m], (t_Isha tm) as [|i];
      rewrite ?formatTime_wf by done; cbn [andThen Util.formatTime isString andb];
      (split; [split; [try done; discriminate | try done; discriminate]
              | intros; try discriminate; eexists; split; reflexivity]).
  - destruct (getEndTime_weekday now tm Hf) as (EF & ED & _ & EA & EM & EI).
    cbn [prayers View.displayCards]. unfold View.displayCard.
    cbn [prayerTimes withTable].
    rewrite SF, SD, SA, SM, SI, EF, ED, EA, EM, EI.
    change (Util.formatTime (str "23:59")) with (Normal "11:59 PM").
    destruct (t_Fajr tm) as [|f], (t_Sunrise tm) as [|s], (t_Dhuhr tm) as [|d],
             (t_Asr tm) as [|a], (t_Maghrib tm) as [|m], (t_Isha tm) as [|i];
      rewrite ?formatTime_wf by done; cbn [andThen Util.formatTime isString andb];
      (split; [split; [try done; discriminate | try done; discriminate]
              | intros; try discriminate; eexists; split; reflexivity]).
Qed.

(** A response without the timing of Asr. *)
Lemma displayPrayerTimes_needs_all_timings_witness :
  let tm := {| t_Fajr := str "05:00"; t_Sunrise := str "06:15"; t_Dhuhr := str "12:15";
               t_Asr := undefined; t_Maghrib := str "18:00"; t_Isha := str "19:30" |} in
  View.displayPrayerTimes 0 (withTable (fetchedTable 0 tm) initial) = TypeError.
Proof.
  intros tm.
  destruct (displayPrayerTimes_needs_all_timings 0 tm initial eq_refl) as [[_ H] _].
  apply H. reflexivity.
Defined.
(** ** The summary of the missed prayers *)

Section days.
Context {A : Type}.
Implicit Types (m : gmap string (gmap string A)) (p d : string).

Lemma elem_of_daysOf m p d : d ∈ daysOf m p ↔ is_Some (entry m d p).
Proof.
  unfold daysOf, entry. rewrite elem_of_dom. split.
  - intros [b Hb]. apply map_lookup_filter_Some in Hb as [-> Hp]. done.
  - destruct (m !! d) as [b|] eqn:E; cbn [mbind option_bind]; [|by intros [? ?]].
    intros Hp. exists b. by apply map_lookup_filter_Some.
Qed.

Lemma daysOf_insert m p d b :
  m !! d = None →
  daysOf (<[d:=b]> m) p
  = if decide (is_Some (b !! p)) then {[d]} ∪ daysOf m p else daysOf m p.
Proof.
  intros Hd. apply set_eq. intros d'.
  case_decide as Hp; rewrite ?elem_of_union, ?elem_of_singleton, !elem_of_daysOf;
    unfold entry; destruct (decide (d' = d)) as [->|Hne];
    rewrite ?lookup_insert_eq, ?lookup_insert_ne, ?Hd by done;
    cbn [mbind option_bind]; intuition (try done).
Qed.

End days.

Lemma count_bucket (bucket : gmap string missedEntry) (acc : gmap string Z * Z) :
  let r := map_fold (fun prayer _ acc' => View.countOne prayer acc') acc bucket in
  (∀ p, r.1 !! p = if decide (is_Some (bucket !! p))
                   then Some (default 0 (acc.1 !! p) + 1) else acc.1 !! p)
  ∧ r.2 = acc.2 + Z.of_nat (size bucket).
Proof.
  cbn zeta.
  pose (P := fun (r : gmap string Z * Z) (b : gmap string missedEntry) =>
       (∀ p, r.1 !! p = if decide (is_Some (b !! p))
                        then Some (default 0 (acc.1 !! p) + 1) else acc.1 !! p)
       ∧ r.2 = acc.2 + Z.of_nat (size b)).
  apply (map_fold_weak_ind P); subst P; cbn beta.
  - split; [|by rewrite map_size_empty, Z.add_0_r].
    intros p. rewrite lookup_empty. by rewrite decide_False by (by intros [? ?]).
  - intros i x b r Hi [Hc Ht]. unfold View.countOne. cbn [fst snd]. split.
    + intros p. destruct (decide (p = i)) as [->|Hne].
      * rewrite !lookup_insert_eq. rewrite decide_True by by eexists.
        rewrite Hc, Hi. by rewrite decide_False by (by intros [? ?]).
      * rewrite !lookup_insert_ne by done. apply Hc.
    + rewrite map_size_insert_None by done. lia.
Qed.

(** The counts and the total after all the days of a record. *)
Lemma count_days (m : gmap string (gmap string missedEntry)) :
  let r := map_fold (fun _ bucket acc =>
                       map_fold (fun prayer _ acc' => View.countOne prayer acc') acc bucket)
                    (∅, 0) m in
  (∀ p, r.1 !! p = if decide (daysOf m p = ∅) then None
                   else Some (Z.of_nat (size (daysOf m p))))
  ∧ 0 ≤ r.2
  ∧ (r.2 = 0 ↔ ∀ d q, entry m d q = None).
Proof.
  cbn zeta.
  pose (P := fun (r : gmap string Z * Z) (m : gmap string (gmap string missedEntry)) =>
       (∀ p, r.1 !! p = if decide (daysOf m p = ∅) then None
                        else Some (Z.of_nat (size (daysOf m p))))
       ∧ 0 ≤ r.2
       ∧ (r.2 = 0 ↔ ∀ d q, entry m d q = None)).
  apply (map_fold_weak_ind P); subst P; cbn beta.
  - cbn [fst snd]. split; [|split; [done|]].
    + intros p. rewrite lookup_empty. rewrite decide_True; [done|].
      apply set_eq. intros d. rewrite elem_of_daysOf. unfold entry.
      rewrite lookup_empty. cbn [mbind option_bind]. rewrite elem_of_empty.
      split; [by intros [? ?]|done].
    + split; [|done]. intros _ d q. unfold entry. by rewrite lookup_empty.
  - clear m. intros d b m r Hd (Hc & Hpos & Hzero).
    destruct (count_bucket b r) as [Hb Hbt]. cbn zeta in Hb, Hbt.
    split; [|split].
    + intros p. rewrite Hb, Hc, daysOf_insert by done.
      assert (Hnotin : d ∉ daysOf m p).
      { rewrite elem_of_daysOf. unfold entry. rewrite Hd. by intros [? ?]. }
      destruct (decide (is_Some (b !! p))) as [Hp|Hp]; [|done].
      assert (Hne' : {[d]} ∪ daysOf m p ≠ ∅).
      { apply (non_empty_inhabited_L d), elem_of_union. left.
        by apply elem_of_singleton. }
      rewrite (decide_False (P := {[d]} ∪ daysOf m p = ∅)) by done.
      assert (Hsz : size ({[d]} ∪ daysOf m p) = S (size (daysOf m p))).
      { rewrite size_union by (by apply disjoint_singleton_l).
        by rewrite size_singleton. }
      rewrite Hsz.
      f_equal. destruct (decide (daysOf m p = ∅)) as [->|Hne]; cbn [default].
      * by rewrite size_empty.
      * unfold id. lia.
    + rewrite Hbt. lia.
    + rewrite Hbt. split.
      * intros H0 d' q. assert (r.2 = 0) as Hr by lia.
        assert (size b = 0%nat) as Hs by lia. apply map_size_empty_iff in Hs.
        unfold entry. destruct (decide (d' = d)) as [->|Hne].
        -- rewrite lookup_insert_eq. cbn [mbind option_bind]. by rewrite Hs.
        -- rewrite lookup_insert_ne by done. by apply Hzero.
      * intros Hall.
        assert (b = ∅) as ->.
        { apply map_empty. intros q. specialize (Hall d q). unfold entry in Hall.
          by rewrite lookup_insert_eq in Hall. }
        rewrite map_size_empty.
        assert (r.2 = 0); [|lia]. apply Hzero. intros d' q.
        specialize (Hall d' q). unfold entry in *.
        destruct (decide (d' = d)) as [->|Hne]; [by rewrite Hd|].
        by rewrite lookup_insert_ne in Hall.
Qed.

(** X14. The summary of [displayMissedPrayers]: the number shown for a
    prayer is the number of days of the record on which the prayer has a
    missed entry, a prayer with no such day is not listed, and the total is
    0 (the section is hidden) exactly when the record holds no entry at
    all. *)
Theorem displayMissedPrayers_counts_days (g : globals) (prayer : string) :
  let counts := (View.displayMissedPrayers g).1 in
  let totalMissed := (View.displayMissedPrayers g).2 in
  (∀ day, day ∈ daysMissed g prayer ↔ is_Some (entry (missedPrayers g) day prayer))
  ∧ counts !! prayer
    = (if decide (daysMissed g prayer = ∅) then None
       else Some (Z.of_nat (size (daysMissed g prayer))))
  ∧ (totalMissed = 0 ↔ ∀ day q, entry (missedPrayers g) day q = None).
Proof.
  intros counts totalMissed. subst counts totalMissed.
  destruct (count_days (missedPrayers g)) as (Hc & _ & Hz).
  split; [intros day; apply elem_of_daysOf|].
  split; [apply Hc | apply Hz].
Qed.

(** ** The key of the day *)

Lemma getTodayKey_day t1 t2 :
  Date.Day t1 = Date.Day t2 → getTodayKey t1 = getTodayKey t2.
Proof.
  intros H. unfold getTodayKey, Date.getDate, Date.getMonth, Date.getFullYear.
  by rewrite H.
Qed.

(** X15. The key of the day is read back by the sweep as the midnight that
    starts the day of the clock, never after the clock, and two clocks have
    the same key exactly when they are on the same day. *)
Theorem getTodayKey_names_the_day (t1 t2 : Z) :
  0 ≤ t1 ≤ 8640000000000000 → 0 ≤ t2 ≤ 8640000000000000 →
  (∃ midnight, Retention.dateOfKey (getTodayKey t1) = Some (At midnight)
               ∧ midnight = Date.Day t1 * Date.msPerDay
               ∧ midnight ≤ t1 < midnight + Date.msPerDay)
  ∧ (getTodayKey t1 = getTodayKey t2 ↔ Date.Day t1 = Date.Day t2).
Proof.
  intros H1 H2. split.
  - exists (Date.Day t1 * Date.msPerDay). split; [by apply dateOfKey_getTodayKey|].
    split; [done|]. unfold Date.Day, Date.msPerDay. Z.div_mod_to_equations; lia.
  - split; [|apply getTodayKey_day]. intros Heq.
    pose proof (dateOfKey_getTodayKey t1 H1) as E1.
    pose proof (dateOfKey_getTodayKey t2 H2) as E2.
    rewrite Heq, E2 in E1. injection E1 as E1. unfold Date.msPerDay in E1. lia.
Qed.

Lemma getTodayKey_names_the_day_witness :
  getTodayKey 1704139500000 = getTodayKey 1704067200000
  ∧ getTodayKey 1704139500000 ≠ getTodayKey 1704067199999.
Proof.
  destruct (getTodayKey_names_the_day 1704139500000 1704067200000) as [_ Ha];
    [vm_compute; split; discriminate | vm_compute; split; discriminate |].
  destruct (getTodayKey_names_the_day 1704139500000 1704067199999) as [_ Hb];
    [vm_compute; split; discriminate | vm_compute; split; discriminate |].
  split.
  - apply Ha. vm_compute. reflexivity.
  - intros He. apply Hb in He. vm_compute in He. discriminate.
Defined.

(** ** The sweep at the thirtieth day *)

Lemma older_own_key now past :
  0 ≤ past → past ≤ now ≤ 8640000000000000 →
  older (Retention.thirtyDaysAgo now) (getTodayKey past)
  = ((Date.Day past + 30) * Date.msPerDay <? now).
Proof.
  intros Hp Hn. unfold older. rewrite dateOfKey_getTodayKey by lia.
  rewrite thirtyDaysAgo_shift. unfold Date.TimeClip, Date.msPerDay.
  destruct (Z.leb_spec (Z.abs (now - 30 * 86400000)) 8640000000000000); [|lia].
  cbn [Date.lt].
  destruct (Z.ltb_spec (Date.Day past * 86400000) (now - 30 * 86400000));
    destruct (Z.ltb_spec ((Date.Day past + 30) * 86400000) now); try done; lia.
Qed.

(** X16. The sweep and the keys the script writes.  The bucket of a day less
    than 30 days before the day of the clock, the bucket of today among
    them, is kept as it is; the bucket of a day more than 30 days before is
    deleted; the bucket of the day exactly 30 days before is deleted as
    well, unless the clock is exactly at midnight: the cutoff keeps the time
    of day of the clock, and the key stands for the midnight of its day. *)
Theorem cleanOldData_thirtieth_day (now past : Z) (g : globals) :
  0 ≤ past → past ≤ now ≤ 8640000000000000 →
  keysModelled g = true →
  let key := getTodayKey past in
  let age := Date.Day now - Date.Day past in
  ∃ g', Retention.cleanOldData now g = Normal g'
        ∧ (age < 30 →
             missedPrayers g' !! key = missedPrayers g !! key
             ∧ completedPrayers g' !! key = completedPrayers g !! key)
        ∧ (age = 30 → Date.TimeWithinDay now = 0 →
             missedPrayers g' !! key = missedPrayers g !! key
             ∧ completedPrayers g' !! key = completedPrayers g !! key)
        ∧ (age = 30 → Date.TimeWithinDay now ≠ 0 →
             missedPrayers g' !! key = None ∧ completedPrayers g' !! key = None)
        ∧ (30 < age →
             missedPrayers g' !! key = None ∧ completedPrayers g' !! key = None).
Proof.
  intros Hp Hn Hk key age.
  destruct (cleanOldData_total now g Hk) as [g' Hg']. exists g'.
  split; [exact Hg'|].
  destruct (cleanOldData_lookup now g g' Hg') as [_ Hl].
  destruct (Hl key) as [Hm Hc]. subst key.
  rewrite older_own_key in Hm, Hc by done.
  assert (Hnow : now = Date.Day now * Date.msPerDay + Date.TimeWithinDay now
                 ∧ 0 ≤ Date.TimeWithinDay now < Date.msPerDay).
  { unfold Date.Day, Date.TimeWithinDay, Date.msPerDay.
    Z.div_mod_to_equations; lia. }
  destruct Hnow as [Hnow Hrange]. unfold Date.msPerDay in *. subst age.
  destruct (Z.ltb_spec ((Date.Day past + 30) * 86400000) now) as [Hlt|Hge];
    (split; [|split; [|split]]); intros; try (exfalso; lia); done.
Qed.

Lemma cleanOldData_thirtieth_day_witness :
  let now := 1706781600000 in
  let past := 1704189600000 in
  let g := {| prayerTimes := defaultTable now;
              missedPrayers :=
                {[ "2-1-2024" := {[ "Fajr" := {| date := "2-1-2024"; time := str "05:00" |} ]} ]};
              completedPrayers := {[ "2-1-2024" := {[ "Asr" := true ]} ]} |} in
  getTodayKey past = "2-1-2024" ∧ getTodayKey now = "1-2-2024"
  ∧ ∃ g', Retention.cleanOldData now g = Normal g'
          ∧ missedPrayers g' !! "2-1-2024" = None
          ∧ completedPrayers g' !! "2-1-2024" = None.
Proof.
  cbn zeta. split; [vm_compute; reflexivity|]. split; [vm_compute; reflexivity|].
  set (g := {| prayerTimes := _; missedPrayers := _; completedPrayers := _ |}).
  destruct (cleanOldData_thirtieth_day 1706781600000 1704189600000 g)
    as (g' & Hg' & _ & _ & H30 & _).
  - vm_compute. discriminate.
  - vm_compute. split; discriminate.
  - vm_compute. reflexivity.
  - exists g'. split; [exact Hg'|]. apply H30.
    + vm_compute. reflexivity.
    + vm_compute. discriminate.
Defined.

(** ** The sweep run twice *)

Section sweep_again.
Context {A : Type} (cutoff : timeValue).
Implicit Types (o acc : gmap string A) (ks : list string).

Lemma sweep_loop_modelled ks : ∀ acc o',
  foldl (Retention.sweepKey cutoff) (Some acc) ks = Some o' →
  forallb modelledKey ks = true.
Proof.
  induction ks as [|k0 ks IH]; intros acc o'; cbn [foldl forallb]; [done|].
  unfold Retention.sweepKey at 2, modelledKey at 1. cbn [mbind option_bind].
  destruct (Retention.dateOfKey k0); cbn [mbind option_bind];
    [|by rewrite sweep_from_None].
  intros H. cbn [andb]. by apply (IH _ _ H).
Qed.

Lemma sweep_idempotent o o' :
  Retention.sweep cutoff o = Some o' →
  Retention.sweep cutoff o' = Some o' ∧ o' ⊆ o.
Proof.
  intros H.
  assert (Hsub : o' ⊆ o).
  { apply map_subseteq_spec. intros k v Hk.
    rewrite (sweep_lookup cutoff o o' k H) in Hk. by destruct (older cutoff k). }
  split; [|done].
  assert (Hmod : forallb modelledKey (map_to_list o').*1 = true).
  { apply forallb_forall. intros k Hk%list_elem_of_In.
    apply list_elem_of_fmap in Hk as ([k' v] & -> & Hkv%elem_of_map_to_list).
    cbn [fst]. pose proof (sweep_loop_modelled _ _ _ H) as Hall.
    rewrite forallb_forall in Hall. apply Hall, list_elem_of_In, list_elem_of_fmap.
    exists (k', v). split; [done|]. apply elem_of_map_to_list.
    by apply (lookup_weaken _ _ _ _ Hkv). }
  destruct (sweep_loop_total cutoff _ o' Hmod) as [o'' Ho''].
  change (Retention.sweep cutoff o' = Some o'') in Ho''. rewrite Ho''. f_equal.
  apply map_eq. intros k. rewrite (sweep_lookup cutoff o' o'' k Ho'').
  rewrite (sweep_lookup cutoff o o' k H). by destruct (older cutoff k).
Qed.

End sweep_again.

(** X17. The sweep only deletes whole buckets, and a second sweep at the
    same clock changes nothing. *)
Theorem cleanOldData_idempotent (now : Z) (g g' : globals) :
  Retention.cleanOldData now g = Normal g' →
  Retention.cleanOldData now g' = Normal g'
  ∧ prayerTimes g' = prayerTimes g
  ∧ missedPrayers g' ⊆ missedPrayers g
  ∧ completedPrayers g' ⊆ completedPrayers g.
Proof.
  unfold Retention.cleanOldData.
  destruct (Retention.sweep _ (missedPrayers g)) as [m|] eqn:Em; [|done].
  destruct (Retention.sweep _ (completedPrayers g)) as [c|] eqn:Ec; [|done].
  intros [= <-]. cbn [prayerTimes missedPrayers completedPrayers].
  destruct (sweep_idempotent _ _ _ Em) as [-> Hm].
  destruct (sweep_idempotent _ _ _ Ec) as [-> Hc]. done.
Qed.

Lemma cleanOldData_idempotent_witness :
  let now := 1706781600000 in
  let bucket day := {[ "Fajr" := {| date := day; time := str "05:00" |} ]} in
  let g := {| prayerTimes := defaultTable now;
              missedPrayers := {[ "1-1-2024" := bucket "1-1-2024";
                                  "3-1-2024" := bucket "3-1-2024" ]};
              completedPrayers := {[ "1-1-2024" := {[ "Asr" := true ]} ]} |} in
  let g' := {| prayerTimes := defaultTable now;
               missedPrayers := {[ "3-1-2024" := bucket "3-1-2024" ]};
               completedPrayers := ∅ |} in
  Retention.cleanOldData now g = Normal g'
  ∧ Retention.cleanOldData now g' = Normal g'.
Proof.
  cbn zeta.
  match goal with |- ?a = ?b ∧ _ => assert (H : a = b) by (vm_compute; reflexivity) end.
  split; [exact H|].
  exact (proj1 (cleanOldData_idempotent _ _ _ H)).
Defined.

(** ** No day is left with an empty bucket *)

Section buckets.
Context {A : Type}.
Implicit Types (o : gmap string (gmap string A)) (d p : string).

Lemma putEntry_ensureDay o d p v :
  Tracker.putEntry (Tracker.ensureDay o d) d p v = Tracker.putEntry o d p v.
Proof.
  unfold Tracker.putEntry, Tracker.ensureDay.
  destruct (o !! d) as [b|] eqn:E; [by rewrite E|].
  rewrite lookup_insert_eq. cbn [default]. by rewrite insert_insert_eq.
Qed.

Lemma removeEntry_ensureDay o d p :
  Tracker.removeEntry (Tracker.ensureDay o d) d p = Tracker.removeEntry o d p.
Proof.
  unfold Tracker.removeEntry, Tracker.ensureDay.
  destruct (o !! d) as [b|] eqn:E; [by rewrite E|].
  rewrite lookup_insert_eq, delete_empty, map_size_empty.
  rewrite decide_True by done. by rewrite delete_insert_id.
Qed.

Lemma putEntry_noEmpty o d p v :
  (∀ day, o !! day ≠ Some ∅) → ∀ day, Tracker.putEntry o d p v !! day ≠ Some ∅.
Proof.
  intros H day. unfold Tracker.putEntry.
  destruct (decide (day = d)) as [->|Hne].
  - rewrite lookup_insert_eq. intros [= He]. by apply insert_non_empty in He.
  - rewrite lookup_insert_ne by done. apply H.
Qed.

Lemma removeEntry_noEmpty o d p :
  (∀ day, o !! day ≠ Some ∅) → ∀ day, Tracker.removeEntry o d p !! day ≠ Some ∅.
Proof.
  intros H day. unfold Tracker.removeEntry.
  destruct (o !! d) as [b|] eqn:E; [|apply H].
  case_decide as Hs.
  - destruct (decide (day = d)) as [->|Hne].
    + by rewrite lookup_delete_eq.
    + rewrite lookup_delete_ne by done. apply H.
  - destruct (decide (day = d)) as [->|Hne].
    + rewrite lookup_insert_eq. intros [= He]. rewrite He, map_size_empty in Hs. done.
    + rewrite lookup_insert_ne by done. apply H.
Qed.

End buckets.

Lemma noEmpty_initial : noEmptyBucket initial.
Proof. intros day. split; cbn; by rewrite lookup_empty. Qed.

Lemma noEmpty_withTable tbl g : noEmptyBucket g → noEmptyBucket (withTable tbl g).
Proof. intros H day. apply H. Qed.

Lemma noEmpty_toggle now p checked g :
  noEmptyBucket g → noEmptyBucket (Tracker.togglePrayer now p checked g).
Proof.
  intros H day. unfold Tracker.togglePrayer.
  destruct checked; cbn [missedPrayers completedPrayers].
  - rewrite putEntry_ensureDay. split.
    + destruct (isMissed _ _ _); [|apply H].
      apply removeEntry_noEmpty. intros d. apply H.
    + apply putEntry_noEmpty. intros d. apply H.
  - rewrite removeEntry_ensureDay. split.
    + destruct (JS.gt _ _); [|apply H].
      apply putEntry_noEmpty. intros d. apply H.
    + apply removeEntry_noEmpty. intros d. apply H.
Qed.

Lemma noEmpty_checkOne now g p :
  noEmptyBucket g → noEmptyBucket (Tracker.checkOne now g p).
Proof.
  intros H. destruct (isMissed g (getTodayKey now) p) eqn:Hm.
  - by rewrite checkOne_already_missed.
  - unfold Tracker.checkOne. rewrite Hm.
    destruct (JS.gt _ _); [|done]. destruct (negb _); [|done].
    intros day. cbn [missedPrayers completedPrayers]. rewrite putEntry_ensureDay.
    split; [|apply H]. apply putEntry_noEmpty. intros d. apply H.
Qed.

Lemma noEmpty_check now g :
  noEmptyBucket g → noEmptyBucket (Tracker.checkForMissedPrayers now g).
Proof.
  unfold Tracker.checkForMissedPrayers. generalize (prayers (isFriday now)).
  intros l. revert g. induction l as [|p l IH]; intros g H; [done|].
  cbn [foldl]. by apply IH, noEmpty_checkOne.
Qed.

Lemma noEmpty_clean now g g' :
  Retention.cleanOldData now g = Normal g' → noEmptyBucket g → noEmptyBucket g'.
Proof.
  intros [_ Hl]%cleanOldData_lookup H day. destruct (Hl day) as [-> ->].
  destruct (older _ day); [done|apply H].
Qed.

Lemma noEmpty_fetch now r g :
  noEmptyBucket g → noEmptyBucket (fetchPrayerTimes now r g).
Proof.
  intros H. destruct r as [tm| |]; cbn [fetchPrayerTimes]; [|done|].
  - destruct (complete tm).
    + by apply noEmpty_check, noEmpty_withTable.
    + by apply noEmpty_withTable.
  - by apply noEmpty_withTable.
Qed.

Lemma noEmpty_step g g' : step g g' → noEmptyBucket g → noEmptyBucket g'.
Proof.
  intros Hs Hx. destruct Hs.
  - by apply noEmpty_fetch.
  - by apply noEmpty_toggle.
  - by apply noEmpty_check.
  - by eapply noEmpty_clean.
Qed.

Lemma reachable_noEmpty g : reachable g → noEmptyBucket g.
Proof.
  unfold reachable. intros H.
  apply (rtc_ind_r (R := step) (fun g => noEmptyBucket g) initial);
    [apply noEmpty_initial | | exact H].
  intros y z _ Hs IH. by eapply noEmpty_step.
Qed.

Lemma bucket_has_entry {A} (o : gmap string (gmap string A)) day :
  o !! day ≠ Some ∅ →
  is_Some (o !! day) ↔ ∃ prayer, is_Some (entry o day prayer).
Proof.
  intros H. unfold entry. split.
  - intros [b Hb]. rewrite Hb. cbn [mbind option_bind].
    destruct (decide (b = ∅)) as [->|Hne]; [done|].
    apply map_choose in Hne as (p & v & Hp). exists p. by rewrite Hp.
  - intros [p [v Hv]]. destruct (o !! day); [done|discriminate].
Qed.

(** X18. In every state the tracker can reach, the days of the two records
    are exactly the days that hold an entry: the toggle and the sweep never
    leave an empty bucket behind.  Hence the summary of the missed prayers is
    hidden exactly when the record of the missed prayers has no day. *)
Theorem records_hold_no_empty_day (g : globals) :
  reachable g →
  (∀ day, is_Some (missedPrayers g !! day)
          ↔ ∃ prayer, is_Some (entry (missedPrayers g) day prayer))
  ∧ (∀ day, is_Some (completedPrayers g !! day)
            ↔ ∃ prayer, is_Some (entry (completedPrayers g) day prayer))
  ∧ ((View.displayMissedPrayers g).2 = 0 ↔ missedPrayers g = ∅).
Proof.
  intros Hr%reachable_noEmpty. split; [|split].
  - intros day. apply bucket_has_entry, Hr.
  - intros day. apply bucket_has_entry, Hr.
  - destruct (count_days (missedPrayers g)) as (_ & _ & Hz).
    unfold View.displayMissedPrayers. rewrite Hz. split.
    + intros Hall. apply map_empty. intros day.
      destruct (missedPrayers g !! day) as [b|] eqn:E; [|done].
      assert (is_Some (missedPrayers g !! day)) as Hs by by eexists.
      apply (bucket_has_entry _ _ (proj1 (Hr day))) in Hs as [p [v Hp]].
      by rewrite Hall in Hp.
    + intros -> day q. unfold entry. by rewrite lookup_empty.
Qed.

Lemma records_hold_no_empty_day_witness :
  let now := 1704092400000 in
  let g1 := Tracker.checkForMissedPrayers now (fetchPrayerTimes now Failed initial) in
  let g := Tracker.togglePrayer now "Fajr" true g1 in
  currentTime now = "07:00"
  ∧ missedPrayers g1 !! "1-1-2024" ≠ None
  ∧ missedPrayers g = ∅ ∧ (View.displayMissedPrayers g).2 = 0.
Proof.
  cbn zeta. split; [vm_compute; reflexivity|]. split; [vm_compute; discriminate|].
  assert (Hg : missedPrayers
                 (Tracker.togglePrayer 1704092400000 "Fajr" true
                    (Tracker.checkForMissedPrayers 1704092400000
                       (fetchPrayerTimes 1704092400000 Failed initial))) = ∅)
    by (vm_compute; reflexivity).
  split; [exact Hg|].
  apply records_hold_no_empty_day; [|exact Hg].
  eapply rtc_r; [eapply rtc_r; [eapply rtc_once|]|].
  - apply (step_fetch 1704092400000 Failed).
  - apply step_tick.
  - apply step_toggle.
Defined.

(** ** Ticking and unticking *)

Section round_trip.
Context {A : Type}.
Implicit Types (o : gmap string (gmap string A)) (d p : string).

Lemma removeEntry_putEntry o d p v :
  o !! d ≠ Some ∅ → entry o d p = None →
  Tracker.removeEntry (Tracker.putEntry o d p v) d p = o.
Proof.
  intros Hne He. unfold Tracker.removeEntry, Tracker.putEntry, entry in *.
  rewrite lookup_insert_eq. rewrite delete_insert_eq.
  destruct (o !! d) as [b|] eqn:E; cbn [default mbind option_bind] in *; unfold id.
  - rewrite delete_id by done.
    rewrite decide_False.
    + rewrite insert_insert_eq. by apply insert_id.
    + intros Hs%map_size_empty_iff. unfold id in Hs. by subst b.
  - rewrite delete_empty, map_size_empty. rewrite decide_True by done.
    by rewrite delete_insert_id.
Qed.

Lemma putEntry_removeEntry o d p v :
  entry o d p = Some v →
  Tracker.putEntry (Tracker.removeEntry o d p) d p v = o.
Proof.
  intros He. unfold Tracker.removeEntry, Tracker.putEntry, entry in *.
  destruct (o !! d) as [b|] eqn:E; cbn [mbind option_bind] in He; [|done].
  case_decide as Hs.
  - rewrite lookup_delete_eq. cbn [default].
    apply map_size_empty_iff in Hs. rewrite <- Hs.
    rewrite (insert_delete_id b p v He). by apply insert_delete_id.
  - rewrite lookup_insert_eq. cbn [default]. unfold id. rewrite insert_insert_eq.
    rewrite insert_delete_id by done. by apply insert_id.
Qed.

End round_trip.

Lemma toggle_untick_tick now1 now2 p g :
  exclusive g → noEmptyBucket g → getTodayKey now1 = getTodayKey now2 →
  isCompleted g (getTodayKey now1) p = true →
  Tracker.togglePrayer now2 p true (Tracker.togglePrayer now1 p false g) = g.
Proof.
  intros Hx Hn Hk Hc. rewrite isCompleted_entry in Hc. apply bool_decide_eq_true in Hc.
  destruct (Hx (getTodayKey now1) p) as [_ Hm]. specialize (Hm (ex_intro _ _ Hc)).
  unfold Tracker.togglePrayer at 1. rewrite <- Hk. rewrite putEntry_ensureDay.
  assert (Hcomp : Tracker.putEntry
                    (completedPrayers (Tracker.togglePrayer now1 p false g))
                    (getTodayKey now1) p true = completedPrayers g).
  { unfold Tracker.togglePrayer. cbn [completedPrayers].
    rewrite removeEntry_ensureDay. by apply putEntry_removeEntry. }
  assert (Hmiss : (if isMissed (Tracker.togglePrayer now1 p false g) (getTodayKey now1) p
                   then Tracker.removeEntry
                          (missedPrayers (Tracker.togglePrayer now1 p false g))
                          (getTodayKey now1) p
                   else missedPrayers (Tracker.togglePrayer now1 p false g))
                  = missedPrayers g).
  { rewrite isMissed_entry.
    destruct (togglePrayer_entries now1 p false g (getTodayKey now1) p) as [_ He].
    cbn zeta in He. rewrite He. rewrite decide_True by done.
    unfold Tracker.togglePrayer. cbn [missedPrayers].
    destruct (JS.gt _ _).
    - rewrite bool_decide_eq_true_2 by (by eexists).
      apply removeEntry_putEntry; [apply Hn | exact Hm].
    - rewrite Hm. by rewrite bool_decide_eq_false_2 by (by intros [? ?]). }
  rewrite Hcomp, Hmiss. by destruct g.
Qed.

Lemma toggle_tick_untick now1 now2 p g :
  exclusive g → noEmptyBucket g → getTodayKey now1 = getTodayKey now2 →
  statusOf g (getTodayKey now1) p = pending →
  JS.gt (str (currentTime now2)) (Classifier.getEndTime (prayerTimes g) p) = false →
  Tracker.togglePrayer now2 p false (Tracker.togglePrayer now1 p true g) = g.
Proof.
  intros Hx Hn Hk Hs Hgt. unfold statusOf in Hs.
  destruct (isCompleted g (getTodayKey now1) p) eqn:Hc; [done|].
  destruct (isMissed g (getTodayKey now1) p) eqn:Hm; [done|]. clear Hs.
  assert (Hce : entry (completedPrayers g) (getTodayKey now1) p = None).
  { rewrite isCompleted_entry in Hc. apply bool_decide_eq_false in Hc.
    destruct (Hx (getTodayKey now1) p) as [Ht _].
    destruct (entry (completedPrayers g) (getTodayKey now1) p) as [v|]; [|done].
    destruct Hc. by rewrite (Ht v). }
  unfold Tracker.togglePrayer at 1. rewrite <- Hk. rewrite removeEntry_ensureDay.
  unfold Tracker.togglePrayer. cbn [prayerTimes completedPrayers missedPrayers].
  rewrite Hgt, Hm, putEntry_ensureDay.
  rewrite removeEntry_putEntry by (apply Hn || done). by destruct g.
Qed.

(** X19. Ticking and unticking a prayer on the same day, in a state the
    tracker can reach.  Unticking a completed prayer and ticking it again
    gives the state back, at any clock: the missed entry that unticking
    writes after the end of the prayer is deleted again.  Ticking a pending
    prayer and unticking it gives the state back as long as the clock is not
    past the end of the prayer. *)
Theorem togglePrayer_round_trips (now1 now2 : Z) (prayer : string) (g : globals) :
  reachable g → getTodayKey now1 = getTodayKey now2 →
  let today := getTodayKey now1 in
  (isCompleted g today prayer = true →
     Tracker.togglePrayer now2 prayer true (Tracker.togglePrayer now1 prayer false g) = g)
  ∧ (statusOf g today prayer = pending →
     JS.gt (str (currentTime now2)) (Classifier.getEndTime (prayerTimes g) prayer) = false →
     Tracker.togglePrayer now2 prayer false (Tracker.togglePrayer now1 prayer true g) = g).
Proof.
  intros Hr Hk today.
  pose proof (reachable_exclusive g Hr) as Hx.
  pose proof (reachable_noEmpty g Hr) as Hn.
  split; [by apply toggle_untick_tick | by apply toggle_tick_untick].
Qed.

Lemma togglePrayer_round_trips_witness :
  let now := 1704092400000 in
  let later := 1704096000000 in
  let g := Tracker.togglePrayer now "Dhuhr" true
             (Tracker.checkForMissedPrayers now (fetchPrayerTimes now Failed initial)) in
  Tracker.togglePrayer later "Dhuhr" true (Tracker.togglePrayer now "Dhuhr" false g) = g
  ∧ Tracker.togglePrayer later "Asr" false (Tracker.togglePrayer now "Asr" true g) = g.
Proof.
  intros now later g.
  assert (Hr : reachable g).
  { eapply rtc_r; [eapply rtc_r; [eapply rtc_once|]|].
    - apply (step_fetch now Failed).
    - apply step_tick.
    - apply step_toggle. }
  assert (Hk : getTodayKey now = getTodayKey later) by (vm_compute; reflexivity).
  split.
  - apply (togglePrayer_round_trips _ _ "Dhuhr" g Hr Hk). vm_compute. reflexivity.
  - apply (togglePrayer_round_trips _ _ "Asr" g Hr Hk); vm_compute; reflexivity.
Defined.

(** ** The toggle and the summary *)

Lemma daysMissed_toggle now p checked g q :
  let today := getTodayKey now in
  let g' := Tracker.togglePrayer now p checked g in
  daysMissed g' q
  = if decide (p = q) then
      if checked then daysMissed g q ∖ {[today]}
      else if JS.gt (str (currentTime now)) (Classifier.getEndTime (prayerTimes g) p)
           then {[today]} ∪ daysMissed g q
           else daysMissed g q
    else daysMissed g q.
Proof.
  intros today g'. apply set_eq. intros d. unfold daysMissed at 1.
  rewrite elem_of_daysOf.
  destruct (togglePrayer_entries now p checked g d q) as [_ He].
  fold today g' in He. rewrite He. clear He.
  destruct (decide (p = q)) as [<-|Hne].
  - destruct (decide (today = d)) as [<-|Hd].
    + rewrite decide_True by done. destruct checked.
      * rewrite elem_of_difference, elem_of_singleton.
        split; [by intros [? ?] | by intros [_ ?]].
      * destruct (JS.gt _ _); [|by unfold daysMissed; rewrite elem_of_daysOf].
        rewrite elem_of_union, elem_of_singleton. split; [by left | by eexists].
    + rewrite decide_False by (by intros [? _]).
      unfold daysMissed. destruct checked.
      * rewrite elem_of_difference, elem_of_singleton, elem_of_daysOf.
        split; [by split | by intros [? _]].
      * destruct (JS.gt _ _); [|by rewrite elem_of_daysOf].
        rewrite elem_of_union, elem_of_singleton, elem_of_daysOf.
        split; [by right | by intros [?|?]].
  - rewrite decide_False by (by intros [_ ?]).
    unfold daysMissed. by rewrite elem_of_daysOf.
Qed.

Lemma count_of_days g p :
  (View.displayMissedPrayers g).1 !! p
  = if decide (daysMissed g p = ∅) then None
    else Some (Z.of_nat (size (daysMissed g p))).
Proof. apply (count_days (missedPrayers g)). Qed.

(** X20. The toggle and the summary of the missed prayers.  Ticking a prayer
    that is missed today lowers its count by one (the prayer leaves the
    summary when today was its only day); unticking a prayer that is not
    missed today, after its end, raises its count by one; in both cases the
    counts of the other prayers stay as they are. *)
Theorem togglePrayer_moves_count_by_one (now : Z) (prayer : string) (g : globals) :
  let today := getTodayKey now in
  let count g q := default 0 ((View.displayMissedPrayers g).1 !! q) in
  (isMissed g today prayer = true →
     let g' := Tracker.togglePrayer now prayer true g in
     count g' prayer = count g prayer - 1
     ∧ 1 ≤ count g prayer
     ∧ ((View.displayMissedPrayers g').1 !! prayer = None ↔ count g prayer = 1))
  ∧ (isMissed g today prayer = false →
     JS.gt (str (currentTime now)) (Classifier.getEndTime (prayerTimes g) prayer) = true →
     count (Tracker.togglePrayer now prayer false g) prayer = count g prayer + 1)
  ∧ (∀ checked q, q ≠ prayer →
       (View.displayMissedPrayers (Tracker.togglePrayer now prayer checked g)).1 !! q
       = (View.displayMissedPrayers g).1 !! q).
Proof.
  intros today count. subst count. cbn beta. split; [|split].
  - intros Hm g'. subst g'. rewrite !count_of_days.
    rewrite (daysMissed_toggle now prayer true g prayer). fold today.
    rewrite !(decide_True (P := prayer = prayer)) by done.
    assert (Hin : today ∈ daysMissed g prayer).
    { unfold daysMissed. rewrite elem_of_daysOf.
      rewrite isMissed_entry in Hm. by apply bool_decide_eq_true in Hm. }
    assert (Hsz : size (daysMissed g prayer)
                  = S (size (daysMissed g prayer ∖ {[today]}))).
    { rewrite size_difference by (by apply singleton_subseteq_l).
      rewrite size_singleton.
      assert (size (daysMissed g prayer) ≠ 0%nat); [|lia].
      intros H0%size_empty_inv. apply H0 in Hin. by apply elem_of_empty in Hin. }
    rewrite (decide_False (P := daysMissed g prayer = ∅))
      by (by apply (non_empty_inhabited_L today)).
    cbn [default]. unfold id. rewrite Hsz.
    destruct (decide (daysMissed g prayer ∖ {[today]} = ∅)) as [He|Hne].
    + rewrite He, size_empty. cbn [default]. split; [lia|]. split; [lia|done].
    + cbn [default]. unfold id. split; [lia|]. split; [lia|].
      split; [done|]. intros H1. destruct Hne. apply leibniz_equiv, size_empty_iff. lia.
  - intros Hm Hgt. rewrite !count_of_days.
    rewrite (daysMissed_toggle now prayer false g prayer). fold today.
    rewrite !(decide_True (P := prayer = prayer)) by done. rewrite Hgt.
    assert (Hnotin : today ∉ daysMissed g prayer).
    { unfold daysMissed. rewrite elem_of_daysOf.
      rewrite isMissed_entry in Hm. by apply bool_decide_eq_false in Hm. }
    assert (Hne : {[today]} ∪ daysMissed g prayer ≠ ∅).
    { apply (non_empty_inhabited_L today), elem_of_union. left.
      by apply elem_of_singleton. }
    rewrite (decide_False (P := {[today]} ∪ daysMissed g prayer = ∅)) by done.
    rewrite size_union by (by apply disjoint_singleton_l). rewrite size_singleton.
    cbn [default]. unfold id.
    destruct (decide (daysMissed g prayer = ∅)) as [->|?]; cbn [default]; unfold id.
    + by rewrite size_empty.
    + lia.
  - intros checked q Hq. rewrite !count_of_days.
    rewrite (daysMissed_toggle now prayer checked g q).
    by rewrite !(decide_False (P := prayer = q)) by done.
Qed.

Lemma togglePrayer_moves_count_by_one_witness :
  let now := 1704139500000 in
  let g := Tracker.checkForMissedPrayers now (fetchPrayerTimes now Failed initial) in
  let g' := Tracker.togglePrayer now "Asr" true g in
  (View.displayMissedPrayers g).1 !! "Asr" = Some 1
  ∧ (View.displayMissedPrayers g').1 !! "Asr" = None.
Proof.
  intros now g g'.
  assert (H1 : (View.displayMissedPrayers g).1 !! "Asr" = Some 1)
    by (vm_compute; reflexivity).
  split; [exact H1|].
  destruct (togglePrayer_moves_count_by_one now "Asr" g) as (Ha & _ & _).
  destruct Ha as (_ & _ & Hiff); [vm_compute; reflexivity|].
  apply Hiff. cbn beta. rewrite H1. reflexivity.
Defined.

(** ** The re-evaluation only adds *)

(** X21. [checkForMissedPrayers] only adds entries, and only for today and
    the prayers of today's list: an entry of the record is never deleted or
    changed, the entries of other days and other prayers stay as they are,
    and the table of the timings and the completed marks are not touched.
    So one run never lowers a count of the summary and raises it by one at
    most. *)
Theorem checkForMissedPrayers_only_adds (now : Z) (g : globals) :
  let today := getTodayKey now in
  let g' := Tracker.checkForMissedPrayers now g in
  let count g q := default 0 ((View.displayMissedPrayers g).1 !! q) in
  (∀ day q e, entry (missedPrayers g) day q = Some e →
              entry (missedPrayers g') day q = Some e)
  ∧ (∀ day q, day ≠ today ∨ q ∉ prayers (isFriday now) →
              entry (missedPrayers g') day q = entry (missedPrayers g) day q)
  ∧ prayerTimes g' = prayerTimes g
  ∧ completedPrayers g' = completedPrayers g
  ∧ (∀ q, count g q ≤ count g' q ≤ count g q + 1).
Proof.
  intros today g' count.
  destruct (check_loop now (prayers (isFriday now)) g) as (Ht & Hc & He).
  fold (Tracker.checkForMissedPrayers now g) in Ht, Hc, He. fold g' today in Ht, Hc, He.
  assert (Hkeep : ∀ day q e, entry (missedPrayers g) day q = Some e →
                             entry (missedPrayers g') day q = Some e).
  { intros day q e H. by rewrite He, H. }
  assert (Hframe : ∀ day q, day ≠ today ∨ q ∉ prayers (isFriday now) →
                            entry (missedPrayers g') day q = entry (missedPrayers g) day q).
  { intros day q H. rewrite He.
    destruct (entry (missedPrayers g) day q); [done|].
    rewrite decide_False; [done|]. intros [<- Hin]. by destruct H. }
  split; [exact Hkeep|]. split; [exact Hframe|]. split; [exact Ht|]. split; [exact Hc|].
  intros q. subst count. cbn beta. rewrite !count_of_days.
  assert (Hlow : daysMissed g q ⊆ daysMissed g' q).
  { intros d. unfold daysMissed. rewrite !elem_of_daysOf.
    intros [e H]. exists e. by apply Hkeep. }
  assert (Hup : daysMissed g' q ⊆ {[today]} ∪ daysMissed g q).
  { intros d. unfold daysMissed. rewrite elem_of_union, elem_of_singleton, !elem_of_daysOf.
    intros H. destruct (decide (d = today)) as [->|Hd]; [by left|].
    right. rewrite <- (Hframe d q) by (by left). done. }
  pose proof (subseteq_size _ _ Hlow) as S1.
  pose proof (subseteq_size _ _ Hup) as S2.
  rewrite size_union_alt, size_singleton in S2.
  pose proof (subseteq_size (daysMissed g q ∖ {[today]}) (daysMissed g q)
                (subseteq_difference_l _ _ _ (reflexivity _))) as S3.
  destruct (decide (daysMissed g q = ∅)) as [E0|N0];
    destruct (decide (daysMissed g' q = ∅)) as [E1|N1]; cbn [default]; unfold id.
  - lia.
  - rewrite E0, size_empty in *. lia.
  - destruct N0. apply leibniz_equiv, size_empty_iff.
    rewrite E1, size_empty in S1. lia.
  - lia.
Qed.

(** ** The toggle and the statistics *)

Lemma updateStats_count now g :
  (Tracker.updateStats now g).1
  = Z.of_nat (length (List.filter (isCompleted g (getTodayKey now))
                                  (prayers (isFriday now)))).
Proof.
  unfold Tracker.updateStats, isCompleted. cbn [fst].
  destruct (completedPrayers g !! getTodayKey now) as [b|].
  - by rewrite count_loop.
  - by destruct (isFriday now).
Qed.

Lemma filter_length_at (f f' : string → bool) (l : list string) (p : string) :
  NoDup l → p ∈ l → (∀ q, q ≠ p → f' q = f q) →
  Z.of_nat (length (List.filter f' l)) + (if f p then 1 else 0)
  = Z.of_nat (length (List.filter f l)) + (if f' p then 1 else 0).
Proof.
  intros Hnd Hin Hext. induction l as [|q l IH]; [by apply elem_of_nil in Hin|].
  apply NoDup_cons in Hnd as [Hq Hnd]. cbn [List.filter].
  apply elem_of_cons in Hin as [->|Hin].
  - assert (List.filter f' l = List.filter f l) as ->.
    { clear IH Hnd. induction l as [|r l IH]; [done|]. cbn [List.filter].
      apply not_elem_of_cons in Hq as [Hr Hq]. rewrite (Hext r) by done.
      by rewrite IH. }
    destruct (f q), (f' q); cbn [length]; lia.
  - specialize (IH Hnd Hin). rewrite (Hext q) by (intros ->; done).
    destruct (f q); cbn [length]; lia.
Qed.

Lemma isCompleted_toggle now p checked g q :
  isCompleted (Tracker.togglePrayer now p checked g) (getTodayKey now) q
  = if decide (p = q) then checked else isCompleted g (getTodayKey now) q.
Proof.
  rewrite !isCompleted_entry.
  destruct (togglePrayer_entries now p checked g (getTodayKey now) q) as [-> _].
  destruct (decide (p = q)) as [->|Hne].
  - rewrite decide_True by done. by destruct checked.
  - by rewrite decide_False by (by intros [_ ?]).
Qed.

Lemma prayers_NoDup friday : NoDup (prayers friday).
Proof.
  destruct friday; refine (bool_decide_unpack (NoDup _) _); vm_compute; exact I.
Qed.

(** X22. The toggle and the statistics of the day.  After the toggle of a
    prayer of today's list the completed count is the count before, plus one
    when the box is ticked, minus one when the prayer was completed before;
    and the remaining count moves the other way.  So ticking a prayer that
    was not completed raises the completed count by one, unticking a
    completed prayer lowers it by one, and the two counts always add up to
    5. *)
Theorem togglePrayer_moves_stats (now : Z) (prayer : string) (checked : bool)
    (g : globals) :
  prayer ∈ prayers (isFriday now) →
  let g' := Tracker.togglePrayer now prayer checked g in
  let was := isCompleted g (getTodayKey now) prayer in
  (Tracker.updateStats now g').1
  = (Tracker.updateStats now g).1 + (if checked then 1 else 0) - (if was then 1 else 0)
  ∧ (Tracker.updateStats now g').2
    = (Tracker.updateStats now g).2 - (if checked then 1 else 0) + (if was then 1 else 0).
Proof.
  intros Hin g' was.
  assert (H : (Tracker.updateStats now g').1
              = (Tracker.updateStats now g).1 + (if checked then 1 else 0)
                - (if was then 1 else 0)).
  { rewrite !updateStats_count.
    pose proof (filter_length_at (isCompleted g (getTodayKey now))
                  (isCompleted g' (getTodayKey now)) _ prayer
                  (prayers_NoDup (isFriday now)) Hin) as Hf.
    subst g'. rewrite isCompleted_toggle in Hf. rewrite decide_True in Hf by done.
    fold was in Hf. rewrite <- Hf; [lia|].
    intros q Hq. rewrite isCompleted_toggle. by rewrite decide_False by done. }
  split; [exact H|]. unfold Tracker.updateStats in *. cbn [fst snd] in *. lia.
Qed.

Lemma togglePrayer_moves_stats_witness :
  let now := 133200000 in
  let g := fetchPrayerTimes now Failed initial in
  Tracker.updateStats now g = (0, 5)
  ∧ Tracker.updateStats now (Tracker.togglePrayer now "Jummah" true g) = (1, 4).
Proof.
  intros now g.
  assert (H0 : Tracker.updateStats now g = (0, 5)) by (vm_compute; reflexivity).
  split; [exact H0|].
  destruct (togglePrayer_moves_stats now "Jummah" true g) as [H1 H2].
  - apply list_elem_of_In. vm_compute. auto.
  - rewrite H0 in H1, H2. cbn [fst snd] in H1, H2.
    destruct (Tracker.updateStats now (Tracker.togglePrayer now "Jummah" true g)) as [a b].
    cbn [fst snd] in H1, H2. rewrite H1, H2. vm_compute. reflexivity.
Defined.

(** ** The table after the request *)

Lemma formatTime_str t : Util.formatTime (str t) ≠ TypeError.
Proof.
  unfold Util.formatTime, andThen, inModel.
  destruct (Util.parseInt (Util.template _)); discriminate.
Qed.

Lemma displayCards_no_TypeError g todayKey ps :
  (∀ p, p ∈ ps → isString (Obj.get (prayerTimes g) p) = true
                 ∧ isString (Classifier.getEndTime (prayerTimes g) p) = true) →
  View.displayCards g todayKey ps ≠ TypeError.
Proof.
  induction ps as [|p ps IH]; intros H; cbn [View.displayCards]; [discriminate|].
  destruct (H p) as [Hs He]; [by left|].
  unfold View.displayCard.
  destruct (Obj.get (prayerTimes g) p) as [|t]; [discriminate|].
  destruct (Classifier.getEndTime (prayerTimes g) p) as [|e]; [discriminate|].
  pose proof (formatTime_str t). pose proof (formatTime_str e).
  destruct (Util.formatTime (str t)); cbn [andThen]; [|done|discriminate].
  destruct (Util.formatTime (str e)); cbn [andThen]; [|done|discriminate].
  assert (View.displayCards g todayKey ps ≠ TypeError) as Hps
    by (apply IH; intros q Hq; apply H; by right).
  destruct (View.displayCards g todayKey ps); cbn [andThen]; [discriminate|done|discriminate].
Qed.

Lemma complete_strings now tm p :
  complete tm = true → p ∈ prayers (isFriday now) →
  isString (Obj.get (fetchedTable now tm) p) = true
  ∧ isString (Classifier.getEndTime (fetchedTable now tm) p) = true.
Proof.
  unfold complete. rewrite !andb_true_iff.
  intros (((((HF & HS) & HD) & HA) & HM) & HI) Hin.
  destruct (table_starts now tm) as (SF & SD & SA & SM & SI & SJ).
  destruct (isFriday now) eqn:Hf.
  - destruct (getEndTime_friday now tm Hf) as (EF & _ & EJ & EA & EM & EI).
    specialize (SJ eq_refl). cbn [prayers] in Hin.
    repeat (apply elem_of_cons in Hin as [-> | Hin]);
      [| | | | | by apply elem_of_nil in Hin];
      rewrite ?SF, ?SJ, ?SA, ?SM, ?SI, ?EF, ?EJ, ?EA, ?EM, ?EI; done.
  - destruct (getEndTime_weekday now tm Hf) as (EF & ED & _ & EA & EM & EI).
    cbn [prayers] in Hin.
    repeat (apply elem_of_cons in Hin as [-> | Hin]);
      [| | | | | by apply elem_of_nil in Hin];
      rewrite ?SF, ?SD, ?SA, ?SM, ?SI, ?EF, ?ED, ?EA, ?EM, ?EI; done.
Qed.

(** X23. The table after the request for the timings.  Unless the answer
    has another code than 200 (nothing is done then), the table of the
    globals is afterwards the table of a complete set of timings, those of
    the answer or else the default ones: every prayer of today's list has a
    start and an end in it, and [displayPrayerTimes] renders it without a
    [TypeError].  The completed marks are never touched. *)
Theorem fetchPrayerTimes_leaves_complete_table (now : Z) (r : response) (g : globals) :
  r ≠ OtherCode →
  let g' := fetchPrayerTimes now r g in
  (∃ tm, complete tm = true ∧ prayerTimes g' = fetchedTable now tm
         ∧ (r = Timings tm ∨ tm = defaultTimings))
  ∧ (∀ p, p ∈ prayers (isFriday now) →
          isString (Obj.get (prayerTimes g') p) = true
          ∧ isString (Classifier.getEndTime (prayerTimes g') p) = true)
  ∧ View.displayPrayerTimes now g' ≠ TypeError
  ∧ completedPrayers g' = completedPrayers g.
Proof.
  intros Hr g'.
  assert (H : ∃ tm, complete tm = true ∧ prayerTimes g' = fetchedTable now tm
                    ∧ (r = Timings tm ∨ tm = defaultTimings)
                    ∧ completedPrayers g' = completedPrayers g).
  { subst g'. destruct r as [tm| |]; cbn [fetchPrayerTimes]; [|done|].
    - destruct (complete tm) eqn:Hc.
      + exists tm.
        destruct (check_loop now (prayers (isFriday now))
                    (withTable (fetchedTable now tm) g)) as (Ht & Hd & _).
        fold (Tracker.checkForMissedPrayers now (withTable (fetchedTable now tm) g))
          in Ht, Hd.
        rewrite Ht, Hd. split; [done|]. split; [done|]. split; [by left|done].
      + exists defaultTimings. split; [done|]. split; [done|]. split; [by right|done].
    - exists defaultTimings. split; [done|]. split; [done|]. split; [by right|done]. }
  destruct H as (tm & Hc & Ht & Hor & Hd).
  assert (Hs : ∀ p, p ∈ prayers (isFriday now) →
               isString (Obj.get (prayerTimes g') p) = true
               ∧ isString (Classifier.getEndTime (prayerTimes g') p) = true).
  { intros p Hp. rewrite Ht. by apply complete_strings. }
  split; [by exists tm|]. split; [exact Hs|]. split; [|exact Hd].
  by apply displayCards_no_TypeError.
Qed.

Lemma fetchPrayerTimes_leaves_complete_table_witness :
  let now := 1704139500000 in
  let tm := {| t_Fajr := str "05:21"; t_Sunrise := str "06:40"; t_Dhuhr := str "12:03";
               t_Asr := undefined; t_Maghrib := str "17:24"; t_Isha := str "18:45" |} in
  let g' := fetchPrayerTimes now (Timings tm) initial in
  prayerTimes g' = defaultTable now ∧ View.displayPrayerTimes now g' ≠ TypeError.
Proof.
  intros now tm g'. split; [vm_compute; reflexivity|].
  destruct (fetchPrayerTimes_leaves_complete_table now (Timings tm) initial)
    as (_ & _ & H & _); [discriminate | exact H].
Defined.

(** ** The minute at which a prayer becomes missed *)

Lemma past_end_minutes now e :
  is_hhmm e = true →
  JS.gt (str (currentTime now)) (str e) = (minutes_of e <? minutes_of (currentTime now)).
Proof.
  intros He. cbn [JS.gt]. apply ltb_hhmm; [done|apply currentTime_wf].
Qed.

Lemma statusOf_missed g d p :
  statusOf g d p = missed ↔ isCompleted g d p = false ∧ isMissed g d p = true.
Proof.
  unfold statusOf. destruct (isCompleted g d p), (isMissed g d p); intuition discriminate.
Qed.

Lemma statusOf_pending g d p :
  statusOf g d p = pending ↔ isCompleted g d p = false ∧ isMissed g d p = false.
Proof.
  unfold statusOf. destruct (isCompleted g d p), (isMissed g d p); intuition discriminate.
Qed.

(** X24. A pending prayer of today's list whose end is a well-formed time
    becomes missed, by the re-evaluation as by unticking its box, exactly
    when the minute of the clock is after the minute of its end: at the end
    minute itself the prayer is still on time. *)
Theorem missed_after_the_end_minute (now : Z) (g : globals) (prayer e : string) :
  prayer ∈ prayers (isFriday now) →
  Classifier.getEndTime (prayerTimes g) prayer = str e → is_hhmm e = true →
  let today := getTodayKey now in
  statusOf g today prayer = pending →
  let c := Date.getHours now * 60 + Date.getMinutes now in
  (statusOf (Tracker.checkForMissedPrayers now g) today prayer = missed
   ↔ minutes_of e < c)
  ∧ (statusOf (Tracker.togglePrayer now prayer false g) today prayer = missed
     ↔ minutes_of e < c).
Proof.
  intros Hin Hend He today [Hc Hm]%statusOf_pending c.
  assert (Hgt : JS.gt (str (currentTime now)) (Classifier.getEndTime (prayerTimes g) prayer)
                = (minutes_of e <? c)).
  { rewrite Hend, past_end_minutes by done. subst c.
    by rewrite (proj2 (currentTime_wf now)). }
  assert (Hme : entry (missedPrayers g) today prayer = None).
  { rewrite isMissed_entry in Hm. apply bool_decide_eq_false in Hm.
    destruct (entry (missedPrayers g) today prayer); [|done]. destruct Hm. by eexists. }
  split.
  - rewrite statusOf_missed.
    destruct (check_loop now (prayers (isFriday now)) g) as (_ & Hcp & Hen).
    fold (Tracker.checkForMissedPrayers now g) in Hcp, Hen.
    rewrite isMissed_entry, Hen. fold today. rewrite Hme.
    rewrite decide_True by done.
    unfold isCompleted at 1. rewrite Hcp. fold (isCompleted g today prayer). rewrite Hc.
    unfold due. fold today. rewrite Hgt, Hc. cbn [negb]. rewrite andb_true_r.
    destruct (Z.ltb_spec (minutes_of e) c).
    + split; [done|]. intros _. split; [done|].
      apply bool_decide_eq_true. by eexists.
    + split; [|lia]. intros [_ H']. apply bool_decide_eq_true in H'.
      by destruct H'.
  - rewrite statusOf_missed.
    destruct (togglePrayer_entries now prayer false g today prayer) as [Hce Hen].
    cbn zeta in Hce, Hen. fold today in Hce, Hen.
    rewrite decide_True in Hce by done. rewrite decide_True in Hen by done.
    rewrite isCompleted_entry, isMissed_entry. fold today. rewrite Hce, Hen, Hgt, Hme.
    rewrite bool_decide_eq_false_2 by done.
    destruct (Z.ltb_spec (minutes_of e) c).
    + split; [done|]. intros _. split; [done|].
      apply bool_decide_eq_true. by eexists.
    + split; [|lia]. intros [_ H']. apply bool_decide_eq_true in H'.
      by destruct H'.
Qed.

Lemma missed_after_the_end_minute_witness :
  let at_end := 1704123900000 in
  let after := 1704123960000 in
  let g := fetchPrayerTimes at_end Failed initial in
  currentTime at_end = "15:45" ∧ currentTime after = "15:46"
  ∧ statusOf (Tracker.checkForMissedPrayers at_end g) "1-1-2024" "Dhuhr" ≠ missed
  ∧ statusOf (Tracker.checkForMissedPrayers after g) "1-1-2024" "Dhuhr" = missed.
Proof.
  intros at_end after g.
  split; [vm_compute; reflexivity|]. split; [vm_compute; reflexivity|].
  assert (Hin : ∀ now, isFriday now = false → "Dhuhr" ∈ prayers (isFriday now)).
  { intros now ->. apply list_elem_of_In. vm_compute. auto. }
  split.
  - intros H.
    apply (missed_after_the_end_minute at_end g "Dhuhr" "15:45") in H;
      [vm_compute in H; discriminate | by apply Hin | reflexivity | reflexivity
       | vm_compute; reflexivity].
  - apply (missed_after_the_end_minute after g "Dhuhr" "15:45");
      [by apply Hin | reflexivity | reflexivity | vm_compute; reflexivity
       | vm_compute; reflexivity].
Defined.

(** X25. On a table that was built on another day than a Friday the end of
    Isha is the sentinel 23:59, which no clock is after: neither the
    re-evaluation nor the unticking of its box ever writes a missed entry for
    Isha. *)
Theorem isha_never_missed_on_weekday_table (built now : Z) (tm : timings)
    (g : globals) (day : string) :
  isFriday built = false → prayerTimes g = fetchedTable built tm →
  entry (missedPrayers (Tracker.checkForMissedPrayers now g)) day "Isha"
  = entry (missedPrayers g) day "Isha"
  ∧ entry (missedPrayers (Tracker.togglePrayer now "Isha" false g)) day "Isha"
    = entry (missedPrayers g) day "Isha".
Proof.
  intros Hf Ht.
  assert (Hgt : JS.gt (str (currentTime now))
                  (Classifier.getEndTime (prayerTimes g) "Isha") = false).
  { rewrite Ht. destruct (getEndTime_weekday built tm Hf) as (_ & _ & _ & _ & _ & ->).
    apply currentTime_not_after_sentinel. }
  split.
  - destruct (check_loop now (prayers (isFriday now)) g) as (_ & _ & Hen).
    fold (Tracker.checkForMissedPrayers now g) in Hen. rewrite Hen.
    destruct (entry (missedPrayers g) day "Isha"); [done|].
    case_decide; [|done]. unfold due. by rewrite Hgt.
  - destruct (togglePrayer_entries now "Isha" false g day "Isha") as [_ Hen].
    cbn zeta in Hen. rewrite Hen, Hgt. by case_decide.
Qed.

Lemma isha_never_missed_on_weekday_table_witness :
  let now := 1704153540000 in
  let g := fetchPrayerTimes now Failed initial in
  currentTime now = "23:59"
  ∧ entry (missedPrayers (Tracker.checkForMissedPrayers now g)) "1-1-2024" "Isha" = None.
Proof.
  intros now g. split; [vm_compute; reflexivity|].
  destruct (isha_never_missed_on_weekday_table now now defaultTimings g "1-1-2024")
    as [H _]; [vm_compute; reflexivity | reflexivity |].
  rewrite H. vm_compute. reflexivity.
Defined.
(** ** The daily reset runs once a day *)

Lemma append_inj_length (a1 a2 b1 b2 : string) :
  String.length a1 = String.length a2 → a1 ++ b1 = a2 ++ b2 → a1 = a2 ∧ b1 = b2.
Proof.
  revert a2. induction a1 as [|c1 a1 IH]; intros [|c2 a2]; try discriminate.
  - done.
  - cbn [String.length]. intros [= Hl]. change (String c1 a1 ++ b1) with (String c1 (a1 ++ b1)).
    change (String c2 a2 ++ b2) with (String c2 (a2 ++ b2)). intros [= -> H].
    destruct (IH _ Hl H) as [-> ->]. done.
Qed.

Lemma dayName_length d : 0 ≤ d < 7 → String.length (Reset.dayName d) = 3%nat.
Proof.
  intros H.
  assert (Hb : below 7 (fun d => Nat.eqb (String.length (Reset.dayName d)) 3) = true)
    by (vm_compute; reflexivity).
  apply Nat.eqb_eq. exact (below_spec _ _ _ Hb H).
Qed.

Lemma monthName_length m : 0 ≤ m < 12 → String.length (Reset.monthName m) = 3%nat.
Proof.
  intros H.
  assert (Hb : below 12 (fun m => Nat.eqb (String.length (Reset.monthName m)) 3) = true)
    by (vm_compute; reflexivity).
  apply Nat.eqb_eq. exact (below_spec _ _ _ Hb H).
Qed.

Lemma monthName_inj m1 m2 :
  0 ≤ m1 < 12 → 0 ≤ m2 < 12 → Reset.monthName m1 = Reset.monthName m2 → m1 = m2.
Proof.
  intros H1 H2 He.
  assert (Hb : below 12 (fun a => below 12 (fun b =>
                 implb (String.eqb (Reset.monthName a) (Reset.monthName b)) (a =? b)))
             = true) by (vm_compute; reflexivity).
  pose proof (below_spec _ _ _ (below_spec _ _ _ Hb H1) H2) as Hz. cbn beta in Hz.
  rewrite He, String.eqb_refl in Hz. by apply Z.eqb_eq.
Qed.

Lemma two_inj a b : 0 ≤ a < 100 → 0 ≤ b < 100 → two a = two b → a = b.
Proof.
  intros Ha Hb He. pose proof (Number_two a Ha) as Na. rewrite He, Number_two in Na by done.
  by injection Na.
Qed.

Lemma digits_zeros (l : list string) s :
  Forall (eq "0") l →
  JS.digits 0 (String.concat "" l ++ s) = JS.digits 0 s.
Proof.
  induction 1 as [|x l <- Hl IH]; [done|].
  cbn [String.concat]. destruct l as [|y l].
  - reflexivity.
  - change ("0" ++ "" ++ String.concat "" (y :: l)) with
      (String "0" (String.concat "" (y :: l))).
    change (String "0" (String.concat "" (y :: l)) ++ s)
      with (String "0" (String.concat "" (y :: l) ++ s)).
    cbn [JS.digits]. exact IH.
Qed.

Lemma yearText_digits y : 0 ≤ y → JS.digits 0 (Reset.yearText y) = Some y.
Proof.
  intros Hy. unfold Reset.yearText. destruct (Z.ltb_spec y 0); [lia|].
  change ("" ++ ?x) with x. rewrite Z.abs_eq by done. unfold JS.padStart0.
  rewrite digits_zeros by apply Forall_replicate_eq.
  by apply to_string_digits.
Qed.

Lemma toDateString_day t1 t2 :
  Date.Day t1 = Date.Day t2 → Reset.toDateString t1 = Reset.toDateString t2.
Proof.
  intros H. unfold Reset.toDateString, Date.getDay, Date.getMonth, Date.getDate,
    Date.getFullYear. by rewrite H.
Qed.

Lemma toDateString_inj t1 t2 :
  0 ≤ t1 ≤ 8640000000000000 → 0 ≤ t2 ≤ 8640000000000000 →
  Reset.toDateString t1 = Reset.toDateString t2 → Date.Day t1 = Date.Day t2.
Proof.
  intros H1 H2.
  assert (Hz : ∀ t, 0 ≤ t ≤ 8640000000000000 → 0 ≤ Date.Day t ≤ 100000000).
  { intros t Ht. unfold Date.Day, Date.msPerDay. Z.div_mod_to_equations; lia. }
  unfold Reset.toDateString, Date.getDay, Date.getMonth, Date.getDate, Date.getFullYear.
  pose proof (civil_fields (Date.Day t1) (Hz t1 H1)) as F1.
  pose proof (civil_fields (Date.Day t2) (Hz t2 H2)) as F2.
  pose proof (days_from_civil_from_days (Date.Day t1)) as R1.
  pose proof (days_from_civil_from_days (Date.Day t2)) as R2.
  destruct (Date.civil_from_days (Date.Day t1)) as [[y1 m1] d1].
  destruct (Date.civil_from_days (Date.Day t2)) as [[y2 m2] d2].
  cbn [fst snd]. rewrite !pad_two by lia. intros He.
  apply append_inj_length in He as [_ He];
    [|rewrite !dayName_length; [done| |]; apply Z.mod_pos_bound; lia].
  apply (append_inj_length " " " ") in He as [_ He]; [|done].
  apply append_inj_length in He as [Hm He];
    [|rewrite !monthName_length; [done| |]; lia].
  apply (append_inj_length " " " ") in He as [_ He]; [|done].
  apply append_inj_length in He as [Hd He]; [|done].
  apply (append_inj_length " " " ") in He as [_ He]; [|done].
  apply monthName_inj in Hm; [|lia|lia].
  apply two_inj in Hd; [|lia|lia].
  apply (f_equal (JS.digits 0)) in He. rewrite !yearText_digits in He by lia.
  injection He as He.
  destruct R1 as [<- _], R2 as [<- _]. f_equal; lia.
Qed.

Lemma strictNe_str a b : Reset.strictNe (str a) (str b) = negb (String.eqb a b).
Proof. done. Qed.

(** X26. [checkDailyReset] runs the sweep once a day.  When the day it has
    on record is the day of the clock it does nothing; when it has no day on
    record, or another day, it puts the day of the clock on record and runs
    the sweep. *)
Theorem checkDailyReset_once_a_day (now : Z) (lastReset : jsval) (g : globals) :
  0 ≤ now ≤ 8640000000000000 → keysModelled g = true →
  (∀ past, 0 ≤ past ≤ 8640000000000000 →
           lastReset = str (Reset.toDateString past) → Date.Day past = Date.Day now →
           Reset.checkDailyReset now (lastReset, g) = Normal (lastReset, g))
  ∧ (lastReset = undefined
     ∨ (∃ past, 0 ≤ past ≤ 8640000000000000
                ∧ lastReset = str (Reset.toDateString past)
                ∧ Date.Day past ≠ Date.Day now) →
     ∃ g', Retention.cleanOldData now g = Normal g'
           ∧ Reset.checkDailyReset now (lastReset, g)
             = Normal (str (Reset.toDateString now), g')).
Proof.
  intros Hn Hk. split.
  - intros past Hp -> Hd. unfold Reset.checkDailyReset. cbn [fst snd].
    rewrite strictNe_str, (toDateString_day past now Hd). by rewrite String.eqb_refl.
  - intros Hl. destruct (cleanOldData_total now g Hk) as [g' Hg']. exists g'.
    split; [exact Hg'|]. unfold Reset.checkDailyReset. cbn [fst snd].
    assert (Reset.strictNe lastReset (str (Reset.toDateString now)) = true) as ->.
    { destruct Hl as [->|(past & Hp & -> & Hd)]; [done|].
      rewrite strictNe_str. apply negb_true_iff, String.eqb_neq.
      intros He. by apply Hd, toDateString_inj. }
    by rewrite Hg'.
Qed.

Lemma checkDailyReset_once_a_day_witness :
  let now := 1706781600000 in
  let bucket day := {[ "Fajr" := {| date := day; time := str "05:00" |} ]} in
  let g := {| prayerTimes := defaultTable now;
              missedPrayers := {[ "1-1-2024" := bucket "1-1-2024";
                                  "3-1-2024" := bucket "3-1-2024" ]};
              completedPrayers := ∅ |} in
  Reset.toDateString now = "Thu Feb 01 2024"
  ∧ (∃ g', Retention.cleanOldData now g = Normal g'
           ∧ Reset.checkDailyReset now (str "Wed Jan 31 2024", g)
             = Normal (str "Thu Feb 01 2024", g'))
  ∧ Reset.checkDailyReset (now + 3600000) (str "Thu Feb 01 2024", g)
    = Normal (str "Thu Feb 01 2024", g).
Proof.
  intros now bucket g.
  assert (Ht : Reset.toDateString now = "Thu Feb 01 2024") by (vm_compute; reflexivity).
  split; [exact Ht|].
  assert (Hr : 0 ≤ now ≤ 8640000000000000) by (vm_compute; split; discriminate).
  assert (Hk : keysModelled g = true) by (vm_compute; reflexivity).
  split.
  - destruct (checkDailyReset_once_a_day now (str "Wed Jan 31 2024") g Hr Hk) as [_ H].
    destruct H as (g' & Hc & Hg').
    { right. exists (now - 86400000).
      split; [vm_compute; split; discriminate|].
      split; [vm_compute; reflexivity | vm_compute; discriminate]. }
    exists g'. rewrite Ht in Hg'. split; [exact Hc | exact Hg'].
  - assert (Hr' : 0 ≤ now + 3600000 ≤ 8640000000000000)
      by (vm_compute; split; discriminate).
    destruct (checkDailyReset_once_a_day (now + 3600000) (str "Thu Feb 01 2024") g Hr' Hk)
      as [H' _].
    apply (H' now Hr); [by rewrite Ht | vm_compute; reflexivity].
Defined.
(** ** The status of the cards needs three timings *)

Lemma addMinutes_str t d : TimeMath.addMinutes (str t) d ≠ TypeError.
Proof.
  unfold TimeMath.addMinutes. destruct (_ ≫= _); discriminate.
Qed.

Lemma getTimeDifference_str f t : Util.getTimeDifference (str f) (str t) ≠ TypeError.
Proof.
  unfold Util.getTimeDifference, andThen, inModel.
  destruct (_ ≫= _) as [d|]; cbv beta iota; [|discriminate].
  destruct (Util.numGt _ _); discriminate.
Qed.

Lemma findNext_str tbl c ps p v :
  View.findNext tbl c ps = Some (p, v) → ∃ t, v = str t.
Proof.
  induction ps as [|q ps IH]; cbn [View.findNext]; [done|].
  destruct (JS.lt (str c) (Obj.get tbl (lookupName q))) eqn:Hlt; [|exact IH].
  intros [= <- <-]. destruct (Obj.get tbl (lookupName q)) as [|t]; [done|by exists t].
Qed.

Lemma updateNextPrayer_no_TypeError now tbl :
  Obj.get tbl "Fajr" ≠ undefined → View.updateNextPrayer now tbl ≠ TypeError.
Proof.
  intros HF. unfold View.updateNextPrayer.
  destruct (View.findNext _ _ _) as [[p v]|] eqn:Hn.
  - apply findNext_str in Hn as [t ->].
    pose proof (getTimeDifference_str (currentTime now) t) as H1.
    pose proof (formatTime_str t) as H2.
    destruct (Util.getTimeDifference _ _); cbn [andThen]; [|done|discriminate].
    destruct (Util.formatTime _); cbn [andThen]; [discriminate|done|discriminate].
  - destruct (Obj.get tbl "Fajr") as [|t]; [done|].
    pose proof (formatTime_str t) as H2.
    destruct (Util.formatTime _); cbn [andThen]; [discriminate|done|discriminate].
Qed.

Lemma addMinutes_wf_Normal t d :
  is_hhmm t = true → Z.abs d ≤ 2 ^ 52 → ∃ r, TimeMath.addMinutes (str t) d = Normal r.
Proof. intros Ht Hd. rewrite addMinutes_hhmm by done. by eexists. Qed.

(** X27. [updatePrayerStatus] and a table that lacks timings.  With Fajr,
    Dhuhr and Maghrib each a well-formed time or missing, the function
    raises a [TypeError] exactly when one of the three is missing, whatever
    the clock; so it does on the empty table the script starts with. *)
Theorem updatePrayerStatus_needs_three_timings (now : Z) (tbl : Obj.t) :
  threeWellFormedOrMissing tbl = true →
  View.updatePrayerStatus now tbl = TypeError
  ↔ Obj.get tbl "Fajr" = undefined ∨ Obj.get tbl "Dhuhr" = undefined
    ∨ Obj.get tbl "Maghrib" = undefined.
Proof.
  intros Hwf.
  unfold threeWellFormedOrMissing in Hwf. cbn [forallb] in Hwf.
  rewrite !andb_true_iff in Hwf. destruct Hwf as (WF & WD & WM & _).
  unfold View.updatePrayerStatus, Classifier.isInForbiddenTime, TimeMath.subtractMinutes.
  change (- (10)) with (-10). change (- (15)) with (-15).
  destruct (Obj.get tbl "Fajr") as [|f] eqn:EF; [split; [by left|done]|].
  destruct (addMinutes_wf_Normal f 90 WF) as [r1 ->]; [lia|].
  destruct (Obj.get tbl "Dhuhr") as [|d] eqn:ED; [split; [by right; left|done]|].
  destruct (addMinutes_wf_Normal d (-10) WD) as [r2 ->]; [lia|].
  destruct (Obj.get tbl "Maghrib") as [|m] eqn:EM; [split; [by right; right|done]|].
  destruct (addMinutes_wf_Normal m (-15) WM) as [r3 ->]; [lia|].
  cbn [andThen].
  assert (HN : View.updateNextPrayer now tbl ≠ TypeError)
    by (apply updateNextPrayer_no_TypeError; by rewrite EF).
  split; [|by intros [?|[?|?]]].
  destruct (View.updateNextPrayer now tbl); cbn [andThen]; [discriminate|done|discriminate].
Qed.

Lemma updatePrayerStatus_needs_three_timings_witness :
  let now := 1704139500000 in
  let tm := {| t_Fajr := str "05:21"; t_Sunrise := str "06:40"; t_Dhuhr := undefined;
               t_Asr := str "15:02"; t_Maghrib := str "17:24"; t_Isha := str "18:45" |} in
  View.updatePrayerStatus now (fetchedTable now tm) = TypeError
  ∧ View.updatePrayerStatus now (prayerTimes initial) = TypeError
  ∧ View.updatePrayerStatus now (defaultTable now) ≠ TypeError.
Proof.
  intros now tm. split; [|split].
  - apply (updatePrayerStatus_needs_three_timings now (fetchedTable now tm));
      [vm_compute; reflexivity | right; left; vm_compute; reflexivity].
  - apply (updatePrayerStatus_needs_three_timings now (prayerTimes initial));
      [vm_compute; reflexivity | left; vm_compute; reflexivity].
  - intros H.
    apply (updatePrayerStatus_needs_three_timings now (defaultTable now)) in H;
      [|vm_compute; reflexivity].
    destruct H as [H|[H|H]]; vm_compute in H; discriminate.
Defined.
(** ** The records are keyed by the day *)

Lemma keyed_initial : keyedByDay initial.
Proof.
  intros d p. unfold entry. cbn. rewrite !lookup_empty. cbn.
  split; [done|]. by intros [[? ?]|[? ?]].
Qed.

Lemma keyed_withTable tbl g : keyedByDay g → keyedByDay (withTable tbl g).
Proof. intros H d p. apply H. Qed.

Lemma keyed_toggle now p checked g :
  keyedByDay g → keyedByDay (Tracker.togglePrayer now p checked g).
Proof.
  intros H d q. destruct (H d q) as [Hd Hk].
  destruct (togglePrayer_entries now p checked g d q) as [-> ->].
  case_decide as Hq; [|done]. destruct Hq as [<- <-].
  split.
  - destruct checked; [done|]. destruct (JS.gt _ _); [|exact Hd].
    by intros e [= <-].
  - intros _. by exists now.
Qed.

Lemma keyed_check now g :
  keyedByDay g → keyedByDay (Tracker.checkForMissedPrayers now g).
Proof.
  intros H d q. destruct (H d q) as [Hd Hk].
  destruct (check_loop now (prayers (isFriday now)) g) as (_ & Hc & He).
  fold (Tracker.checkForMissedPrayers now g) in Hc, He. rewrite Hc, He.
  destruct (entry (missedPrayers g) d q) as [e0|] eqn:E0; [done|].
  case_decide as Hq; [|done]. destruct Hq as [<- Hin].
  split.
  - destruct (due now g q); [|done]. by intros e [= <-].
  - intros _. by exists now.
Qed.

Lemma keyed_clean now g g' :
  Retention.cleanOldData now g = Normal g' → keyedByDay g → keyedByDay g'.
Proof.
  intros Hc H d q. destruct (H d q) as [Hd Hk].
  destruct (cleanOldData_entries now g g' d q Hc) as [-> ->].
  destruct (older _ d); [|done].
  split; [done|]. by intros [[? ?]|[? ?]].
Qed.

Lemma keyed_fetch now r g : keyedByDay g → keyedByDay (fetchPrayerTimes now r g).
Proof.
  intros H. destruct r as [tm| |]; cbn [fetchPrayerTimes]; [|done|].
  - destruct (complete tm).
    + by apply keyed_check, keyed_withTable.
    + by apply keyed_withTable.
  - by apply keyed_withTable.
Qed.

Lemma reachable_keyed g : reachable g → keyedByDay g.
Proof.
  unfold reachable. intros H.
  apply (rtc_ind_r (R := step) (fun g => keyedByDay g) initial);
    [apply keyed_initial | | exact H].
  intros y z _ Hs IH. destruct Hs.
  - by apply keyed_fetch.
  - by apply keyed_toggle.
  - by apply keyed_check.
  - by eapply keyed_clean.
Qed.

(** X28. In every state the tracker can reach, every day of the two records
    is a key that [getTodayKey] wrote for some clock reading, and every
    missed entry carries in its field [date] the key of the day it is filed
    under. *)
Theorem records_are_keyed_by_day (g : globals) :
  reachable g →
  (∀ day, is_Some (missedPrayers g !! day) ∨ is_Some (completedPrayers g !! day) →
          ∃ now, day = getTodayKey now)
  ∧ (∀ day prayer e, entry (missedPrayers g) day prayer = Some e → date e = day).
Proof.
  intros Hr. pose proof (reachable_keyed g Hr) as Hk.
  pose proof (reachable_noEmpty g Hr) as Hn.
  split.
  - intros day [Hm|Hc].
    + apply (bucket_has_entry _ _ (proj1 (Hn day))) in Hm as [p Hp].
      destruct (Hk day p) as [_ H]. apply H. by left.
    + apply (bucket_has_entry _ _ (proj2 (Hn day))) in Hc as [p Hp].
      destruct (Hk day p) as [_ H]. apply H. by right.
  - intros day p e He. destruct (Hk day p) as [H _]. by apply H.
Qed.

Lemma records_are_keyed_by_day_witness :
  let now := 1704139500000 in
  let g := Tracker.checkForMissedPrayers now (fetchPrayerTimes now Failed initial) in
  entry (missedPrayers g) "1-1-2024" "Asr"
  = Some {| date := "1-1-2024"; time := str "15:45" |}
  ∧ ∃ clock, "1-1-2024" = getTodayKey clock.
Proof.
  intros now g.
  assert (He : entry (missedPrayers g) "1-1-2024" "Asr"
               = Some {| date := "1-1-2024"; time := str "15:45" |})
    by (vm_compute; reflexivity).
  split; [exact He|].
  assert (Hr : reachable g).
  { eapply rtc_r; [eapply rtc_once|].
    - apply (step_fetch now Failed).
    - apply step_tick. }
  assert (Hs : is_Some (missedPrayers g !! "1-1-2024"))
    by (vm_compute; eexists; reflexivity).
  destruct (records_are_keyed_by_day g Hr) as [H _].
  exact (H "1-1-2024" (or_introl Hs)).
Defined.
